(** * Housing-statistics pipelines (module_1/week_8): task_3, task_4, task_5

    A shallow embedding of the three batch scripts and of the part of the
    pandas semantics they rely on, followed by the properties of the
    derivation engine, the joins, the pivot and the maxima flags.

    Modelling conventions.
    - A DataFrame with a fixed schema is a [list] of records, one record
      per row, in row order.  Column names are the field names.
    - A numeric cell that pandas may hold as NaN (a count column after a
      merge, a pivot cell) is an [option Z]; [None] is NaN.  A column of
      integer dtype is a [Z].
    - A float64 value is a [float64]: NaN, the two infinities, or a finite
      value carried as an exact rational.  Binary rounding error of the
      finite values and the sign of zero are not modelled.
    - A string key is a [string] of 8-bit characters; case mapping and
      whitespace are the ASCII ones. *)

From Stdlib Require Import List ZArith QArith Qround Qfield String Ascii Bool Lia Lqa Permutation.
Import ListNotations.

Local Open Scope Z_scope.

(** ** The pandas / numpy operations used by the scripts *)

Module Pandas.

(** float64 values. *)
Inductive float64 : Type :=
| NaN
| PInf
| NInf
| Fin (q : Q).

Definition of_int (z : Z) : float64 := Fin (inject_Z z).

(** A nullable count column read as float64. *)
Definition of_cell (c : option Z) : float64 :=
  match c with
  | Some z => of_int z
  | None => NaN
  end.

Definition isna (v : float64) : bool :=
  match v with
  | NaN => true
  | _ => false
  end.

Definition notna (v : float64) : bool := negb (isna v).

(** [a / b] on float64 (numpy true division, errors ignored): a finite
    non-zero value over zero is an infinity, 0/0 is NaN. *)
Definition truediv (a b : float64) : float64 :=
  match a, b with
  | NaN, _ | _, NaN => NaN
  | Fin x, Fin y =>
      if Qeq_bool y 0 then
        match Qcompare x 0 with
        | Eq => NaN
        | Gt => PInf
        | Lt => NInf
        end
      else Fin (x / y)
  | Fin _, (PInf | NInf) => Fin 0
  | (PInf | NInf), (PInf | NInf) => NaN
  | PInf, Fin y => if Qle_bool 0 y then PInf else NInf
  | NInf, Fin y => if Qle_bool 0 y then NInf else PInf
  end.

(** [a * b] on float64. *)
Definition mul (a b : float64) : float64 :=
  match a, b with
  | NaN, _ | _, NaN => NaN
  | Fin x, Fin y => Fin (x * y)
  | PInf, PInf | NInf, NInf => PInf
  | PInf, NInf | NInf, PInf => NInf
  | PInf, Fin y | Fin y, PInf =>
      match Qcompare y 0 with
      | Eq => NaN
      | Gt => PInf
      | Lt => NInf
      end
  | NInf, Fin y | Fin y, NInf =>
      match Qcompare y 0 with
      | Eq => NaN
      | Gt => NInf
      | Lt => PInf
      end
  end.

(** Round to the nearest integer, ties to the even one (numpy [rint]). *)
Definition round_half_even (q : Q) : Z :=
  let f := Qfloor q in
  match Qcompare (q - inject_Z f) (1 # 2) with
  | Lt => f
  | Gt => f + 1
  | Eq => if Z.even f then f else f + 1
  end.

(** [Series.round(2)]: scale by 100, round, scale back; NaN and the
    infinities pass through. *)
Definition round2 (v : float64) : float64 :=
  match v with
  | Fin q => Fin (inject_Z (round_half_even (q * 100)) / 100)
  | _ => v
  end.

(** [Series.fillna(d)] on one value: only NaN is replaced. *)
Definition fillna (v d : float64) : float64 :=
  if isna v then d else v.

(** [==] on float64: NaN equals nothing. *)
Definition feqb (a b : float64) : bool :=
  match a, b with
  | Fin x, Fin y => Qeq_bool x y
  | PInf, PInf | NInf, NInf => true
  | _, _ => false
  end.

(** [<=] on float64: false as soon as one side is NaN. *)
Definition fleb (a b : float64) : bool :=
  match a, b with
  | NaN, _ | _, NaN => false
  | NInf, _ | _, PInf => true
  | Fin x, Fin y => Qle_bool x y
  | _, _ => false
  end.

Definition fmax2 (a b : float64) : float64 :=
  if fleb b a then a else b.

(** [Series.max()] with the default [skipna=True]: NaN entries are left
    out, and the maximum of nothing is NaN. *)
Definition series_max (s : list float64) : float64 :=
  match filter notna s with
  | [] => NaN
  | v :: vs => fold_left fmax2 vs v
  end.

Fixpoint index_of (p : float64 -> bool) (s : list float64) : option nat :=
  match s with
  | [] => None
  | v :: vs => if p v then Some O else option_map S (index_of p vs)
  end.

(** [Series.idxmax()]: the position of the first occurrence of the
    maximum; [None] stands for the exception raised on a series that is
    empty or holds only NaN. *)
Definition idxmax (s : list float64) : option nat :=
  index_of (fun v => feqb v (series_max s)) s.

(** [Series.sum()] of a nullable count column with the default
    [skipna=True]: NaN cells are skipped, the empty sum is 0. *)
Fixpoint series_sum (s : list (option Z)) : Z :=
  match s with
  | [] => 0
  | Some z :: s' => z + series_sum s'
  | None :: s' => series_sum s'
  end.

(** [Series.sum()] of an integer column. *)
Definition int_sum (s : list Z) : Z := fold_right Z.add 0 s.

(** [Series.fillna(0).astype(int)] on one cell. *)
Definition fillna0_astype_int (c : option Z) : Z :=
  match c with
  | Some z => z
  | None => 0
  end.

(** *** String methods *)

(** [str.isspace] on one ASCII character: tab to carriage return, the
    four separators 28-31 and the space. *)
Definition isspace (c : ascii) : bool :=
  let n := nat_of_ascii c in
  ((9 <=? n) && (n <=? 13) || (28 <=? n) && (n <=? 32))%nat.

Fixpoint lstrip (s : string) : string :=
  match s with
  | EmptyString => EmptyString
  | String c s' => if isspace c then lstrip s' else s
  end.

Fixpoint rstrip (s : string) : string :=
  match s with
  | EmptyString => EmptyString
  | String c s' =>
      match rstrip s' with
      | EmptyString => if isspace c then EmptyString else String c EmptyString
      | t => String c t
      end
  end.

(** [str.strip()] *)
Definition strip (s : string) : string := rstrip (lstrip s).

Definition upper_char (c : ascii) : ascii :=
  let n := nat_of_ascii c in
  if ((97 <=? n) && (n <=? 122))%nat then ascii_of_nat (n - 32) else c.

(** [str.upper()] *)
Fixpoint upper (s : string) : string :=
  match s with
  | EmptyString => EmptyString
  | String c s' => String (upper_char c) (upper s')
  end.

(** *** Keys and their order *)

Definition key2 : Type := string * string.

Definition key2_eqb (a b : key2) : bool :=
  String.eqb (fst a) (fst b) && String.eqb (snd a) (snd b).

(** Lexicographic order on a two-column key. *)
Definition key2_leb (a b : key2) : bool :=
  match String.compare (fst a) (fst b) with
  | Lt => true
  | Gt => false
  | Eq => String.leb (snd a) (snd b)
  end.

Section Sort.
Context {A : Type} (leb : A -> A -> bool).

Fixpoint insert (x : A) (l : list A) : list A :=
  match l with
  | [] => [x]
  | y :: l' => if leb x y then x :: l else y :: insert x l'
  end.

(** Stable sort. *)
Definition sort (l : list A) : list A := fold_right insert [] l.
End Sort.

Section Distinct.
Context {A : Type} (eqb : A -> A -> bool).

(** The distinct values of a list, first occurrences kept. *)
Fixpoint distinct (l : list A) : list A :=
  match l with
  | [] => []
  | x :: l' => x :: filter (fun y => negb (eqb x y)) (distinct l')
  end.

Fixpoint has_duplicates (l : list A) : bool :=
  match l with
  | [] => false
  | x :: l' => existsb (eqb x) l' || has_duplicates l'
  end.
End Distinct.

(** *** DataFrame.merge *)

(** One row of a join result, before the two sides' columns are laid
    out: the [_merge] indicator of pandas together with the source rows. *)
Inductive joined (L R : Type) : Type :=
| both (l : L) (r : R)
| left_only (l : L)
| right_only (r : R).

Arguments both {L R} l r.
Arguments left_only {L R} l.
Arguments right_only {L R} r.

Section Merge.
Context {L R K : Type}.
Variable key_eqb : K -> K -> bool.
Variable lkey : L -> K.
Variable rkey : R -> K.

(** The right rows whose key equals the key of [l], in right order. *)
Definition matches (l : L) (right : list R) : list R :=
  filter (fun r => key_eqb (lkey l) (rkey r)) right.

Definition left_rows (right : list R) (l : L) : list (L * option R) :=
  match matches l right with
  | [] => [(l, None)]
  | rs => map (fun r => (l, Some r)) rs
  end.

(** [left.merge(right, how='left')]: left order is kept, a left row is
    repeated once per matching right row, and kept once with a null
    right side when nothing matches. *)
Definition merge_left (left : list L) (right : list R) : list (L * option R) :=
  flat_map (left_rows right) left.

Definition has_left (left : list L) (r : R) : bool :=
  existsb (fun l => key_eqb (lkey l) (rkey r)) left.

Definition of_left (p : L * option R) : joined L R :=
  match p with
  | (l, Some r) => both l r
  | (l, None) => left_only l
  end.

Definition joined_key (j : joined L R) : K :=
  match j with
  | both l _ => lkey l
  | left_only l => lkey l
  | right_only r => rkey r
  end.

Variable key_leb : K -> K -> bool.

(** [left.merge(right, how='outer')]: the rows of the left join, then the
    right rows that no left row matches, all sorted by key. *)
Definition merge_outer (left : list L) (right : list R) : list (joined L R) :=
  sort (fun a b => key_leb (joined_key a) (joined_key b))
    (map of_left (merge_left left right)
       ++ map right_only (filter (fun r => negb (has_left left r)) right)).
End Merge.

(** *** DataFrame.pivot *)

Inductive error : Type :=
| ValueError_duplicate_entries
| ValueError_length_mismatch.

Record wide : Type := {
  columns : list string;
  rows : list (key2 * list (option Z))
}.

Section Pivot.
Context {A : Type}.
Variable index : A -> key2.
Variable column : A -> string.
Variable value : A -> Z.

Definition entry_eqb (a b : key2 * string) : bool :=
  key2_eqb (fst a) (fst b) && String.eqb (snd a) (snd b).

Definition cell (df : list A) (k : key2) (c : string) : option Z :=
  option_map value
    (find (fun a => key2_eqb (index a) k && String.eqb (column a) c) df).

(** [df.pivot(index=.., columns=.., values=..)]: one row per distinct
    index value and one column per distinct category, both sorted; an
    absent combination is NaN; an (index, category) pair that occurs
    twice raises ValueError. *)
Definition pivot (df : list A) : error + wide :=
  if has_duplicates entry_eqb (map (fun a => (index a, column a)) df)
  then inl ValueError_duplicate_entries
  else
    let cols := sort String.leb (distinct String.eqb (map column df)) in
    let idx := sort key2_leb (distinct key2_eqb (map index df)) in
    inr {| columns := cols;
           rows := map (fun k => (k, map (cell df k) cols)) idx |}.
End Pivot.

(** *** DataFrame.groupby *)

Section GroupBy.
Context {A K : Type}.
Variable key_eqb : K -> K -> bool.
Variable key_leb : K -> K -> bool.

(** The key of a row; [None] when one of the key columns is null. *)
Variable key_of : A -> option K.

Fixpoint notnull_keys (df : list A) : list K :=
  match df with
  | [] => []
  | a :: df' =>
      match key_of a with
      | Some k => k :: notnull_keys df'
      | None => notnull_keys df'
      end
  end.

(** The group keys: the distinct keys, sorted; rows with a null key
    belong to no group (the default [dropna=True]). *)
Definition group_keys (df : list A) : list K :=
  sort key_leb (distinct key_eqb (notnull_keys df)).

Definition in_group (k : K) (a : A) : bool :=
  match key_of a with
  | Some k' => key_eqb k' k
  | None => false
  end.

(** The rows that the grouping keeps. *)
Definition has_key (a : A) : bool :=
  match key_of a with
  | Some _ => true
  | None => false
  end.

(** [df.groupby(keys)]: each group key with its rows, in row order. *)
Definition groupby (df : list A) : list (K * list A) :=
  map (fun k => (k, filter (in_group k) df)) (group_keys df).
End GroupBy.

End Pandas.

Import Pandas.

(** ** task_3.py: census dwelling data *)

Module Task3.

(** One row of the census file RM205 (long format). *)
Record census_row : Type := {
  Lower_tier_local_authorities_Code : string;
  Lower_tier_local_authorities : string;
  Number_of_household_spaces : string;
  Observation : Z
}.

(** One row of the district-to-region lookup, restricted to the three
    columns that [main] selects. *)
Record lookup_row : Type := {
  LAD23CD : string;
  RGN23CD : string;
  RGN23NM : string
}.

(** [census_wide] after the positional renaming of its five columns and
    the two derived columns. *)
Module Wide.
Record row : Type := {
  LAD_Code : string;
  LAD_Name : string;
  Shared_Two_Spaces : option Z;
  Shared_Three_Plus_Spaces : option Z;
  Unshared_Dwelling : option Z;
  Total_Dwellings : option Z;
  Shared_Dwellings : option Z
}.
End Wide.

(** One row of [final_df]. *)
Record final_row : Type := {
  LAD_Code : string;
  LAD_Name : string;
  Region_Code : option string;
  Region_Name : option string;
  Unshared_Dwellings : option Z;
  Shared_Dwellings : option Z;
  Shared_Two_Spaces : option Z;
  Shared_Three_Plus_Spaces : option Z;
  Total_Dwellings : option Z
}.

(** [+] on two nullable cells: NaN is absorbing. *)
Definition add_cell (a b : option Z) : option Z :=
  match a, b with
  | Some x, Some y => Some (x + y)
  | _, _ => None
  end.

Definition census_index (r : census_row) : key2 :=
  (Lower_tier_local_authorities_Code r, Lower_tier_local_authorities r).

(** Lines 24-28: the pivot of the long table. *)
Definition census_pivot (census_df : list census_row) : error + wide :=
  pivot census_index Number_of_household_spaces Observation census_df.

(** Lines 30-51: the five column labels are assigned by position, which
    raises when the pivot did not produce exactly three category columns;
    then the two sums. *)
Definition rename_and_total (w : wide) : error + list Wide.row :=
  match columns w with
  | [_; _; _] =>
      inr (map (fun kr : key2 * list (option Z) =>
                  let (k, cells) := kr in
                  let two := nth 0 cells None in
                  let three := nth 1 cells None in
                  let unshared := nth 2 cells None in
                  {| Wide.LAD_Code := fst k;
                     Wide.LAD_Name := snd k;
                     Wide.Shared_Two_Spaces := two;
                     Wide.Shared_Three_Plus_Spaces := three;
                     Wide.Unshared_Dwelling := unshared;
                     Wide.Total_Dwellings := add_cell (add_cell two three) unshared;
                     Wide.Shared_Dwellings := add_cell two three |})
               (rows w))
  | _ => inl ValueError_length_mismatch
  end.

(** Lines 54-59: the left merge on [LAD_Code] = [LAD23CD]; the keys are
    compared as they are. *)
Definition merge_lookup (census_wide : list Wide.row) (lookup_df : list lookup_row)
  : list (Wide.row * option lookup_row) :=
  merge_left String.eqb Wide.LAD_Code LAD23CD census_wide lookup_df.

(** Lines 62-85: column selection and renaming. *)
Definition to_final (j : Wide.row * option lookup_row) : final_row :=
  let (w, l) := j in
  {| LAD_Code := Wide.LAD_Code w;
     LAD_Name := Wide.LAD_Name w;
     Region_Code := option_map RGN23CD l;
     Region_Name := option_map RGN23NM l;
     Unshared_Dwellings := Wide.Unshared_Dwelling w;
     Shared_Dwellings := Wide.Shared_Dwellings w;
     Shared_Two_Spaces := Wide.Shared_Two_Spaces w;
     Shared_Three_Plus_Spaces := Wide.Shared_Three_Plus_Spaces w;
     Total_Dwellings := Wide.Total_Dwellings w |}.

(** [main], up to [final_df]; an [inl] is the exception that ends the
    script. *)
Definition main (lookup_df : list lookup_row) (census_df : list census_row)
  : error + list final_row :=
  match census_pivot census_df with
  | inl e => inl e
  | inr w =>
      match rename_and_total w with
      | inl e => inl e
      | inr census_wide => inr (map to_final (merge_lookup census_wide lookup_df))
      end
  end.

(** One row of [regional_summary]. *)
Module Regional.
Record row : Type := {
  Region_Code : string;
  Region_Name : string;
  Unshared_Dwellings : Z;
  Shared_Dwellings : Z;
  Total_Dwellings : Z
}.
End Regional.

(** The two key columns of the regional aggregation. *)
Definition region_key (r : final_row) : option key2 :=
  match Region_Code r, Region_Name r with
  | Some c, Some n => Some (c, n)
  | _, _ => None
  end.

(** Lines 100-104: the sums of the three dwelling columns by region. *)
Definition regional_summary (final_df : list final_row) : list Regional.row :=
  map (fun g : key2 * list final_row =>
         let (k, rows) := g in
         {| Regional.Region_Code := fst k;
            Regional.Region_Name := snd k;
            Regional.Unshared_Dwellings := series_sum (map Unshared_Dwellings rows);
            Regional.Shared_Dwellings := series_sum (map Shared_Dwellings rows);
            Regional.Total_Dwellings := series_sum (map Total_Dwellings rows) |})
      (groupby key2_eqb key2_leb region_key final_df).

End Task3.

(** ** task_4.py: property sales by district *)

Module Task4.

(** One row of the district pivot ([create_pivot_by_district]). *)
Record pivot_row : Type := {
  District : string;
  D : Z;
  F : Z;
  S : Z;
  T : Z;
  Total : Z
}.

(** One row of the lookup file written by task_3, restricted to the
    columns that [match_with_lookup] reads.  The region columns are null
    for a district that task_3 could not place in a region. *)
Module Lookup.
Record row : Type := {
  LAD_Name : string;
  Region_Code : option string;
  Region_Name : option string
}.
End Lookup.

(** One row of the returned table. *)
Module Result.
Record row : Type := {
  District : string;
  LAD_Name : option string;
  Region_Code : option string;
  Region_Name : option string;
  D : Z;
  F : Z;
  S : Z;
  T : Z;
  Total : Z
}.
End Result.

(** What the function prints. *)
Inductive output : Type :=
| Warning_Unmatched_Districts (rows : list (string * Z * Z * Z * Z * Z))
| Matched_Results (matched unmatched : nat).

(** Lines 125-126: the cleaned key columns. *)
Definition District_Clean (p : pivot_row) : string := upper (strip (District p)).
Definition LAD_Name_Clean (l : Lookup.row) : string := upper (strip (Lookup.LAD_Name l)).

(** Lines 129-134: the left merge on the cleaned keys. *)
Definition merged (pivot_df : list pivot_row) (lookup_df : list Lookup.row)
  : list (pivot_row * option Lookup.row) :=
  merge_left String.eqb District_Clean LAD_Name_Clean pivot_df lookup_df.

(** [merged['Region_Name']] of one merged row. *)
Definition merged_Region_Name (m : pivot_row * option Lookup.row) : option string :=
  match snd m with
  | Some l => Lookup.Region_Name l
  | None => None
  end.

Definition isna_str (c : option string) : bool :=
  match c with
  | Some _ => false
  | None => true
  end.

Definition diagnostic (m : pivot_row * option Lookup.row) : string * Z * Z * Z * Z * Z :=
  let p := fst m in (District p, D p, F p, S p, T p, Total p).

Definition select_result (m : pivot_row * option Lookup.row) : Result.row :=
  let (p, l) := m in
  {| Result.District := District p;
     Result.LAD_Name := option_map Lookup.LAD_Name l;
     Result.Region_Code :=
       match l with Some l' => Lookup.Region_Code l' | None => None end;
     Result.Region_Name := merged_Region_Name m;
     Result.D := D p;
     Result.F := F p;
     Result.S := S p;
     Result.T := T p;
     Result.Total := Total p |}.

(** [match_with_lookup]: the returned table and the console output. *)
Definition match_with_lookup (pivot_df : list pivot_row) (lookup_df : list Lookup.row)
  : list Result.row * list output :=
  let merged := merged pivot_df lookup_df in
  let unmatched := filter (fun m => isna_str (merged_Region_Name m)) merged in
  let warning :=
    if (0 <? List.length unmatched)%nat
    then [Warning_Unmatched_Districts (map diagnostic unmatched)]
    else [] in
  let matched := filter (fun m => negb (isna_str (merged_Region_Name m))) merged in
  let result := map select_result matched in
  (result, warning ++ [Matched_Results (List.length result) (List.length unmatched)]).

(** A parsed date (the time of day, always midnight in the source
    file, is left out). *)
Record timestamp : Type := {
  year : Z;
  month : Z;
  day : Z
}.

Definition date_leb (a b : timestamp) : bool :=
  (year a <? year b)
  || (year a =? year b)
     && ((month a <? month b) || (month a =? month b) && (day a <=? day b)).

(** One row of the price-paid file after [pd.to_datetime], restricted to
    the columns that the script reads. *)
Module Property.
Record row : Type := {
  Transaction_ID : string;
  Date : timestamp;
  Property_Type : string;
  Record_Status : string;
  District : string
}.
End Property.

Definition date_max (a b : timestamp) : timestamp :=
  if date_leb a b then b else a.

(** [df['Date'].max()]; [None] is NaT, the maximum of an empty column. *)
Definition latest_date (df : list Property.row) : option timestamp :=
  match map Property.Date df with
  | [] => None
  | d :: ds => Some (fold_left date_max ds d)
  end.

Definition valid_property_types : list string := ["D"; "F"; "S"; "T"]%string.

(** [Series.isin] *)
Definition isin (values : list string) (v : string) : bool :=
  existsb (String.eqb v) values.

(** [process_property_data]: the sort by date (rows of equal date kept
    in source order), then the three filters.  On an empty table the
    latest date is NaT, its month is NaN, and formatting it with [:02d]
    raises: [None]. *)
Definition process_property_data (df : list Property.row) : option (list Property.row) :=
  let df := sort (fun a b => date_leb (Property.Date a) (Property.Date b)) df in
  match latest_date df with
  | None => None
  | Some latest =>
      let latest_year := year latest in
      let latest_month := month latest in
      let df_filtered :=
        filter (fun r => (year (Property.Date r) =? latest_year)
                         && (month (Property.Date r) =? latest_month)) df in
      let df_filtered :=
        filter (fun r => String.eqb (Property.Record_Status r) "A") df_filtered in
      let df_filtered :=
        filter (fun r => isin valid_property_types (Property.Property_Type r))
          df_filtered in
      Some df_filtered
  end.

(** The count of one property type in one group of the pivot table. *)
Definition count_type (rows : list Property.row) (prop_type : string) : Z :=
  Z.of_nat
    (List.length (filter (fun r => String.eqb (Property.Property_Type r) prop_type) rows)).

(** [create_pivot_by_district]: one row per district, the counts of the
    four property types (zero when the type is absent) and their sum. *)
Definition create_pivot_by_district (df : list Property.row) : list pivot_row :=
  map (fun g : string * list Property.row =>
         let (district, rows) := g in
         let d := count_type rows "D" in
         let f := count_type rows "F" in
         let s := count_type rows "S" in
         let t := count_type rows "T" in
         {| District := district;
            D := d; F := f; S := s; T := t;
            Total := d + f + s + t |})
      (groupby String.eqb String.leb (fun r => Some (Property.District r)) df).

(** One row of the regional summary. *)
Module Regional.
Record row : Type := {
  Region_Code : string;
  Region_Name : string;
  D : Z;
  F : Z;
  S : Z;
  T : Z;
  Total : Z
}.
End Regional.

Definition region_key (r : Result.row) : option key2 :=
  match Result.Region_Code r, Result.Region_Name r with
  | Some c, Some n => Some (c, n)
  | _, _ => None
  end.

(** [create_regional_summary]: the sums of the five count columns by
    region. *)
Definition create_regional_summary (district_df : list Result.row) : list Regional.row :=
  map (fun g : key2 * list Result.row =>
         let (k, rows) := g in
         {| Regional.Region_Code := fst k;
            Regional.Region_Name := snd k;
            Regional.D := int_sum (map Result.D rows);
            Regional.F := int_sum (map Result.F rows);
            Regional.S := int_sum (map Result.S rows);
            Regional.T := int_sum (map Result.T rows);
            Regional.Total := int_sum (map Result.Total rows) |})
      (groupby key2_eqb key2_leb region_key district_df).

(** The tables that [main] writes as csv files. *)
Record files : Type := {
  task_4_district_property_counts : list pivot_row;
  task_4_district_property_counts_matched : option (list Result.row);
  task_4_regional_property_summary : option (list Regional.row)
}.

(** [main]: [lookup_df] is [None] when reading the lookup file raises
    FileNotFoundError, and then only the pivot table is written; the
    result is [None] when [process_property_data] raises. *)
Definition main (property_df : list Property.row) (lookup_df : option (list Lookup.row))
  : option files :=
  match process_property_data property_df with
  | None => None
  | Some processed_df =>
      let pivot_district := create_pivot_by_district processed_df in
      match lookup_df with
      | Some lookup_df =>
          let matched_df := fst (match_with_lookup pivot_district lookup_df) in
          let regional_df := create_regional_summary matched_df in
          Some {| task_4_district_property_counts := pivot_district;
                  task_4_district_property_counts_matched := Some matched_df;
                  task_4_regional_property_summary := Some regional_df |}
      | None =>
          Some {| task_4_district_property_counts := pivot_district;
                  task_4_district_property_counts_matched := None;
                  task_4_regional_property_summary := None |}
      end
  end.

End Task4.

(** ** task_5.py: dwellings against sales, by region *)

Module Task5.

(** One row of census_dwelling_regional_summary.csv. *)
Module Dwellings.
Record row : Type := {
  Region_Code : string;
  Region_Name : string;
  Unshared_Dwellings : Z;
  Shared_Dwellings : Z;
  Total_Dwellings : Z
}.
End Dwellings.

(** One row of task_4_regional_property_summary.csv. *)
Module Sales.
Record row : Type := {
  Region_Code : string;
  Region_Name : string;
  D : Z;
  F : Z;
  S : Z;
  T : Z;
  Total : Z
}.
End Sales.

(** One row of the outer merge, before the fill: every count may be
    null. *)
Module Outer.
Record row : Type := {
  Region_Code : string;
  Region_Name : string;
  Unshared_Dwellings : option Z;
  Shared_Dwellings : option Z;
  Total_Dwellings : option Z;
  D : option Z;
  F : option Z;
  S : option Z;
  T : option Z;
  Total : option Z
}.
End Outer.

(** One row of the table returned by [merge_datasets]: the sales columns
    are integers again. *)
Module Merged.
Record row : Type := {
  Region_Code : string;
  Region_Name : string;
  Unshared_Dwellings : option Z;
  Shared_Dwellings : option Z;
  Total_Dwellings : option Z;
  D : Z;
  F : Z;
  S : Z;
  T : Z;
  Total : Z
}.
End Merged.

(** One row of the table after [calculate_percentages] (and of the
    combined table of [calculate_national_totals]). *)
Module Analysis.
Record row : Type := {
  Region_Code : string;
  Region_Name : string;
  Unshared_Dwellings : option Z;
  Shared_Dwellings : option Z;
  Total_Dwellings : option Z;
  Sales_Detached : Z;
  Sales_Flats : Z;
  Sales_Semi : Z;
  Sales_Terraced : Z;
  Total_Sales : Z;
  Pct_Detached : float64;
  Pct_Flats : float64;
  Pct_Semi : float64;
  Pct_Terraced : float64;
  Sales_Rate : float64
}.
End Analysis.

(** One row of the table returned by [identify_maxima]: the columns of
    the combined table ([data]) and the five flag columns. *)
Module Flagged.
Record row : Type := {
  data : Analysis.row;
  Max_Detached : bool;
  Max_Flats : bool;
  Max_Semi : bool;
  Max_Terraced : bool;
  Max_Sales_Rate : bool
}.
End Flagged.

Definition dwellings_key (d : Dwellings.row) : key2 :=
  (Dwellings.Region_Code d, Dwellings.Region_Name d).

Definition sales_key (s : Sales.row) : key2 :=
  (Sales.Region_Code s, Sales.Region_Name s).

(** The columns of one row of the outer merge: the side that has no
    row for the key contributes nulls. *)
Definition outer_row (j : joined Dwellings.row Sales.row) : Outer.row :=
  let k := joined_key dwellings_key sales_key j in
  let d := match j with both d _ | left_only d => Some d | right_only _ => None end in
  let s := match j with both _ s | right_only s => Some s | left_only _ => None end in
  {| Outer.Region_Code := fst k;
     Outer.Region_Name := snd k;
     Outer.Unshared_Dwellings := option_map Dwellings.Unshared_Dwellings d;
     Outer.Shared_Dwellings := option_map Dwellings.Shared_Dwellings d;
     Outer.Total_Dwellings := option_map Dwellings.Total_Dwellings d;
     Outer.D := option_map Sales.D s;
     Outer.F := option_map Sales.F s;
     Outer.S := option_map Sales.S s;
     Outer.T := option_map Sales.T s;
     Outer.Total := option_map Sales.Total s |}.

(** Lines 29-34. *)
Definition outer_merge (dwellings_df : list Dwellings.row) (sales_df : list Sales.row)
  : list Outer.row :=
  map outer_row
    (merge_outer key2_eqb dwellings_key sales_key key2_leb dwellings_df sales_df).

(** Lines 36-40: the loop over [sales_cols], on one row. *)
Definition fill_sales (o : Outer.row) : Merged.row :=
  {| Merged.Region_Code := Outer.Region_Code o;
     Merged.Region_Name := Outer.Region_Name o;
     Merged.Unshared_Dwellings := Outer.Unshared_Dwellings o;
     Merged.Shared_Dwellings := Outer.Shared_Dwellings o;
     Merged.Total_Dwellings := Outer.Total_Dwellings o;
     Merged.D := fillna0_astype_int (Outer.D o);
     Merged.F := fillna0_astype_int (Outer.F o);
     Merged.S := fillna0_astype_int (Outer.S o);
     Merged.T := fillna0_astype_int (Outer.T o);
     Merged.Total := fillna0_astype_int (Outer.Total o) |}.

Definition merge_datasets (dwellings_df : list Dwellings.row) (sales_df : list Sales.row)
  : list Merged.row :=
  map fill_sales (outer_merge dwellings_df sales_df).

(** [(num / den * 100).round(2)] *)
Definition percentage (num den : float64) : float64 :=
  round2 (mul (truediv num den) (of_int 100)).

(** [calculate_percentages] on one row: the renaming, the five
    percentages, then [fillna(0)] on each of them. *)
Definition percentages_row (m : Merged.row) : Analysis.row :=
  let Sales_Detached := Merged.D m in
  let Sales_Flats := Merged.F m in
  let Sales_Semi := Merged.S m in
  let Sales_Terraced := Merged.T m in
  let Total_Sales := Merged.Total m in
  let pct (sales : Z) := percentage (of_int sales) (of_int Total_Sales) in
  {| Analysis.Region_Code := Merged.Region_Code m;
     Analysis.Region_Name := Merged.Region_Name m;
     Analysis.Unshared_Dwellings := Merged.Unshared_Dwellings m;
     Analysis.Shared_Dwellings := Merged.Shared_Dwellings m;
     Analysis.Total_Dwellings := Merged.Total_Dwellings m;
     Analysis.Sales_Detached := Sales_Detached;
     Analysis.Sales_Flats := Sales_Flats;
     Analysis.Sales_Semi := Sales_Semi;
     Analysis.Sales_Terraced := Sales_Terraced;
     Analysis.Total_Sales := Total_Sales;
     Analysis.Pct_Detached := fillna (pct Sales_Detached) (of_int 0);
     Analysis.Pct_Flats := fillna (pct Sales_Flats) (of_int 0);
     Analysis.Pct_Semi := fillna (pct Sales_Semi) (of_int 0);
     Analysis.Pct_Terraced := fillna (pct Sales_Terraced) (of_int 0);
     Analysis.Sales_Rate :=
       fillna (percentage (of_int Total_Sales) (of_cell (Merged.Total_Dwellings m)))
         (of_int 0) |}.

Definition calculate_percentages (merged_df : list Merged.row) : list Analysis.row :=
  map percentages_row merged_df.

(** Lines 83-102: the one-row table [national]; its percentages are not
    passed through [fillna]. *)
Definition national (merged_df : list Analysis.row) : Analysis.row :=
  let Total_Dwellings := series_sum (map Analysis.Total_Dwellings merged_df) in
  let Sales_Detached := int_sum (map Analysis.Sales_Detached merged_df) in
  let Sales_Flats := int_sum (map Analysis.Sales_Flats merged_df) in
  let Sales_Semi := int_sum (map Analysis.Sales_Semi merged_df) in
  let Sales_Terraced := int_sum (map Analysis.Sales_Terraced merged_df) in
  let Total_Sales := int_sum (map Analysis.Total_Sales merged_df) in
  let total_sales := of_int Total_Sales in
  {| Analysis.Region_Code := "NATIONAL";
     Analysis.Region_Name := "England & Wales";
     Analysis.Unshared_Dwellings :=
       Some (series_sum (map Analysis.Unshared_Dwellings merged_df));
     Analysis.Shared_Dwellings :=
       Some (series_sum (map Analysis.Shared_Dwellings merged_df));
     Analysis.Total_Dwellings := Some Total_Dwellings;
     Analysis.Sales_Detached := Sales_Detached;
     Analysis.Sales_Flats := Sales_Flats;
     Analysis.Sales_Semi := Sales_Semi;
     Analysis.Sales_Terraced := Sales_Terraced;
     Analysis.Total_Sales := Total_Sales;
     Analysis.Pct_Detached := percentage (of_int Sales_Detached) total_sales;
     Analysis.Pct_Flats := percentage (of_int Sales_Flats) total_sales;
     Analysis.Pct_Semi := percentage (of_int Sales_Semi) total_sales;
     Analysis.Pct_Terraced := percentage (of_int Sales_Terraced) total_sales;
     Analysis.Sales_Rate := percentage (of_int Total_Sales) (of_int Total_Dwellings) |}.

(** [pd.concat([merged_df, national], ignore_index=True)] *)
Definition calculate_national_totals (merged_df : list Analysis.row) : list Analysis.row :=
  merged_df ++ [national merged_df].

Definition is_regional (r : Analysis.row) : bool :=
  negb (String.eqb (Analysis.Region_Code r) "NATIONAL").

(** One line of the "Regional Maxima" report: the name of the region at
    [idxmax] and the maximum.  [None] when [idxmax] raises. *)
Definition highest (regional_only : list Analysis.row) (col : Analysis.row -> float64)
  : option (string * float64) :=
  match idxmax (map col regional_only) with
  | Some i =>
      Some (nth i (map Analysis.Region_Name regional_only) EmptyString,
            series_max (map col regional_only))
  | None => None
  end.

(** [identify_maxima]: the flags are computed for every row of [df]
    against the maxima of the regional rows; the report that follows
    raises when a percentage column has no regional value, and then
    nothing is returned. *)
Definition identify_maxima (df : list Analysis.row) : option (list Flagged.row) :=
  let regional_only := filter is_regional df in
  let max_detached := series_max (map Analysis.Pct_Detached regional_only) in
  let max_flats := series_max (map Analysis.Pct_Flats regional_only) in
  let max_semi := series_max (map Analysis.Pct_Semi regional_only) in
  let max_terraced := series_max (map Analysis.Pct_Terraced regional_only) in
  let max_sales_rate := series_max (map Analysis.Sales_Rate regional_only) in
  let flagged :=
    map (fun r =>
           {| Flagged.data := r;
              Flagged.Max_Detached := feqb (Analysis.Pct_Detached r) max_detached;
              Flagged.Max_Flats := feqb (Analysis.Pct_Flats r) max_flats;
              Flagged.Max_Semi := feqb (Analysis.Pct_Semi r) max_semi;
              Flagged.Max_Terraced := feqb (Analysis.Pct_Terraced r) max_terraced;
              Flagged.Max_Sales_Rate := feqb (Analysis.Sales_Rate r) max_sales_rate |})
        df in
  match highest regional_only Analysis.Pct_Detached,
        highest regional_only Analysis.Pct_Flats,
        highest regional_only Analysis.Pct_Semi,
        highest regional_only Analysis.Pct_Terraced,
        highest regional_only Analysis.Sales_Rate with
  | Some _, Some _, Some _, Some _, Some _ => Some flagged
  | _, _, _, _, _ => None
  end.

(** The percentage columns, their flag columns and the counts they are
    computed from, by name. *)
Inductive pct_column : Type :=
| Detached
| Flats
| Semi
| Terraced
| Rate.

Definition pct_of (c : pct_column) (r : Analysis.row) : float64 :=
  match c with
  | Detached => Analysis.Pct_Detached r
  | Flats => Analysis.Pct_Flats r
  | Semi => Analysis.Pct_Semi r
  | Terraced => Analysis.Pct_Terraced r
  | Rate => Analysis.Sales_Rate r
  end.

Definition flag_of (c : pct_column) (r : Flagged.row) : bool :=
  match c with
  | Detached => Flagged.Max_Detached r
  | Flats => Flagged.Max_Flats r
  | Semi => Flagged.Max_Semi r
  | Terraced => Flagged.Max_Terraced r
  | Rate => Flagged.Max_Sales_Rate r
  end.

Definition numerator (c : pct_column) (m : Merged.row) : option Z :=
  match c with
  | Detached => Some (Merged.D m)
  | Flats => Some (Merged.F m)
  | Semi => Some (Merged.S m)
  | Terraced => Some (Merged.T m)
  | Rate => Some (Merged.Total m)
  end.

Definition denominator (c : pct_column) (m : Merged.row) : option Z :=
  match c with
  | Rate => Merged.Total_Dwellings m
  | _ => Some (Merged.Total m)
  end.

(** One row of the summary table. *)
Module Summary.
Record row : Type := {
  Region_Code : string;
  Region_Name : string;
  Total_Dwellings : option Z;
  Sales_Detached : Z;
  Sales_Flats : Z;
  Sales_Semi : Z;
  Sales_Terraced : Z;
  Total_Sales : Z;
  Pct_Detached : float64;
  Pct_Flats : float64;
  Pct_Semi : float64;
  Pct_Terraced : float64;
  Sales_Rate : float64;
  Max_Detached : bool;
  Max_Flats : bool;
  Max_Semi : bool;
  Max_Terraced : bool;
  Max_Sales_Rate : bool
}.
End Summary.

(** [create_summary_table]: the selection of eighteen columns. *)
Definition create_summary_table (df : list Flagged.row) : list Summary.row :=
  map (fun f =>
         let r := Flagged.data f in
         {| Summary.Region_Code := Analysis.Region_Code r;
            Summary.Region_Name := Analysis.Region_Name r;
            Summary.Total_Dwellings := Analysis.Total_Dwellings r;
            Summary.Sales_Detached := Analysis.Sales_Detached r;
            Summary.Sales_Flats := Analysis.Sales_Flats r;
            Summary.Sales_Semi := Analysis.Sales_Semi r;
            Summary.Sales_Terraced := Analysis.Sales_Terraced r;
            Summary.Total_Sales := Analysis.Total_Sales r;
            Summary.Pct_Detached := Analysis.Pct_Detached r;
            Summary.Pct_Flats := Analysis.Pct_Flats r;
            Summary.Pct_Semi := Analysis.Pct_Semi r;
            Summary.Pct_Terraced := Analysis.Pct_Terraced r;
            Summary.Sales_Rate := Analysis.Sales_Rate r;
            Summary.Max_Detached := Flagged.Max_Detached f;
            Summary.Max_Flats := Flagged.Max_Flats f;
            Summary.Max_Semi := Flagged.Max_Semi f;
            Summary.Max_Terraced := Flagged.Max_Terraced f;
            Summary.Max_Sales_Rate := Flagged.Max_Sales_Rate f |})
      df.

(** [main], from the two loaded tables to the table written to
    regional_analysis_complete.csv; [None] when [identify_maxima]
    raises. *)
Definition main (dwellings_df : list Dwellings.row) (sales_df : list Sales.row)
  : option (list Summary.row) :=
  let merged_df := merge_datasets dwellings_df sales_df in
  let analysis_df := calculate_percentages merged_df in
  let complete_df := calculate_national_totals analysis_df in
  match identify_maxima complete_df with
  | Some final_df => Some (create_summary_table final_df)
  | None => None
  end.

End Task5.

(** ** Vocabulary of the properties *)

Import Task5.

(** A float64 value in the closed interval [0, 100]. *)
Definition in_0_100 (v : float64) : Prop :=
  match v with
  | Fin q => (0 <= q <= 100)%Q
  | _ => False
  end.

(** A float64 value equal to zero. *)
Definition is_zero (v : float64) : Prop := feqb v (of_int 0) = true.

(** The percentage rule in its unconditional form, on one row of the
    merged table: zero on a zero denominator, within [0, 100] on a
    positive one. *)
Definition zero_or_bounded (m : Merged.row) : Prop :=
  forall c : pct_column,
    (denominator c m = Some 0 -> is_zero (pct_of c (percentages_row m)))
    /\ (forall d, denominator c m = Some d -> 0 < d ->
        in_0_100 (pct_of c (percentages_row m))).

(** A region with three sales and two dwellings. *)
Definition more_sales_than_dwellings : Merged.row :=
  {| Merged.Region_Code := "E12000001";
     Merged.Region_Name := "North East";
     Merged.Unshared_Dwellings := Some 2;
     Merged.Shared_Dwellings := Some 0;
     Merged.Total_Dwellings := Some 2;
     Merged.D := 1;
     Merged.F := 1;
     Merged.S := 1;
     Merged.T := 0;
     Merged.Total := 3 |}.

(** A region with sales and nothing sold yet counted as a dwelling. *)
Definition sales_without_dwellings : Merged.row :=
  {| Merged.Region_Code := "E12000002";
     Merged.Region_Name := "North West";
     Merged.Unshared_Dwellings := Some 0;
     Merged.Shared_Dwellings := Some 0;
     Merged.Total_Dwellings := Some 0;
     Merged.D := 2;
     Merged.F := 0;
     Merged.S := 0;
     Merged.T := 0;
     Merged.Total := 2 |}.

(** A region with neither sales nor dwellings. *)
Definition empty_region : Merged.row :=
  {| Merged.Region_Code := "E12000003";
     Merged.Region_Name := "Yorkshire and The Humber";
     Merged.Unshared_Dwellings := Some 0;
     Merged.Shared_Dwellings := Some 0;
     Merged.Total_Dwellings := Some 0;
     Merged.D := 0;
     Merged.F := 0;
     Merged.S := 0;
     Merged.T := 0;
     Merged.Total := 0 |}.

(** A region with eight sales out of forty dwellings. *)
Definition ordinary_region : Merged.row :=
  {| Merged.Region_Code := "E12000004";
     Merged.Region_Name := "East Midlands";
     Merged.Unshared_Dwellings := Some 39;
     Merged.Shared_Dwellings := Some 1;
     Merged.Total_Dwellings := Some 40;
     Merged.D := 3;
     Merged.F := 1;
     Merged.S := 2;
     Merged.T := 2;
     Merged.Total := 8 |}.

(** The maximum of a percentage column over the regional rows. *)
Definition regional_max (c : pct_column) (df : list Analysis.row) : float64 :=
  series_max (map (pct_of c) (filter is_regional df)).

(** The combined table of two regions and the national row. *)
Definition two_regions_combined : list Analysis.row :=
  calculate_national_totals
    (calculate_percentages [ordinary_region; more_sales_than_dwellings]).

Definition two_regions_flagged : list Flagged.row :=
  match identify_maxima two_regions_combined with
  | Some out => out
  | None => []
  end.

(** The combined table of a single region and the national row. *)
Definition one_region_combined : list Analysis.row :=
  calculate_national_totals (calculate_percentages [ordinary_region]).

Definition one_region_flagged : list Flagged.row :=
  match identify_maxima one_region_combined with
  | Some out => out
  | None => []
  end.

(** A null count read as zero. *)
Definition null_as_zero (c : option Z) : Z :=
  match c with
  | Some z => z
  | None => 0
  end.

(** The total of a count over the rows of a table, one term per row. *)
Definition total_of (count : Analysis.row -> Z) (rows : list Analysis.row) : Z :=
  fold_left (fun acc r => acc + count r) rows 0.

(** The key of a merged row. *)
Definition merged_key (m : Merged.row) : key2 :=
  (Merged.Region_Code m, Merged.Region_Name m).

Definition sales_zero (m : Merged.row) : Prop :=
  Merged.D m = 0 /\ Merged.F m = 0 /\ Merged.S m = 0 /\ Merged.T m = 0
  /\ Merged.Total m = 0.

Definition dwellings_zero (m : Merged.row) : Prop :=
  Merged.Unshared_Dwellings m = Some 0 /\ Merged.Shared_Dwellings m = Some 0
  /\ Merged.Total_Dwellings m = Some 0.

Definition dwellings_null (m : Merged.row) : Prop :=
  Merged.Unshared_Dwellings m = None /\ Merged.Shared_Dwellings m = None
  /\ Merged.Total_Dwellings m = None.

(** The fill rule in its two-sided form: whichever side lacks the key,
    its count columns are zero in the merged row. *)
Definition one_sided_keys_zero_filled
  (dwellings_df : list Dwellings.row) (sales_df : list Sales.row) : Prop :=
  forall m, In m (merge_datasets dwellings_df sales_df) ->
    (~ In (merged_key m) (map sales_key sales_df) -> sales_zero m)
    /\ (~ In (merged_key m) (map dwellings_key dwellings_df) -> dwellings_zero m).

Definition london_dwellings : Dwellings.row :=
  {| Dwellings.Region_Code := "E12000007";
     Dwellings.Region_Name := "London";
     Dwellings.Unshared_Dwellings := 95;
     Dwellings.Shared_Dwellings := 5;
     Dwellings.Total_Dwellings := 100 |}.

Definition london_sales : Sales.row :=
  {| Sales.Region_Code := "E12000007";
     Sales.Region_Name := "London";
     Sales.D := 1;
     Sales.F := 6;
     Sales.S := 2;
     Sales.T := 3;
     Sales.Total := 12 |}.

(** The same region, its name written in capitals. *)
Definition london_sales_capitals : Sales.row :=
  {| Sales.Region_Code := "E12000007";
     Sales.Region_Name := "LONDON";
     Sales.D := 1;
     Sales.F := 6;
     Sales.S := 2;
     Sales.T := 3;
     Sales.Total := 12 |}.

Definition wales_dwellings : Dwellings.row :=
  {| Dwellings.Region_Code := "W92000004";
     Dwellings.Region_Name := "Wales";
     Dwellings.Unshared_Dwellings := 29;
     Dwellings.Shared_Dwellings := 1;
     Dwellings.Total_Dwellings := 30 |}.

(** The key of a join as [match_with_lookup] cleans it. *)
Definition normalized (s : string) : string := upper (strip s).

(** Key normalisation claimed of the outer merge of task_5: a dwelling
    row and a sales row whose keys agree once trimmed and uppercased are
    joined. *)
Definition outer_merge_normalizes_keys
  (dwellings_df : list Dwellings.row) (sales_df : list Sales.row) : Prop :=
  forall d s, In d dwellings_df -> In s sales_df ->
    normalized (Dwellings.Region_Code d) = normalized (Sales.Region_Code s) ->
    normalized (Dwellings.Region_Name d) = normalized (Sales.Region_Name s) ->
    In (both d s)
       (merge_outer key2_eqb dwellings_key sales_key key2_leb dwellings_df sales_df).

(** Row-count rule claimed of the left merge of task_4. *)
Definition left_merge_keeps_row_count
  (pivot_df : list Task4.pivot_row) (lookup_df : list Task4.Lookup.row) : Prop :=
  List.length (Task4.merged pivot_df lookup_df) = List.length pivot_df.

Definition leeds_pivot : Task4.pivot_row :=
  {| Task4.District := "LEEDS";
     Task4.D := 4; Task4.F := 3; Task4.S := 2; Task4.T := 1; Task4.Total := 10 |}.

(** A district that the lookup does not know. *)
Definition atlantis_pivot : Task4.pivot_row :=
  {| Task4.District := "ATLANTIS";
     Task4.D := 1; Task4.F := 0; Task4.S := 0; Task4.T := 2; Task4.Total := 3 |}.

Definition leeds_lookup : Task4.Lookup.row :=
  {| Task4.Lookup.LAD_Name := "Leeds";
     Task4.Lookup.Region_Code := Some "E12000003"%string;
     Task4.Lookup.Region_Name := Some "Yorkshire and The Humber"%string |}.

(** A second lookup row with the same name once cleaned. *)
Definition leeds_lookup_spaced : Task4.Lookup.row :=
  {| Task4.Lookup.LAD_Name := " leeds ";
     Task4.Lookup.Region_Code := Some "E12000003"%string;
     Task4.Lookup.Region_Name := Some "Yorkshire and The Humber"%string |}.

(** The (index, category) pair of a census row. *)
Definition census_entry (r : Task3.census_row) : key2 * string :=
  (Task3.census_index r, Task3.Number_of_household_spaces r).

Definition census (code name category : string) (observation : Z) : Task3.census_row :=
  {| Task3.Lower_tier_local_authorities_Code := code;
     Task3.Lower_tier_local_authorities := name;
     Task3.Number_of_household_spaces := category;
     Task3.Observation := observation |}.

(** Two districts, three categories each. *)
Definition census_sample : list Task3.census_row :=
  [ census "E06000001" "Hartlepool" "Unshared dwelling" 40;
    census "E06000001" "Hartlepool" "Shared dwelling: two household spaces" 2;
    census "E06000001" "Hartlepool" "Shared dwelling: three or more household spaces" 1;
    census "W06000015" "Cardiff" "Shared dwelling: two household spaces" 3;
    census "W06000015" "Cardiff" "Unshared dwelling" 50;
    census "W06000015" "Cardiff" "Shared dwelling: three or more household spaces" 4 ].

Definition lookup_sample : list Task3.lookup_row :=
  [ {| Task3.LAD23CD := "E06000001";
       Task3.RGN23CD := "E12000001";
       Task3.RGN23NM := "North East" |} ].

(** The sum of an integer quantity over the rows of any table. *)
Definition sum_by {A : Type} (f : A -> Z) (l : list A) : Z :=
  fold_right (fun a acc => f a + acc) 0 l.

(** The number of rows of a table, as an integer. *)
Definition row_count {A : Type} (l : list A) : Z := Z.of_nat (List.length l).

Definition sale (id : string) (y m d : Z) (prop_type status district : string)
  : Task4.Property.row :=
  {| Task4.Property.Transaction_ID := id;
     Task4.Property.Date := {| Task4.year := y; Task4.month := m; Task4.day := d |};
     Task4.Property.Property_Type := prop_type;
     Task4.Property.Record_Status := status;
     Task4.Property.District := district |}.

(** Six transactions over two months. *)
Definition sales_sample : list Task4.Property.row :=
  [ sale "{A1}" 2023 7 14 "D" "A" "LEEDS";
    sale "{A2}" 2023 6 30 "F" "A" "LEEDS";
    sale "{A3}" 2023 7 2 "O" "A" "LEEDS";
    sale "{A4}" 2023 7 21 "T" "D" "YORK";
    sale "{A5}" 2023 7 9 "F" "A" "YORK";
    sale "{A6}" 2023 7 9 "F" "A" "LEEDS" ].

(** The type of a transaction is one of D, F, S, T. *)
Definition valid_type (r : Task4.Property.row) : bool :=
  Task4.isin Task4.valid_property_types (Task4.Property.Property_Type r).

(** The counts of a district row are consistent: none is negative and
    Total is their sum. *)
Definition pivot_consistent (p : Task4.pivot_row) : Prop :=
  0 <= Task4.D p /\ 0 <= Task4.F p /\ 0 <= Task4.S p /\ 0 <= Task4.T p
  /\ Task4.Total p = Task4.D p + Task4.F p + Task4.S p + Task4.T p.

Definition result_consistent (r : Task4.Result.row) : Prop :=
  0 <= Task4.Result.D r /\ 0 <= Task4.Result.F r /\ 0 <= Task4.Result.S r
  /\ 0 <= Task4.Result.T r
  /\ Task4.Result.Total r
     = Task4.Result.D r + Task4.Result.F r + Task4.Result.S r + Task4.Result.T r.

Definition regional_consistent (g : Task4.Regional.row) : Prop :=
  0 <= Task4.Regional.D g /\ 0 <= Task4.Regional.F g /\ 0 <= Task4.Regional.S g
  /\ 0 <= Task4.Regional.T g
  /\ Task4.Regional.Total g
     = Task4.Regional.D g + Task4.Regional.F g + Task4.Regional.S g
       + Task4.Regional.T g.

(** The key of a row of the regional sales summary. *)
Definition regional_key (g : Task4.Regional.row) : key2 :=
  (Task4.Regional.Region_Code g, Task4.Regional.Region_Name g).

(** The line of the warning for one district row. *)
Definition reported (p : Task4.pivot_row) : string * Z * Z * Z * Z * Z :=
  (Task4.District p, Task4.D p, Task4.F p, Task4.S p, Task4.T p, Task4.Total p).

(** A lookup row for a district that task_3 could not place in a
    region. *)
Definition york_lookup_no_region : Task4.Lookup.row :=
  {| Task4.Lookup.LAD_Name := "York";
     Task4.Lookup.Region_Code := None;
     Task4.Lookup.Region_Name := None |}.

Definition york_pivot : Task4.pivot_row :=
  {| Task4.District := "YORK";
     Task4.D := 0; Task4.F := 1; Task4.S := 0; Task4.T := 0; Task4.Total := 1 |}.

(** The key of a row of [final_df]. *)
Definition final_key (r : Task3.final_row) : key2 :=
  (Task3.LAD_Code r, Task3.LAD_Name r).

(** The categories of the census table, distinct and sorted: the column
    labels of the pivot. *)
Definition census_categories (census_df : list Task3.census_row) : list string :=
  sort String.leb (distinct String.eqb (map Task3.Number_of_household_spaces census_df)).

(** The districts of the census table, distinct and sorted: the index of
    the pivot. *)
Definition census_districts (census_df : list Task3.census_row) : list key2 :=
  sort key2_leb (distinct key2_eqb (map Task3.census_index census_df)).

(** The key of a row of the regional dwelling summary. *)
Definition dwelling_region_key (g : Task3.Regional.row) : key2 :=
  (Task3.Regional.Region_Code g, Task3.Regional.Region_Name g).

(** A census table with two categories only. *)
Definition census_two_categories : list Task3.census_row :=
  [ census "E06000001" "Hartlepool" "Unshared dwelling" 40;
    census "E06000001" "Hartlepool" "Shared dwelling: two household spaces" 2 ].

(** What [main] of task_3 returns on the sample. *)
Definition final_sample : list Task3.final_row :=
  match Task3.main lookup_sample census_sample with
  | inr final_df => final_df
  | inl _ => []
  end.

(** The row of Cardiff in [final_sample]. *)
Definition cardiff_final : Task3.final_row :=
  {| Task3.LAD_Code := "W06000015"; Task3.LAD_Name := "Cardiff";
     Task3.Region_Code := None; Task3.Region_Name := None;
     Task3.Unshared_Dwellings := Some 50; Task3.Shared_Dwellings := Some 7;
     Task3.Shared_Two_Spaces := Some 4;
     Task3.Shared_Three_Plus_Spaces := Some 3;
     Task3.Total_Dwellings := Some 57 |}.

(** The counts of a row of the regional sales table are consistent. *)
Definition sales_consistent (s : Sales.row) : Prop :=
  0 <= Sales.D s /\ 0 <= Sales.F s /\ 0 <= Sales.S s /\ 0 <= Sales.T s
  /\ Sales.Total s = Sales.D s + Sales.F s + Sales.S s + Sales.T s.

Definition merged_consistent (m : Merged.row) : Prop :=
  0 <= Merged.D m /\ 0 <= Merged.F m /\ 0 <= Merged.S m /\ 0 <= Merged.T m
  /\ Merged.Total m = Merged.D m + Merged.F m + Merged.S m + Merged.T m.

(** The four percentage columns that share Total_Sales as their
    denominator. *)
Definition is_type_share (c : pct_column) : bool :=
  match c with
  | Rate => false
  | _ => true
  end.

(** The count column that a percentage column divides. *)
Definition analysis_numerator (c : pct_column) (r : Analysis.row) : Z :=
  match c with
  | Detached => Analysis.Sales_Detached r
  | Flats => Analysis.Sales_Flats r
  | Semi => Analysis.Sales_Semi r
  | Terraced => Analysis.Sales_Terraced r
  | Rate => Analysis.Total_Sales r
  end.

Definition analysis_consistent (r : Analysis.row) : Prop :=
  0 <= Analysis.Sales_Detached r /\ 0 <= Analysis.Sales_Flats r
  /\ 0 <= Analysis.Sales_Semi r /\ 0 <= Analysis.Sales_Terraced r
  /\ Analysis.Total_Sales r
     = Analysis.Sales_Detached r + Analysis.Sales_Flats r
       + Analysis.Sales_Semi r + Analysis.Sales_Terraced r.

(** A sales row without any sale. *)
Definition wales_no_sales : Sales.row :=
  {| Sales.Region_Code := "W92000004";
     Sales.Region_Name := "Wales";
     Sales.D := 0; Sales.F := 0; Sales.S := 0; Sales.T := 0; Sales.Total := 0 |}.

(** ** Properties *)

(** *** float64 arithmetic *)

Lemma round_half_even_bounds (a b : Z) (q : Q) :
  (inject_Z a <= q)%Q -> (q <= inject_Z b)%Q ->
  a <= round_half_even q <= b.
Proof.
  intros Ha Hb.
  assert (Hfa : a <= Qfloor q)
    by (rewrite <- (Qfloor_Z a); now apply Qfloor_resp_le).
  assert (Hfb : Qfloor q <= b)
    by (rewrite <- (Qfloor_Z b); now apply Qfloor_resp_le).
  assert (Hup : (inject_Z (Qfloor q) < q)%Q -> Qfloor q + 1 <= b).
  { intros Hlt.
    assert (Hqb : (inject_Z (Qfloor q) < inject_Z b)%Q)
      by (eapply Qlt_le_trans; eauto).
    rewrite <- Zlt_Qlt in Hqb. lia. }
  unfold round_half_even.
  destruct (Qcompare_spec (q - inject_Z (Qfloor q)) (1 # 2)) as [He | Hl | Hg].
  - destruct (Z.even (Qfloor q)); [lia |].
    split; [lia |]. apply Hup.
    apply Qlt_minus_iff. rewrite He. reflexivity.
  - lia.
  - split; [lia |]. apply Hup.
    apply Qlt_minus_iff.
    eapply Qlt_trans; [| exact Hg]. reflexivity.
Qed.

Lemma percent_scale_bounds (n d : Z) :
  0 < d -> 0 <= n <= d ->
  (inject_Z 0 <= inject_Z n / inject_Z d * inject_Z 100 * 100)%Q
  /\ (inject_Z n / inject_Z d * inject_Z 100 * 100 <= inject_Z 10000)%Q.
Proof.
  intros Hd Hn.
  destruct d as [| p | p]; try lia.
  unfold Qle, Qdiv, Qmult, Qinv, inject_Z; simpl.
  split; nia.
Qed.

Lemma hundredths_in_0_100 (r : Z) :
  0 <= r <= 10000 -> in_0_100 (Fin (inject_Z r / 100)).
Proof.
  intros Hr. unfold in_0_100, Qle, Qdiv, Qmult, Qinv, inject_Z; simpl.
  split; lia.
Qed.

Lemma inject_Z_eq_bool_0 (d : Z) : Qeq_bool (inject_Z d) 0 = (d =? 0).
Proof.
  unfold Qeq_bool, inject_Z; simpl.
  now rewrite Z.mul_1_r.
Qed.

(** On a positive denominator the rounded percentage of a part of it is
    a finite value of [0, 100]. *)
Lemma percentage_bounded (n d : Z) :
  0 < d -> 0 <= n <= d ->
  in_0_100 (percentage (of_int n) (of_int d))
  /\ isna (percentage (of_int n) (of_int d)) = false.
Proof.
  intros Hd Hn. unfold percentage, of_int, truediv.
  rewrite inject_Z_eq_bool_0.
  destruct (Z.eqb_spec d 0) as [-> | _]; [lia |].
  simpl. split; [| reflexivity].
  apply hundredths_in_0_100.
  destruct (percent_scale_bounds n d Hd Hn) as [Hlo Hhi].
  now apply round_half_even_bounds.
Qed.

(** 0/0 is NaN and stays NaN through the scaling and the rounding. *)
Lemma percentage_zero_over_zero :
  percentage (of_int 0) (of_int 0) = NaN.
Proof. reflexivity. Qed.

(** A null denominator gives NaN. *)
Lemma percentage_null_denominator (n : Z) :
  percentage (of_int n) (of_cell None) = NaN.
Proof. reflexivity. Qed.

(** A positive count over zero is plus infinity, which [fillna] keeps. *)
Lemma percentage_positive_over_zero (n : Z) :
  0 < n -> fillna (percentage (of_int n) (of_int 0)) (of_int 0) = PInf.
Proof.
  intros Hn. unfold percentage, of_int, truediv.
  rewrite inject_Z_eq_bool_0. simpl.
  destruct (Qcompare_spec (inject_Z n) 0) as [He | Hl | Hg].
  - unfold Qeq, inject_Z in He; simpl in He. lia.
  - unfold Qlt, inject_Z in Hl; simpl in Hl. lia.
  - reflexivity.
Qed.

(** *** calculate_percentages *)

Lemma fillna_notna (v d : float64) : isna d = false -> isna (fillna v d) = false.
Proof. intros Hd. unfold fillna. destruct v; simpl; auto. Qed.

Lemma pct_of_percentages_row (c : pct_column) (m : Merged.row) :
  pct_of c (percentages_row m) =
  fillna (percentage (of_cell (numerator c m)) (of_cell (denominator c m))) (of_int 0).
Proof. destruct c; reflexivity. Qed.

(** C1, amended.  Every row of [calculate_percentages merged_df] comes
    from a row of [merged_df], and each of its five percentage columns
    is never NaN, is zero when its denominator is null or when numerator
    and denominator are both zero (the 0/0 case), and lies in [0, 100]
    when the denominator is positive and the numerator lies between zero
    and the denominator. *)
Theorem calculate_percentages_zero_or_bounded
  (merged_df : list Merged.row) (r : Analysis.row) :
  In r (calculate_percentages merged_df) ->
  exists m, In m merged_df /\ r = percentages_row m /\
    forall c : pct_column,
      isna (pct_of c r) = false
      /\ (denominator c m = None -> is_zero (pct_of c r))
      /\ (denominator c m = Some 0 -> numerator c m = Some 0 -> is_zero (pct_of c r))
      /\ (forall n d, numerator c m = Some n -> denominator c m = Some d ->
          0 < d -> 0 <= n <= d -> in_0_100 (pct_of c r)).
Proof.
  unfold calculate_percentages. intros Hin.
  apply in_map_iff in Hin. destruct Hin as [m [Hr Hm]].
  exists m. split; [exact Hm |]. split; [now symmetry |].
  intros c. subst r. rewrite pct_of_percentages_row.
  split; [now apply fillna_notna |].
  split; [| split].
  - intros ->. destruct (numerator c m); reflexivity.
  - intros -> ->. reflexivity.
  - intros n d -> -> Hd Hn.
    destruct (percentage_bounded n d Hd Hn) as [Hb Hna].
    unfold fillna, of_cell. rewrite Hna. exact Hb.
Qed.

Lemma calculate_percentages_zero_or_bounded_witness :
  exists m, In m [ordinary_region; empty_region]
    /\ percentages_row ordinary_region = percentages_row m
    /\ forall c : pct_column,
      isna (pct_of c (percentages_row ordinary_region)) = false
      /\ (denominator c m = None -> is_zero (pct_of c (percentages_row ordinary_region)))
      /\ (denominator c m = Some 0 -> numerator c m = Some 0 ->
          is_zero (pct_of c (percentages_row ordinary_region)))
      /\ (forall n d, numerator c m = Some n -> denominator c m = Some d ->
          0 < d -> 0 <= n <= d -> in_0_100 (pct_of c (percentages_row ordinary_region))).
Proof.
  apply (calculate_percentages_zero_or_bounded [ordinary_region; empty_region]).
  simpl. left. reflexivity.
Defined.

(** C1 as stated fails on a region with more sales than dwellings: the
    denominator of [Sales_Rate] is positive and the rate is 150. *)
Lemma zero_or_bounded_fails : ~ zero_or_bounded more_sales_than_dwellings.
Proof.
  intros H. destruct (H Rate) as [_ Hb].
  specialize (Hb 2 eq_refl ltac:(lia)).
  vm_compute in Hb. destruct Hb as [_ Hb]. now apply Hb.
Qed.

Example sales_rate_of_more_sales_than_dwellings :
  feqb (Analysis.Sales_Rate (percentages_row more_sales_than_dwellings)) (of_int 150) = true.
Proof. reflexivity. Qed.

(** The 0/0 scenario: no sales and no dwellings give a rate of zero. *)
Example sales_rate_of_empty_region :
  Analysis.Sales_Rate (percentages_row empty_region) = of_int 0.
Proof. reflexivity. Qed.

(** A zero denominator under a positive numerator is not caught by
    [fillna]: the rate is plus infinity. *)
Example sales_rate_of_sales_without_dwellings :
  Analysis.Sales_Rate (percentages_row sales_without_dwellings) = PInf.
Proof. reflexivity. Qed.

(** *** Series.max and Series.idxmax *)

Lemma fleb_refl (v : float64) : notna v = true -> fleb v v = true.
Proof.
  destruct v; simpl; try reflexivity; try discriminate.
  intros _. apply Qle_bool_iff. apply Qle_refl.
Qed.

Lemma fleb_total (a b : float64) :
  notna a = true -> notna b = true -> fleb a b = true \/ fleb b a = true.
Proof.
  destruct a, b; simpl; try discriminate; auto.
  intros _ _. rewrite !Qle_bool_iff.
  destruct (Qlt_le_dec q q0) as [H | H]; [left; now apply Qlt_le_weak | now right].
Qed.

Lemma fleb_trans (a b c : float64) :
  fleb a b = true -> fleb b c = true -> fleb a c = true.
Proof.
  destruct a, b, c; simpl; try discriminate; auto.
  rewrite !Qle_bool_iff. apply Qle_trans.
Qed.

Lemma fleb_notna (a b : float64) :
  fleb a b = true -> notna a = true /\ notna b = true.
Proof. destruct a, b; simpl; try discriminate; auto. Qed.

Lemma feqb_refl (v : float64) : notna v = true -> feqb v v = true.
Proof.
  destruct v; simpl; try reflexivity; try discriminate.
  intros _. apply Qeq_bool_refl.
Qed.

Lemma feqb_notna (a b : float64) :
  feqb a b = true -> notna a = true /\ notna b = true.
Proof. destruct a, b; simpl; try discriminate; auto. Qed.

Lemma fmax2_cases (a b : float64) : fmax2 a b = a \/ fmax2 a b = b.
Proof. unfold fmax2. destruct (fleb b a); auto. Qed.

Lemma fmax2_upper (a b : float64) :
  notna a = true -> notna b = true ->
  fleb a (fmax2 a b) = true /\ fleb b (fmax2 a b) = true.
Proof.
  intros Ha Hb. unfold fmax2.
  destruct (fleb b a) eqn:E.
  - split; [now apply fleb_refl | exact E].
  - destruct (fleb_total a b Ha Hb) as [H | H]; [| congruence].
    split; [exact H | now apply fleb_refl].
Qed.

Lemma fold_max_in (vs : list float64) (v : float64) :
  In (fold_left fmax2 vs v) (v :: vs).
Proof.
  revert v. induction vs as [| a vs IH]; intros v; simpl.
  - now left.
  - destruct (IH (fmax2 v a)) as [H | H].
    + destruct (fmax2_cases v a) as [E | E]; rewrite E in *; auto.
    + auto.
Qed.

Lemma fold_max_upper (vs : list float64) (v : float64) :
  (forall x, In x (v :: vs) -> notna x = true) ->
  forall x, In x (v :: vs) -> fleb x (fold_left fmax2 vs v) = true.
Proof.
  revert v. induction vs as [| a vs IH]; intros v Hall x Hx; simpl.
  - destruct Hx as [<- | []]. apply fleb_refl, Hall. now left.
  - assert (Hv : notna v = true) by (apply Hall; now left).
    assert (Ha : notna a = true) by (apply Hall; right; now left).
    destruct (fmax2_upper v a Hv Ha) as [Hva Haa].
    assert (Hm : notna (fmax2 v a) = true)
      by (destruct (fmax2_cases v a) as [E | E]; now rewrite E).
    assert (Hall' : forall y, In y (fmax2 v a :: vs) -> notna y = true).
    { intros y [<- | Hy]; [exact Hm |]. apply Hall. right. now right. }
    assert (Htop : fleb (fmax2 v a) (fold_left fmax2 vs (fmax2 v a)) = true)
      by (apply IH; [exact Hall' | now left]).
    destruct Hx as [<- | [<- | Hx]].
    + eapply fleb_trans; eassumption.
    + eapply fleb_trans; eassumption.
    + apply IH; [exact Hall' | now right].
Qed.

(** As soon as a series holds a value that is not NaN, its maximum is
    one of its values, is not NaN, and bounds every value that is not
    NaN. *)
Lemma series_max_spec (s : list float64) :
  (exists x, In x s /\ notna x = true) ->
  In (series_max s) s
  /\ notna (series_max s) = true
  /\ forall x, In x s -> notna x = true -> fleb x (series_max s) = true.
Proof.
  intros [x0 [Hx0 Hn0]]. unfold series_max.
  assert (Hf0 : In x0 (filter notna s)) by (apply filter_In; auto).
  destruct (filter notna s) as [| v vs] eqn:E; [destruct Hf0 |].
  assert (Hsub : forall y, In y (v :: vs) -> In y s /\ notna y = true)
    by (intros y Hy; rewrite <- E in Hy; now apply filter_In in Hy).
  pose proof (fold_max_in vs v) as Hin.
  split; [apply Hsub, Hin |]. split; [apply Hsub, Hin |].
  intros x Hx Hn. apply fold_max_upper.
  - intros y Hy. apply Hsub, Hy.
  - rewrite <- E. apply filter_In. auto.
Qed.

(** The maximum of a series without any value is NaN. *)
Lemma series_max_all_nan (s : list float64) :
  (forall x, In x s -> notna x = false) -> series_max s = NaN.
Proof.
  intros Hall. unfold series_max.
  destruct (filter notna s) as [| v vs] eqn:E; [reflexivity |].
  assert (Hv : In v (filter notna s)) by (rewrite E; now left).
  apply filter_In in Hv. destruct Hv as [Hv Hn].
  rewrite (Hall v Hv) in Hn. discriminate.
Qed.

Lemma index_of_some (p : float64 -> bool) (s : list float64) :
  (exists x, In x s /\ p x = true) <-> index_of p s <> None.
Proof.
  induction s as [| v vs IH]; simpl.
  - split; [intros [x [[] _]] | congruence].
  - destruct (p v) eqn:E.
    + split; [intros _; discriminate |].
      intros _. exists v. split; [now left | exact E].
    + split.
      * intros [x [[<- | Hx] Hp]]; [congruence |].
        assert (H : index_of p vs <> None) by (apply IH; eauto).
        destruct (index_of p vs); [discriminate | congruence].
      * intros H. destruct (index_of p vs) eqn:Ei; [| simpl in H; congruence].
        destruct IH as [_ IH]. destruct IH as [x [Hx Hp]]; [discriminate |].
        exists x. split; [now right | exact Hp].
Qed.

(** [idxmax] returns exactly on the series that hold a value. *)
Lemma idxmax_some_iff (s : list float64) :
  idxmax s <> None <-> exists x, In x s /\ notna x = true.
Proof.
  unfold idxmax. rewrite <- index_of_some. split.
  - intros [x [Hx He]]. exists x. split; [exact Hx |].
    now apply feqb_notna in He.
  - intros H. destruct (series_max_spec s H) as [Hin [Hn _]].
    exists (series_max s). split; [exact Hin | now apply feqb_refl].
Qed.

(** *** identify_maxima *)

Lemma identify_maxima_inv (df : list Analysis.row) (out : list Flagged.row) :
  identify_maxima df = Some out ->
  (forall c, idxmax (map (pct_of c) (filter is_regional df)) <> None)
  /\ map Flagged.data out = df
  /\ forall f c, In f out ->
       flag_of c f = feqb (pct_of c (Flagged.data f)) (regional_max c df).
Proof.
  unfold identify_maxima, highest. intros H.
  destruct (idxmax (map Analysis.Pct_Detached (filter is_regional df))) eqn:E1;
    [| discriminate].
  destruct (idxmax (map Analysis.Pct_Flats (filter is_regional df))) eqn:E2;
    [| discriminate].
  destruct (idxmax (map Analysis.Pct_Semi (filter is_regional df))) eqn:E3;
    [| discriminate].
  destruct (idxmax (map Analysis.Pct_Terraced (filter is_regional df))) eqn:E4;
    [| discriminate].
  destruct (idxmax (map Analysis.Sales_Rate (filter is_regional df))) eqn:E5;
    [| discriminate].
  injection H as <-.
  split; [| split].
  - intros c Hc.
    destruct c;
      [ change (idxmax (map Analysis.Pct_Detached (filter is_regional df)) = None) in Hc
      | change (idxmax (map Analysis.Pct_Flats (filter is_regional df)) = None) in Hc
      | change (idxmax (map Analysis.Pct_Semi (filter is_regional df)) = None) in Hc
      | change (idxmax (map Analysis.Pct_Terraced (filter is_regional df)) = None) in Hc
      | change (idxmax (map Analysis.Sales_Rate (filter is_regional df)) = None) in Hc ];
      congruence.
  - rewrite map_map. simpl. apply map_id.
  - intros f c Hf. apply in_map_iff in Hf. destruct Hf as [r [<- _]].
    destruct c; reflexivity.
Qed.

(** [identify_maxima] returns as soon as every percentage column has a
    value in some regional row. *)
Lemma identify_maxima_returns (df : list Analysis.row) :
  (forall c, exists r, In r df /\ is_regional r = true /\ notna (pct_of c r) = true) ->
  exists out, identify_maxima df = Some out.
Proof.
  intros Hall.
  assert (Hidx : forall c, exists i,
             idxmax (map (pct_of c) (filter is_regional df)) = Some i).
  { intros c. destruct (Hall c) as [r [Hr [Hreg Hn]]].
    destruct (idxmax (map (pct_of c) (filter is_regional df))) eqn:E; [eauto |].
    exfalso. revert E. apply idxmax_some_iff.
    exists (pct_of c r). split; [| exact Hn].
    apply in_map. apply filter_In. auto. }
  destruct (Hidx Detached) as [i1 E1], (Hidx Flats) as [i2 E2],
    (Hidx Semi) as [i3 E3], (Hidx Terraced) as [i4 E4], (Hidx Rate) as [i5 E5].
  change (idxmax (map Analysis.Pct_Detached (filter is_regional df)) = Some i1) in E1.
  change (idxmax (map Analysis.Pct_Flats (filter is_regional df)) = Some i2) in E2.
  change (idxmax (map Analysis.Pct_Semi (filter is_regional df)) = Some i3) in E3.
  change (idxmax (map Analysis.Pct_Terraced (filter is_regional df)) = Some i4) in E4.
  change (idxmax (map Analysis.Sales_Rate (filter is_regional df)) = Some i5) in E5.
  unfold identify_maxima, highest.
  rewrite E1, E2, E3, E4, E5. eauto.
Qed.

(** After [calculate_percentages] no percentage is NaN, so on the
    combined table [identify_maxima] returns as soon as there is one
    regional row. *)
Lemma identify_maxima_returns_on_pipeline (merged_df : list Merged.row) (m : Merged.row) :
  In m merged_df ->
  Merged.Region_Code m <> "NATIONAL"%string ->
  exists out,
    identify_maxima (calculate_national_totals (calculate_percentages merged_df))
    = Some out.
Proof.
  intros Hm Hcode. apply identify_maxima_returns.
  intros c. exists (percentages_row m). split; [| split].
  - unfold calculate_national_totals, calculate_percentages.
    apply in_or_app. left. now apply in_map.
  - unfold is_regional. simpl.
    apply negb_true_iff. now apply String.eqb_neq.
  - rewrite pct_of_percentages_row. unfold notna.
    now rewrite fillna_notna.
Qed.

(** The NATIONAL row appended by [calculate_national_totals] does not
    enter the maxima. *)
Lemma regional_max_ignores_national (c : pct_column) (merged_df : list Analysis.row) :
  regional_max c (calculate_national_totals merged_df) = regional_max c merged_df.
Proof.
  unfold regional_max, calculate_national_totals.
  rewrite filter_app. simpl. now rewrite app_nil_r.
Qed.

(** C2.  Whenever [identify_maxima] returns, then for every percentage
    column: the maximum used for the flags is the maximum over the
    regional rows only (a regional row attains it and it bounds every
    regional value, whatever the value of the NATIONAL row); at least
    one regional row is flagged; the value of every flagged row equals
    that maximum; and every regional row whose value equals it is
    flagged. *)
Theorem identify_maxima_flags_regional_maximum
  (df : list Analysis.row) (out : list Flagged.row) (c : pct_column) :
  identify_maxima df = Some out ->
  (exists r, In r df /\ is_regional r = true /\ pct_of c r = regional_max c df)
  /\ (forall r, In r df -> is_regional r = true -> notna (pct_of c r) = true ->
      fleb (pct_of c r) (regional_max c df) = true)
  /\ (exists f, In f out /\ is_regional (Flagged.data f) = true /\ flag_of c f = true)
  /\ (forall f, In f out -> flag_of c f = true ->
      feqb (pct_of c (Flagged.data f)) (regional_max c df) = true)
  /\ (forall f, In f out -> is_regional (Flagged.data f) = true ->
      feqb (pct_of c (Flagged.data f)) (regional_max c df) = true ->
      flag_of c f = true).
Proof.
  intros H. destruct (identify_maxima_inv df out H) as [Hidx [Hdata Hflag]].
  destruct (series_max_spec (map (pct_of c) (filter is_regional df)))
    as [Hin [Hn Hup]]; [now apply idxmax_some_iff |].
  fold (regional_max c df) in Hin, Hn, Hup.
  apply in_map_iff in Hin. destruct Hin as [r0 [Hr0 Hin0]].
  apply filter_In in Hin0. destruct Hin0 as [Hin0 Hreg0].
  split; [exists r0; auto |].
  split.
  { intros r Hr Hreg Hnr. apply Hup; [| exact Hnr].
    apply in_map. apply filter_In. auto. }
  split.
  { rewrite <- Hdata in Hin0. apply in_map_iff in Hin0.
    destruct Hin0 as [f [Hf Hfin]]. exists f.
    split; [exact Hfin |]. split; [now rewrite Hf |].
    rewrite (Hflag f c Hfin), Hf, Hr0. now apply feqb_refl. }
  split.
  - intros f Hf Ht. now rewrite <- (Hflag f c Hf).
  - intros f Hf _ He. now rewrite (Hflag f c Hf).
Qed.

Lemma identify_maxima_flags_regional_maximum_witness :
  (exists r, In r two_regions_combined /\ is_regional r = true
     /\ pct_of Rate r = regional_max Rate two_regions_combined)
  /\ (forall r, In r two_regions_combined -> is_regional r = true ->
      notna (pct_of Rate r) = true ->
      fleb (pct_of Rate r) (regional_max Rate two_regions_combined) = true)
  /\ (exists f, In f two_regions_flagged /\ is_regional (Flagged.data f) = true
       /\ flag_of Rate f = true)
  /\ (forall f, In f two_regions_flagged -> flag_of Rate f = true ->
      feqb (pct_of Rate (Flagged.data f)) (regional_max Rate two_regions_combined) = true)
  /\ (forall f, In f two_regions_flagged -> is_regional (Flagged.data f) = true ->
      feqb (pct_of Rate (Flagged.data f)) (regional_max Rate two_regions_combined) = true ->
      flag_of Rate f = true).
Proof.
  apply (identify_maxima_flags_regional_maximum two_regions_combined two_regions_flagged Rate).
  vm_compute. reflexivity.
Defined.

(** C9.  Whenever [identify_maxima] returns, its rows are the rows of
    the combined table in the same order, the NATIONAL row included, and
    the flag of every row, aggregate or not, tells whether its value
    equals the maximum over the regional rows; so a NATIONAL row whose
    percentage equals the regional maximum is flagged. *)
Theorem identify_maxima_flags_every_row
  (df : list Analysis.row) (out : list Flagged.row) (c : pct_column) :
  identify_maxima df = Some out ->
  map Flagged.data out = df
  /\ (forall f, In f out ->
      flag_of c f = feqb (pct_of c (Flagged.data f)) (regional_max c df))
  /\ (forall f, In f out ->
      Analysis.Region_Code (Flagged.data f) = "NATIONAL"%string ->
      feqb (pct_of c (Flagged.data f)) (regional_max c df) = true ->
      flag_of c f = true).
Proof.
  intros H. destruct (identify_maxima_inv df out H) as [_ [Hdata Hflag]].
  split; [exact Hdata |]. split.
  - intros f Hf. apply Hflag, Hf.
  - intros f Hf _ He. now rewrite (Hflag f c Hf).
Qed.

Lemma identify_maxima_flags_every_row_witness :
  map Flagged.data one_region_flagged = one_region_combined
  /\ (forall f, In f one_region_flagged ->
      flag_of Detached f
      = feqb (pct_of Detached (Flagged.data f)) (regional_max Detached one_region_combined))
  /\ (forall f, In f one_region_flagged ->
      Analysis.Region_Code (Flagged.data f) = "NATIONAL"%string ->
      feqb (pct_of Detached (Flagged.data f)) (regional_max Detached one_region_combined) = true ->
      flag_of Detached f = true).
Proof.
  apply (identify_maxima_flags_every_row one_region_combined one_region_flagged Detached).
  vm_compute. reflexivity.
Defined.

(** With a single region the national percentages coincide with the
    regional ones, and the NATIONAL row carries all five flags. *)
Example national_row_flagged :
  map (fun f => (Analysis.Region_Code (Flagged.data f),
                 (Flagged.Max_Detached f, Flagged.Max_Flats f, Flagged.Max_Semi f,
                  Flagged.Max_Terraced f, Flagged.Max_Sales_Rate f)))
      one_region_flagged
  = [("E12000004"%string, (true, true, true, true, true));
     ("NATIONAL"%string, (true, true, true, true, true))].
Proof. vm_compute. reflexivity. Qed.

(** Without any regional row the report raises and nothing is
    returned. *)
Example identify_maxima_without_regions :
  identify_maxima (calculate_national_totals (calculate_percentages [])) = None.
Proof. reflexivity. Qed.

(** *** calculate_national_totals *)

Lemma fold_left_total (count : Analysis.row -> Z) (rows : list Analysis.row) (a : Z) :
  fold_left (fun acc r => acc + count r) rows a = a + total_of count rows.
Proof.
  unfold total_of. revert a.
  induction rows as [| r rows IH]; intros a; simpl.
  - lia.
  - rewrite (IH (a + count r)), (IH (count r)). lia.
Qed.

Lemma total_of_cons (count : Analysis.row -> Z) (r : Analysis.row) (rows : list Analysis.row) :
  total_of count (r :: rows) = count r + total_of count rows.
Proof. unfold total_of at 1. simpl. now rewrite fold_left_total. Qed.

Lemma total_of_app (count : Analysis.row -> Z) (a b : list Analysis.row) :
  total_of count (a ++ b) = total_of count a + total_of count b.
Proof.
  induction a as [| r a IH]; simpl.
  - reflexivity.
  - rewrite !total_of_cons, IH. lia.
Qed.

Lemma int_sum_total (count : Analysis.row -> Z) (rows : list Analysis.row) :
  int_sum (map count rows) = total_of count rows.
Proof.
  induction rows as [| r rows IH]; simpl.
  - reflexivity.
  - rewrite total_of_cons, <- IH. reflexivity.
Qed.

Lemma series_sum_total (col : Analysis.row -> option Z) (rows : list Analysis.row) :
  series_sum (map col rows) = total_of (fun r => null_as_zero (col r)) rows.
Proof.
  induction rows as [| r rows IH]; simpl.
  - reflexivity.
  - rewrite total_of_cons. destruct (col r); simpl; rewrite IH; lia.
Qed.

(** C3.  [calculate_national_totals] appends exactly one row, keyed
    NATIONAL, to the rows it receives, and each of the eight count
    columns of that row is the total of the column over the received
    rows, each row counted once (a null dwelling count adds nothing). *)
Theorem national_row_totals (merged_df : list Analysis.row) :
  exists n : Analysis.row,
    calculate_national_totals merged_df = merged_df ++ [n]
    /\ Analysis.Region_Code n = "NATIONAL"%string
    /\ Analysis.Total_Dwellings n
       = Some (total_of (fun r => null_as_zero (Analysis.Total_Dwellings r)) merged_df)
    /\ Analysis.Unshared_Dwellings n
       = Some (total_of (fun r => null_as_zero (Analysis.Unshared_Dwellings r)) merged_df)
    /\ Analysis.Shared_Dwellings n
       = Some (total_of (fun r => null_as_zero (Analysis.Shared_Dwellings r)) merged_df)
    /\ Analysis.Sales_Detached n = total_of Analysis.Sales_Detached merged_df
    /\ Analysis.Sales_Flats n = total_of Analysis.Sales_Flats merged_df
    /\ Analysis.Sales_Semi n = total_of Analysis.Sales_Semi merged_df
    /\ Analysis.Sales_Terraced n = total_of Analysis.Sales_Terraced merged_df
    /\ Analysis.Total_Sales n = total_of Analysis.Total_Sales merged_df.
Proof.
  exists (national merged_df). unfold calculate_national_totals, national. simpl.
  rewrite !series_sum_total, !int_sum_total.
  repeat split; reflexivity.
Qed.

(** The national totals of two tables put end to end are the sums of
    their national totals: no row enters a total twice. *)
Lemma national_totals_additive (a b : list Analysis.row) :
  Analysis.Total_Sales (national (a ++ b))
  = Analysis.Total_Sales (national a) + Analysis.Total_Sales (national b)
  /\ Analysis.Total_Dwellings (national (a ++ b))
     = Some (null_as_zero (Analysis.Total_Dwellings (national a))
             + null_as_zero (Analysis.Total_Dwellings (national b))).
Proof.
  unfold national. simpl.
  rewrite !series_sum_total, !int_sum_total, !total_of_app. auto.
Qed.

(** The regional rows of the combined table are the received rows when
    none of them is keyed NATIONAL, so the totals are those of the
    non-aggregate rows of the combined table. *)
Lemma regional_rows_of_combined (merged_df : list Analysis.row) :
  Forall (fun r => is_regional r = true) merged_df ->
  filter is_regional (calculate_national_totals merged_df) = merged_df.
Proof.
  intros Hall. unfold calculate_national_totals.
  rewrite filter_app. simpl. rewrite app_nil_r.
  induction Hall as [| r rows Hr _ IH]; simpl.
  - reflexivity.
  - now rewrite Hr, IH.
Qed.

Example national_totals_of_two_regions :
  map (fun r => (Analysis.Region_Code r, Analysis.Total_Dwellings r, Analysis.Total_Sales r))
      two_regions_combined
  = [("E12000004"%string, Some 40, 8);
     ("E12000001"%string, Some 2, 3);
     ("NATIONAL"%string, Some 42, 11)].
Proof. reflexivity. Qed.

(** *** DataFrame.merge *)

Section SortFacts.
Context {A : Type} (leb : A -> A -> bool).

Lemma insert_perm (x : A) (l : list A) : Permutation (x :: l) (insert leb x l).
Proof.
  induction l as [| y l IH]; simpl.
  - apply Permutation_refl.
  - destruct (leb x y).
    + apply Permutation_refl.
    + eapply perm_trans; [apply perm_swap |]. now apply perm_skip.
Qed.

Lemma sort_perm (l : list A) : Permutation l (sort leb l).
Proof.
  induction l as [| x l IH]; simpl.
  - apply perm_nil.
  - eapply perm_trans; [apply perm_skip, IH | apply insert_perm].
Qed.

Lemma sort_In (l : list A) (x : A) : In x (sort leb l) <-> In x l.
Proof.
  split; apply Permutation_in;
    [apply Permutation_sym |]; apply sort_perm.
Qed.

Lemma sort_length (l : list A) : List.length (sort leb l) = List.length l.
Proof. symmetry. apply Permutation_length, sort_perm. Qed.
End SortFacts.

Section DistinctFacts.
Context {A : Type} (eqb : A -> A -> bool).
Hypothesis eqb_eq : forall a b, eqb a b = true <-> a = b.

Lemma filter_all (p : A -> bool) (l : list A) :
  (forall y, In y l -> p y = true) -> filter p l = l.
Proof.
  induction l as [| y l IH]; intros H; simpl.
  - reflexivity.
  - rewrite (H y (or_introl eq_refl)). f_equal. apply IH.
    intros z Hz. apply H. now right.
Qed.

Lemma filter_filter (p q : A -> bool) (l : list A) :
  filter p (filter q l) = filter (fun y => q y && p y) l.
Proof.
  induction l as [| y l IH]; simpl.
  - reflexivity.
  - destruct (q y); simpl; [destruct (p y) |]; now rewrite IH.
Qed.

Lemma distinct_NoDup (l : list A) : NoDup l -> distinct eqb l = l.
Proof.
  induction 1 as [| x l Hx _ IH]; simpl.
  - reflexivity.
  - rewrite IH. f_equal. apply filter_all.
    intros y Hy. apply negb_true_iff.
    destruct (eqb x y) eqn:E; [| reflexivity].
    apply eqb_eq in E. now subst y.
Qed.

(** The members of [a] excluded: what [b] adds to [a]. *)
Lemma distinct_app (a b : list A) :
  distinct eqb (a ++ b)
  = distinct eqb a
      ++ filter (fun y => negb (existsb (fun x => eqb x y) a)) (distinct eqb b).
Proof.
  induction a as [| x a IH]; simpl.
  - symmetry. now apply filter_all.
  - f_equal. rewrite IH, filter_app, filter_filter. f_equal.
    apply filter_ext. intros y.
    rewrite negb_orb. apply andb_comm.
Qed.
End DistinctFacts.

Section MergeFacts.
Context {L R K : Type}.
Variable key_eqb : K -> K -> bool.
Variable lkey : L -> K.
Variable rkey : R -> K.

(** The rows of a left merge: a left row with a right row of the same
    key, or a left row alone when no right row has its key. *)
Lemma in_merge_left (ls : list L) (rs : list R) (l : L) (o : option R) :
  In (l, o) (merge_left key_eqb lkey rkey ls rs) <->
  In l ls /\
  match o with
  | Some r => In r rs /\ key_eqb (lkey l) (rkey r) = true
  | None => forall r, In r rs -> key_eqb (lkey l) (rkey r) = false
  end.
Proof.
  unfold merge_left. rewrite in_flat_map. unfold left_rows.
  split.
  - intros [l' [Hl' Hin]].
    destruct (matches key_eqb lkey rkey l' rs) as [| r0 m] eqn:E.
    + destruct Hin as [Heq | []]. injection Heq as -> <-.
      split; [exact Hl' |]. intros r Hr.
      destruct (key_eqb (lkey l) (rkey r)) eqn:Ek; [| reflexivity].
      assert (Hm : In r (matches key_eqb lkey rkey l rs))
        by (apply filter_In; auto).
      rewrite E in Hm. destruct Hm.
    + rewrite <- E in Hin. apply in_map_iff in Hin.
      destruct Hin as [r [Heq Hr]]. injection Heq as -> <-.
      split; [exact Hl' |]. now apply filter_In in Hr.
  - intros [Hl Ho]. exists l. split; [exact Hl |].
    destruct o as [r |].
    + assert (Hm : In r (matches key_eqb lkey rkey l rs))
        by (apply filter_In; exact Ho).
      destruct (matches key_eqb lkey rkey l rs) as [| r0 m] eqn:E;
        [destruct Hm |].
      rewrite <- E. apply in_map_iff. exists r. split; [reflexivity |].
      now rewrite E.
    + destruct (matches key_eqb lkey rkey l rs) as [| r0 m] eqn:E;
        [now left |].
      assert (Hm : In r0 (matches key_eqb lkey rkey l rs))
        by (rewrite E; now left).
      apply filter_In in Hm. destruct Hm as [Hr0 Hk].
      rewrite (Ho r0 Hr0) in Hk. discriminate.
Qed.

(** A left merge has at least as many rows as the left table. *)
Lemma merge_left_length_ge (ls : list L) (rs : list R) :
  (List.length ls <= List.length (merge_left key_eqb lkey rkey ls rs))%nat.
Proof.
  unfold merge_left. induction ls as [| l ls IH]; simpl.
  - lia.
  - rewrite length_app. unfold left_rows at 1.
    destruct (matches key_eqb lkey rkey l rs) as [| r0 m]; simpl; lia.
Qed.

Lemma merge_left_length (ls : list L) (rs : list R) :
  (forall l, In l ls -> (List.length (matches key_eqb lkey rkey l rs) <= 1)%nat) ->
  List.length (merge_left key_eqb lkey rkey ls rs) = List.length ls.
Proof.
  unfold merge_left. induction ls as [| l ls IH]; intros H; simpl.
  - reflexivity.
  - rewrite length_app, IH by (intros l' Hl'; apply H; now right).
    f_equal. unfold left_rows.
    pose proof (H l (or_introl eq_refl)) as Hl.
    destruct (matches key_eqb lkey rkey l rs) as [| r0 [| r1 m]]; simpl in *;
      try reflexivity; lia.
Qed.

Hypothesis key_eqb_eq : forall a b, key_eqb a b = true <-> a = b.

Lemma matches_unique (l : L) (rs : list R) :
  NoDup (map rkey rs) ->
  (List.length (matches key_eqb lkey rkey l rs) <= 1)%nat.
Proof.
  unfold matches. induction rs as [| r rs IH]; simpl; intros Hnd.
  - lia.
  - inversion Hnd as [| k ks Hk Hnd' Heq]; subst.
    destruct (key_eqb (lkey l) (rkey r)) eqn:E.
    + apply key_eqb_eq in E. simpl.
      assert (Hnone : filter (fun r0 => key_eqb (lkey l) (rkey r0)) rs = []).
      { destruct (filter (fun r0 => key_eqb (lkey l) (rkey r0)) rs) as [| r1 m] eqn:Ef;
          [reflexivity |].
        assert (Hr1 : In r1 (filter (fun r0 => key_eqb (lkey l) (rkey r0)) rs))
          by (rewrite Ef; now left).
        apply filter_In in Hr1. destruct Hr1 as [Hr1 Hk1].
        apply key_eqb_eq in Hk1. exfalso. apply Hk.
        rewrite <- E, Hk1. now apply in_map. }
      rewrite Hnone. simpl. lia.
    + now apply IH.
Qed.

(** With unique right keys a left merge has exactly the rows of the
    left table. *)
Lemma merge_left_length_unique (ls : list L) (rs : list R) :
  NoDup (map rkey rs) ->
  List.length (merge_left key_eqb lkey rkey ls rs) = List.length ls.
Proof.
  intros Hnd. apply merge_left_length.
  intros l _. now apply matches_unique.
Qed.

Variable key_leb : K -> K -> bool.

(** The rows of an outer merge. *)
Lemma in_merge_outer (ls : list L) (rs : list R) (j : joined L R) :
  In j (merge_outer key_eqb lkey rkey key_leb ls rs) <->
  match j with
  | both l r => In l ls /\ In r rs /\ key_eqb (lkey l) (rkey r) = true
  | left_only l => In l ls /\ forall r, In r rs -> key_eqb (lkey l) (rkey r) = false
  | right_only r => In r rs /\ forall l, In l ls -> key_eqb (lkey l) (rkey r) = false
  end.
Proof.
  unfold merge_outer. rewrite sort_In, in_app_iff, !in_map_iff.
  split.
  - intros [[[l o] [Hj Hin]] | [r [Hj Hin]]]; subst j.
    + apply in_merge_left in Hin. destruct o as [r |]; simpl; tauto.
    + apply filter_In in Hin. destruct Hin as [Hr Hno].
      split; [exact Hr |]. intros l Hl.
      destruct (key_eqb (lkey l) (rkey r)) eqn:E; [| reflexivity].
      apply negb_true_iff in Hno. unfold has_left in Hno.
      assert (Hex : existsb (fun l0 => key_eqb (lkey l0) (rkey r)) ls = true)
        by (apply existsb_exists; eauto).
      congruence.
  - destruct j as [l r | l | r].
    + intros [Hl [Hr Hk]]. left. exists (l, Some r).
      split; [reflexivity |]. apply in_merge_left. auto.
    + intros [Hl Hno]. left. exists (l, None).
      split; [reflexivity |]. apply in_merge_left. auto.
    + intros [Hr Hno]. right. exists r. split; [reflexivity |].
      apply filter_In. split; [exact Hr |].
      apply negb_true_iff. unfold has_left.
      destruct (existsb (fun l => key_eqb (lkey l) (rkey r)) ls) eqn:E;
        [| reflexivity].
      apply existsb_exists in E. destruct E as [l [Hl Hk]].
      rewrite (Hno l Hl) in Hk. discriminate.
Qed.

Lemma right_only_count (ls : list L) (rs : list R) :
  List.length (filter (fun r => negb (has_left key_eqb lkey rkey ls r)) rs)
  = List.length
      (filter (fun y => negb (existsb (fun x => key_eqb x y) (map lkey ls)))
         (map rkey rs)).
Proof.
  induction rs as [| r rs IH]; simpl.
  - reflexivity.
  - unfold has_left at 1.
    assert (He : existsb (fun x => key_eqb x (rkey r)) (map lkey ls)
                 = existsb (fun l => key_eqb (lkey l) (rkey r)) ls).
    { clear. induction ls as [| l ls IH]; simpl; [reflexivity |]. now rewrite IH. }
    rewrite He.
    destruct (existsb (fun l => key_eqb (lkey l) (rkey r)) ls); simpl;
      now rewrite IH.
Qed.

(** With keys unique in each table an outer merge has one row per
    distinct key of the two tables. *)
Lemma merge_outer_length_unique (ls : list L) (rs : list R) :
  NoDup (map lkey ls) -> NoDup (map rkey rs) ->
  List.length (merge_outer key_eqb lkey rkey key_leb ls rs)
  = List.length (distinct key_eqb (map lkey ls ++ map rkey rs)).
Proof.
  intros Hl Hr. unfold merge_outer.
  rewrite sort_length, length_app, !length_map.
  rewrite merge_left_length_unique by exact Hr.
  rewrite distinct_app, length_app.
  rewrite (distinct_NoDup key_eqb key_eqb_eq _ Hl).
  rewrite (distinct_NoDup key_eqb key_eqb_eq _ Hr).
  rewrite length_map. f_equal. apply right_only_count.
Qed.
End MergeFacts.

(** *** merge_datasets *)

Lemma key2_eqb_eq (a b : key2) : key2_eqb a b = true <-> a = b.
Proof.
  destruct a as [a1 a2], b as [b1 b2]. unfold key2_eqb. simpl.
  rewrite andb_true_iff, !String.eqb_eq.
  split; [intros [-> ->]; reflexivity | intros H; injection H; auto].
Qed.

Lemma key2_eqb_false (a b : key2) : key2_eqb a b = false <-> a <> b.
Proof.
  rewrite <- key2_eqb_eq. destruct (key2_eqb a b); split; congruence.
Qed.

Lemma in_merge_datasets
  (dwellings_df : list Dwellings.row) (sales_df : list Sales.row) (m : Merged.row) :
  In m (merge_datasets dwellings_df sales_df) <->
  exists j,
    In j (merge_outer key2_eqb dwellings_key sales_key key2_leb dwellings_df sales_df)
    /\ m = fill_sales (outer_row j).
Proof.
  unfold merge_datasets, outer_merge. rewrite map_map, in_map_iff.
  split; intros [j [H1 H2]]; exists j; auto.
Qed.

(** C4, amended.  In the outer merge of [merge_datasets], every merged
    row whose key has no row in the sales table has the integer 0 in
    each of D, F, S, T and Total; and every dwelling row without a sales
    row is kept, with its own dwelling counts and those five zeros. *)
Theorem merge_datasets_zero_fills_sales
  (dwellings_df : list Dwellings.row) (sales_df : list Sales.row) :
  (forall m, In m (merge_datasets dwellings_df sales_df) ->
     ~ In (merged_key m) (map sales_key sales_df) -> sales_zero m)
  /\ (forall d, In d dwellings_df ->
        ~ In (dwellings_key d) (map sales_key sales_df) ->
        exists m, In m (merge_datasets dwellings_df sales_df)
          /\ merged_key m = dwellings_key d
          /\ Merged.Unshared_Dwellings m = Some (Dwellings.Unshared_Dwellings d)
          /\ Merged.Shared_Dwellings m = Some (Dwellings.Shared_Dwellings d)
          /\ Merged.Total_Dwellings m = Some (Dwellings.Total_Dwellings d)
          /\ sales_zero m).
Proof.
  split.
  - intros m Hm Hno. apply in_merge_datasets in Hm. destruct Hm as [j [Hj ->]].
    apply in_merge_outer in Hj.
    destruct j as [d s | d | s]; simpl in *.
    + destruct Hj as [_ [Hs Hk]]. apply key2_eqb_eq in Hk.
      exfalso. apply Hno. unfold merged_key. simpl.
      change (In (dwellings_key d) (map sales_key sales_df)).
      rewrite Hk. now apply in_map.
    + unfold sales_zero. simpl. auto.
    + destruct Hj as [Hs _]. exfalso. apply Hno. unfold merged_key. simpl.
      change (In (sales_key s) (map sales_key sales_df)). now apply in_map.
  - intros d Hd Hno. exists (fill_sales (outer_row (left_only d))).
    split.
    + apply in_merge_datasets. exists (left_only d). split; [| reflexivity].
      apply in_merge_outer. split; [exact Hd |].
      intros s Hs. apply key2_eqb_false. intros Hk. apply Hno.
      rewrite Hk. now apply in_map.
    + unfold sales_zero, merged_key. simpl. repeat split; reflexivity.
Qed.

Lemma merge_datasets_zero_fills_sales_witness :
  sales_zero (fill_sales (outer_row (left_only wales_dwellings))).
Proof.
  apply (proj1 (merge_datasets_zero_fills_sales
                  [london_dwellings; wales_dwellings] [london_sales])).
  - vm_compute. right. left. reflexivity.
  - vm_compute. intros [H | []]. discriminate H.
Defined.

(** The scenario of the fill policy: a region without sales. *)
Example merge_datasets_region_without_sales :
  merge_datasets [london_dwellings; wales_dwellings] [london_sales]
  = [ {| Merged.Region_Code := "E12000007"; Merged.Region_Name := "London";
         Merged.Unshared_Dwellings := Some 95; Merged.Shared_Dwellings := Some 5;
         Merged.Total_Dwellings := Some 100;
         Merged.D := 1; Merged.F := 6; Merged.S := 2; Merged.T := 3;
         Merged.Total := 12 |};
      {| Merged.Region_Code := "W92000004"; Merged.Region_Name := "Wales";
         Merged.Unshared_Dwellings := Some 29; Merged.Shared_Dwellings := Some 1;
         Merged.Total_Dwellings := Some 30;
         Merged.D := 0; Merged.F := 0; Merged.S := 0; Merged.T := 0;
         Merged.Total := 0 |} ].
Proof. reflexivity. Qed.

(** C4 as stated fails on a region that only the sales table has: its
    dwelling columns are null, not zero. *)
Lemma one_sided_keys_zero_filled_fails :
  ~ one_sided_keys_zero_filled [] [london_sales].
Proof.
  intros H.
  destruct (H (fill_sales (outer_row (right_only london_sales)))) as [_ Hz].
  - simpl. now left.
  - destruct Hz as [Hz _]; [intros [] | discriminate Hz].
Qed.

(** C10.  In [merge_datasets] the fill leaves the three dwelling columns
    as the outer merge produced them; every merged row whose key has no
    row in the dwelling table has those three columns null; and every
    sales row without a dwelling row is kept, with its own sales counts
    and null dwelling columns. *)
Theorem merge_datasets_keeps_dwellings_null
  (dwellings_df : list Dwellings.row) (sales_df : list Sales.row) :
  (forall o,
     Merged.Unshared_Dwellings (fill_sales o) = Outer.Unshared_Dwellings o
     /\ Merged.Shared_Dwellings (fill_sales o) = Outer.Shared_Dwellings o
     /\ Merged.Total_Dwellings (fill_sales o) = Outer.Total_Dwellings o)
  /\ (forall m, In m (merge_datasets dwellings_df sales_df) ->
        ~ In (merged_key m) (map dwellings_key dwellings_df) -> dwellings_null m)
  /\ (forall s, In s sales_df ->
        ~ In (sales_key s) (map dwellings_key dwellings_df) ->
        exists m, In m (merge_datasets dwellings_df sales_df)
          /\ merged_key m = sales_key s
          /\ dwellings_null m
          /\ Merged.D m = Sales.D s /\ Merged.F m = Sales.F s
          /\ Merged.S m = Sales.S s /\ Merged.T m = Sales.T s
          /\ Merged.Total m = Sales.Total s).
Proof.
  split; [intros o; simpl; auto |]. split.
  - intros m Hm Hno. apply in_merge_datasets in Hm. destruct Hm as [j [Hj ->]].
    apply in_merge_outer in Hj.
    destruct j as [d s | d | s]; simpl in *.
    + destruct Hj as [Hd _]. exfalso. apply Hno. unfold merged_key. simpl.
      change (In (dwellings_key d) (map dwellings_key dwellings_df)).
      now apply in_map.
    + destruct Hj as [Hd _]. exfalso. apply Hno. unfold merged_key. simpl.
      change (In (dwellings_key d) (map dwellings_key dwellings_df)).
      now apply in_map.
    + unfold dwellings_null. simpl. auto.
  - intros s Hs Hno. exists (fill_sales (outer_row (right_only s))).
    split.
    + apply in_merge_datasets. exists (right_only s). split; [| reflexivity].
      apply in_merge_outer. split; [exact Hs |].
      intros d Hd. apply key2_eqb_false. intros Hk. apply Hno.
      rewrite <- Hk. now apply in_map.
    + unfold dwellings_null, merged_key. simpl. repeat split; reflexivity.
Qed.

Lemma merge_datasets_keeps_dwellings_null_witness :
  dwellings_null (fill_sales (outer_row (right_only london_sales))).
Proof.
  apply (proj1 (proj2 (merge_datasets_keeps_dwellings_null
                         [wales_dwellings] [london_sales]))).
  - vm_compute. left. reflexivity.
  - vm_compute. intros [H | []]. discriminate H.
Defined.

(** A region that only the sales table has. *)
Example merge_datasets_region_without_dwellings :
  merge_datasets [wales_dwellings] [london_sales]
  = [ {| Merged.Region_Code := "E12000007"; Merged.Region_Name := "London";
         Merged.Unshared_Dwellings := None; Merged.Shared_Dwellings := None;
         Merged.Total_Dwellings := None;
         Merged.D := 1; Merged.F := 6; Merged.S := 2; Merged.T := 3;
         Merged.Total := 12 |};
      {| Merged.Region_Code := "W92000004"; Merged.Region_Name := "Wales";
         Merged.Unshared_Dwellings := Some 29; Merged.Shared_Dwellings := Some 1;
         Merged.Total_Dwellings := Some 30;
         Merged.D := 0; Merged.F := 0; Merged.S := 0; Merged.T := 0;
         Merged.Total := 0 |} ].
Proof. reflexivity. Qed.

(** *** str.strip and str.upper *)

Lemma lstrip_leading (c : ascii) (s : string) :
  isspace c = true -> lstrip (String c s) = lstrip s.
Proof. intros H. simpl. now rewrite H. Qed.

Lemma rstrip_trailing (c : ascii) (s : string) :
  isspace c = true -> rstrip (s ++ String c EmptyString) = rstrip s.
Proof.
  intros H. induction s as [| a s IH]; simpl.
  - now rewrite H.
  - now rewrite IH.
Qed.

(** A whitespace character in front of a key does not change the
    cleaned key. *)
Lemma normalized_leading (c : ascii) (s : string) :
  isspace c = true -> normalized (String c s) = normalized s.
Proof. intros H. unfold normalized, strip. now rewrite lstrip_leading. Qed.

(** Nor does a whitespace character behind it. *)
Lemma normalized_trailing (c : ascii) (s : string) :
  isspace c = true -> normalized (s ++ String c EmptyString) = normalized s.
Proof.
  intros H. unfold normalized, strip. f_equal.
  induction s as [| a s IH].
  - simpl. now rewrite H.
  - simpl. destruct (isspace a) eqn:E.
    + exact IH.
    + apply (rstrip_trailing c (String a s) H).
Qed.

Lemma upper_char_idempotent (c : ascii) : upper_char (upper_char c) = upper_char c.
Proof.
  destruct c as [[] [] [] [] [] [] [] []]; reflexivity.
Qed.

(** Two characters that differ only in case have the same upper case. *)
Lemma upper_char_case (c : ascii) :
  upper_char (upper_char c) = upper_char c
  /\ (upper_char c <> c -> nat_of_ascii c = (nat_of_ascii (upper_char c) + 32)%nat).
Proof.
  split; [apply upper_char_idempotent |].
  destruct c as [[] [] [] [] [] [] [] []]; vm_compute; congruence.
Qed.

Lemma upper_idempotent (s : string) : upper (upper s) = upper s.
Proof.
  induction s as [| c s IH]; simpl.
  - reflexivity.
  - now rewrite upper_char_idempotent, IH.
Qed.

Example normalized_leeds :
  normalized " leeds " = "LEEDS"%string /\ normalized "Leeds" = "LEEDS"%string.
Proof. split; reflexivity. Qed.

(** *** Which joins clean their keys *)

(** C5 as stated fails on the outer merge of task_5: London and LONDON
    are not joined. *)
Lemma outer_merge_normalizes_keys_fails :
  ~ outer_merge_normalizes_keys [london_dwellings] [london_sales_capitals].
Proof.
  intros H.
  specialize (H london_dwellings london_sales_capitals
                (or_introl eq_refl) (or_introl eq_refl) eq_refl eq_refl).
  apply in_merge_outer in H. destruct H as [_ [_ Hk]].
  vm_compute in Hk. discriminate Hk.
Qed.

Example merge_datasets_differing_case :
  map (fun m => (Merged.Region_Name m, Merged.Total_Dwellings m, Merged.Total m))
      (merge_datasets [london_dwellings] [london_sales_capitals])
  = [("LONDON"%string, None, 12); ("London"%string, Some 100, 0)].
Proof. reflexivity. Qed.

(** C5, amended.  Of the three joins only the left merge of
    [match_with_lookup] cleans its keys: there a district row is joined
    with a lookup row exactly when District and LAD_Name are equal once
    trimmed and uppercased.  The left merge of task_3 joins on
    LAD_Code = LAD23CD as written, and the outer merge of task_5 on
    Region_Code and Region_Name as written. *)
Theorem joins_and_key_normalization :
  (forall pivot_df lookup_df p l,
      In (p, Some l) (Task4.merged pivot_df lookup_df) <->
      In p pivot_df /\ In l lookup_df
      /\ upper (strip (Task4.District p)) = upper (strip (Task4.Lookup.LAD_Name l)))
  /\ (forall census_wide lookup_df w l,
        In (w, Some l) (Task3.merge_lookup census_wide lookup_df) <->
        In w census_wide /\ In l lookup_df
        /\ Task3.Wide.LAD_Code w = Task3.LAD23CD l)
  /\ (forall dwellings_df sales_df d s,
        In (both d s)
           (merge_outer key2_eqb dwellings_key sales_key key2_leb dwellings_df sales_df) <->
        In d dwellings_df /\ In s sales_df
        /\ Dwellings.Region_Code d = Sales.Region_Code s
        /\ Dwellings.Region_Name d = Sales.Region_Name s).
Proof.
  split; [| split].
  - intros pivot_df lookup_df p l. unfold Task4.merged.
    rewrite in_merge_left, String.eqb_eq. tauto.
  - intros census_wide lookup_df w l. unfold Task3.merge_lookup.
    rewrite in_merge_left, String.eqb_eq. tauto.
  - intros dwellings_df sales_df d s.
    rewrite in_merge_outer, key2_eqb_eq. unfold dwellings_key, sales_key.
    split.
    + intros [Hd [Hs Hk]]. injection Hk as H1 H2. auto.
    + intros [Hd [Hs [H1 H2]]]. rewrite H1, H2. auto.
Qed.

Lemma joins_and_key_normalization_witness :
  In (leeds_pivot, Some leeds_lookup_spaced)
     (Task4.merged [atlantis_pivot; leeds_pivot] [leeds_lookup_spaced]).
Proof.
  apply (proj2 (proj1 joins_and_key_normalization
                  [atlantis_pivot; leeds_pivot] [leeds_lookup_spaced]
                  leeds_pivot leeds_lookup_spaced)).
  split; [right; left; reflexivity |].
  split; [left; reflexivity | reflexivity].
Defined.

(** *** match_with_lookup *)

Lemma unmatched_region_name (pivot_df : list Task4.pivot_row)
  (lookup_df : list Task4.Lookup.row) (p : Task4.pivot_row)
  (o : option Task4.Lookup.row) :
  (forall l, In l lookup_df -> Task4.District_Clean p <> Task4.LAD_Name_Clean l) ->
  In (p, o) (Task4.merged pivot_df lookup_df) -> o = None.
Proof.
  intros Hno Hin. unfold Task4.merged in Hin. apply in_merge_left in Hin.
  destruct o as [l |]; [| reflexivity].
  destruct Hin as [_ [Hl Hk]]. apply String.eqb_eq in Hk.
  exfalso. exact (Hno l Hl Hk).
Qed.

(** C6.  [match_with_lookup] always returns a table and its console
    output.  For a district row whose cleaned key no lookup row has: the
    warning is printed and lists the district with its counts D, F, S,
    T and Total; no row of the returned table carries that district; and
    every row of the returned table is a district row joined with a
    lookup row of the same cleaned key. *)
Theorem match_with_lookup_reports_unmatched
  (pivot_df : list Task4.pivot_row) (lookup_df : list Task4.Lookup.row)
  (p : Task4.pivot_row) :
  In p pivot_df ->
  (forall l, In l lookup_df -> Task4.District_Clean p <> Task4.LAD_Name_Clean l) ->
  exists result console,
    Task4.match_with_lookup pivot_df lookup_df = (result, console)
    /\ (exists rows,
          In (Task4.Warning_Unmatched_Districts rows) console
          /\ In (Task4.District p, Task4.D p, Task4.F p, Task4.S p, Task4.T p,
                 Task4.Total p) rows)
    /\ (forall r, In r result -> Task4.Result.District r <> Task4.District p)
    /\ (forall r, In r result ->
          exists p' l', In p' pivot_df /\ In l' lookup_df
            /\ Task4.District_Clean p' = Task4.LAD_Name_Clean l'
            /\ r = Task4.select_result (p', Some l')).
Proof.
  intros Hp Hno. unfold Task4.match_with_lookup.
  eexists. eexists. split; [reflexivity |].
  assert (Hpn : In (p, None) (Task4.merged pivot_df lookup_df)).
  { unfold Task4.merged. apply in_merge_left. split; [exact Hp |].
    intros l Hl. apply String.eqb_neq. now apply Hno. }
  assert (Hun : In (p, None)
                   (filter (fun m => Task4.isna_str (Task4.merged_Region_Name m))
                      (Task4.merged pivot_df lookup_df)))
    by (apply filter_In; split; [exact Hpn | reflexivity]).
  assert (Hmatched : forall r,
             In r (map Task4.select_result
                     (filter (fun m => negb (Task4.isna_str (Task4.merged_Region_Name m)))
                        (Task4.merged pivot_df lookup_df))) ->
             exists p' l', In p' pivot_df /\ In l' lookup_df
               /\ Task4.District_Clean p' = Task4.LAD_Name_Clean l'
               /\ r = Task4.select_result (p', Some l')).
  { intros r Hr. apply in_map_iff in Hr. destruct Hr as [[p' o] [<- Hin]].
    apply filter_In in Hin. destruct Hin as [Hin Hreg].
    destruct o as [l' |]; [| discriminate Hreg].
    unfold Task4.merged in Hin. apply in_merge_left in Hin.
    destruct Hin as [Hp' [Hl' Hk]]. apply String.eqb_eq in Hk.
    exists p', l'. auto. }
  split; [| split].
  - exists (map Task4.diagnostic
              (filter (fun m => Task4.isna_str (Task4.merged_Region_Name m))
                 (Task4.merged pivot_df lookup_df))).
    split.
    + apply in_or_app. left.
      destruct (filter (fun m => Task4.isna_str (Task4.merged_Region_Name m))
                  (Task4.merged pivot_df lookup_df)) as [| u us] eqn:E;
        [destruct Hun |].
      simpl. left. reflexivity.
    + change (Task4.District p, Task4.D p, Task4.F p, Task4.S p, Task4.T p,
              Task4.Total p)
        with (Task4.diagnostic (p, None)).
      now apply in_map.
  - intros r Hr Hd. destruct (Hmatched r Hr) as [p' [l' [_ [Hl' [Hk ->]]]]].
    simpl in Hd. apply (Hno l' Hl').
    unfold Task4.District_Clean. rewrite <- Hd. exact Hk.
  - exact Hmatched.
Qed.

Lemma match_with_lookup_reports_unmatched_witness :
  exists result console,
    Task4.match_with_lookup [atlantis_pivot; leeds_pivot] [leeds_lookup] = (result, console)
    /\ (exists rows,
          In (Task4.Warning_Unmatched_Districts rows) console
          /\ In (Task4.District atlantis_pivot, Task4.D atlantis_pivot,
                 Task4.F atlantis_pivot, Task4.S atlantis_pivot,
                 Task4.T atlantis_pivot, Task4.Total atlantis_pivot) rows)
    /\ (forall r, In r result -> Task4.Result.District r <> Task4.District atlantis_pivot)
    /\ (forall r, In r result ->
          exists p' l', In p' [atlantis_pivot; leeds_pivot] /\ In l' [leeds_lookup]
            /\ Task4.District_Clean p' = Task4.LAD_Name_Clean l'
            /\ r = Task4.select_result (p', Some l')).
Proof.
  apply (match_with_lookup_reports_unmatched
           [atlantis_pivot; leeds_pivot] [leeds_lookup] atlantis_pivot).
  - left. reflexivity.
  - intros l [<- | []]. vm_compute. discriminate.
Defined.

Example match_with_lookup_atlantis :
  Task4.match_with_lookup [atlantis_pivot; leeds_pivot] [leeds_lookup]
  = ([ {| Task4.Result.District := "LEEDS";
          Task4.Result.LAD_Name := Some "Leeds"%string;
          Task4.Result.Region_Code := Some "E12000003"%string;
          Task4.Result.Region_Name := Some "Yorkshire and The Humber"%string;
          Task4.Result.D := 4; Task4.Result.F := 3; Task4.Result.S := 2;
          Task4.Result.T := 1; Task4.Result.Total := 10 |} ],
     [ Task4.Warning_Unmatched_Districts [("ATLANTIS"%string, 1, 0, 0, 2, 3)];
       Task4.Matched_Results 1 1 ]).
Proof. reflexivity. Qed.

(** *** Row counts of the joins *)

(** C7 as stated fails on the left merge of task_4 when two lookup rows
    have the same cleaned name: one district row gives two merged
    rows. *)
Lemma left_merge_keeps_row_count_fails :
  ~ left_merge_keeps_row_count [leeds_pivot] [leeds_lookup; leeds_lookup_spaced].
Proof. unfold left_merge_keeps_row_count. vm_compute. discriminate. Qed.

(** C7, amended.  When no key occurs twice in the right table, the left
    merges of task_3 and task_4 return as many rows as the left table
    has; when moreover no key occurs twice in the left table, the outer
    merge of task_5 returns as many rows as there are distinct keys in
    the two tables. *)
Theorem join_row_counts :
  (forall census_wide lookup_df,
      NoDup (map Task3.LAD23CD lookup_df) ->
      List.length (Task3.merge_lookup census_wide lookup_df) = List.length census_wide)
  /\ (forall pivot_df lookup_df,
        NoDup (map Task4.LAD_Name_Clean lookup_df) ->
        List.length (Task4.merged pivot_df lookup_df) = List.length pivot_df)
  /\ (forall dwellings_df sales_df,
        NoDup (map dwellings_key dwellings_df) ->
        NoDup (map sales_key sales_df) ->
        List.length (merge_datasets dwellings_df sales_df)
        = List.length
            (distinct key2_eqb (map dwellings_key dwellings_df ++ map sales_key sales_df))).
Proof.
  split; [| split].
  - intros census_wide lookup_df Hnd. unfold Task3.merge_lookup.
    apply merge_left_length_unique; [apply String.eqb_eq | exact Hnd].
  - intros pivot_df lookup_df Hnd. unfold Task4.merged.
    apply merge_left_length_unique; [apply String.eqb_eq | exact Hnd].
  - intros dwellings_df sales_df Hd Hs.
    unfold merge_datasets, outer_merge. rewrite !length_map.
    apply merge_outer_length_unique; [apply key2_eqb_eq | exact Hd | exact Hs].
Qed.

Lemma join_row_counts_witness :
  List.length (Task4.merged [atlantis_pivot; leeds_pivot] [leeds_lookup]) = 2%nat
  /\ List.length (merge_datasets [london_dwellings; wales_dwellings] [london_sales])
     = List.length
         (distinct key2_eqb
            (map dwellings_key [london_dwellings; wales_dwellings]
               ++ map sales_key [london_sales])).
Proof.
  split.
  - apply (proj1 (proj2 join_row_counts) [atlantis_pivot; leeds_pivot] [leeds_lookup]).
    simpl. constructor; [intros [] | constructor].
  - apply (proj2 (proj2 join_row_counts) [london_dwellings; wales_dwellings] [london_sales]).
    + simpl. constructor; [| constructor; [intros [] | constructor]].
      intros [H | []]. discriminate H.
    + simpl. constructor; [intros [] | constructor].
Defined.

(** *** The pivot of task_3 *)

Section DuplicateFacts.
Context {A : Type} (eqb : A -> A -> bool).
Hypothesis eqb_eq : forall a b, eqb a b = true <-> a = b.

Lemma has_duplicates_true (xs ys zs : list A) (a : A) :
  has_duplicates eqb (xs ++ a :: ys ++ a :: zs) = true.
Proof.
  induction xs as [| x xs IH]; simpl.
  - apply orb_true_iff. left. apply existsb_exists.
    exists a. split; [| now apply eqb_eq].
    apply in_or_app. right. now left.
  - rewrite IH. apply orb_true_r.
Qed.

Lemma has_duplicates_false (l : list A) : NoDup l -> has_duplicates eqb l = false.
Proof.
  induction 1 as [| x l Hx _ IH]; simpl.
  - reflexivity.
  - rewrite IH, orb_false_r.
    destruct (existsb (eqb x) l) eqn:E; [| reflexivity].
    apply existsb_exists in E. destruct E as [y [Hy He]].
    apply eqb_eq in He. now subst y.
Qed.
End DuplicateFacts.

Lemma entry_eqb_eq (a b : key2 * string) : entry_eqb a b = true <-> a = b.
Proof.
  destruct a as [k c], b as [k' c']. unfold entry_eqb. simpl.
  rewrite andb_true_iff, key2_eqb_eq, String.eqb_eq.
  split; [intros [-> ->]; reflexivity | intros H; injection H; auto].
Qed.

(** Without a repeated (index, category) pair the pivot returns a
    table. *)
Lemma census_pivot_returns (census_df : list Task3.census_row) :
  NoDup (map census_entry census_df) ->
  exists w, Task3.census_pivot census_df = inr w.
Proof.
  intros Hnd. unfold Task3.census_pivot, pivot.
  change (map (fun a => (Task3.census_index a, Task3.Number_of_household_spaces a))
            census_df)
    with (map census_entry census_df).
  rewrite (has_duplicates_false entry_eqb entry_eqb_eq _ Hnd). eauto.
Qed.

(** And the cell of a row holds the observation of that row. *)
Lemma census_cell_of_row (census_df : list Task3.census_row) (a : Task3.census_row) :
  NoDup (map census_entry census_df) -> In a census_df ->
  cell Task3.census_index Task3.Number_of_household_spaces Task3.Observation
       census_df (Task3.census_index a) (Task3.Number_of_household_spaces a)
  = Some (Task3.Observation a).
Proof.
  unfold cell. induction census_df as [| r rows IH]; intros Hnd Ha.
  - destruct Ha.
  - inversion Hnd as [| e es He Hnd' Heq]; subst. simpl.
    destruct (key2_eqb (Task3.census_index r) (Task3.census_index a)
              && String.eqb (Task3.Number_of_household_spaces r)
                   (Task3.Number_of_household_spaces a)) eqn:E.
    + destruct Ha as [-> | Ha]; [reflexivity |].
      exfalso. apply He.
      apply andb_true_iff in E. destruct E as [E1 E2].
      apply key2_eqb_eq in E1. apply String.eqb_eq in E2.
      unfold census_entry at 1. rewrite E1, E2.
      now apply (in_map census_entry).
    + destruct Ha as [-> | Ha]; [| now apply IH].
      exfalso. unfold key2_eqb in E.
      now rewrite !String.eqb_refl in E.
Qed.

(** C8.  When two rows of the census table have the same district key
    and the same category, the pivot raises ValueError, and [main] ends
    with that error: no wide table, hence no wide cell, is produced. *)
Theorem pivot_rejects_duplicate_entries
  (lookup_df : list Task3.lookup_row) (xs ys zs : list Task3.census_row)
  (a b : Task3.census_row) :
  Task3.census_index a = Task3.census_index b ->
  Task3.Number_of_household_spaces a = Task3.Number_of_household_spaces b ->
  Task3.census_pivot (xs ++ a :: ys ++ b :: zs) = inl ValueError_duplicate_entries
  /\ Task3.main lookup_df (xs ++ a :: ys ++ b :: zs) = inl ValueError_duplicate_entries.
Proof.
  intros Hk Hc.
  assert (Hp : Task3.census_pivot (xs ++ a :: ys ++ b :: zs)
               = inl ValueError_duplicate_entries).
  { unfold Task3.census_pivot, pivot.
    rewrite map_app. simpl. rewrite map_app. simpl.
    rewrite <- Hk, <- Hc.
    now rewrite (has_duplicates_true entry_eqb entry_eqb_eq). }
  split; [exact Hp |]. unfold Task3.main. now rewrite Hp.
Qed.

Lemma pivot_rejects_duplicate_entries_witness :
  Task3.census_pivot
    (census_sample ++ census "W06000015" "Cardiff" "Unshared dwelling" 50
       :: [] ++ census "W06000015" "Cardiff" "Unshared dwelling" 7 :: [])
  = inl ValueError_duplicate_entries
  /\ Task3.main lookup_sample
       (census_sample ++ census "W06000015" "Cardiff" "Unshared dwelling" 50
          :: [] ++ census "W06000015" "Cardiff" "Unshared dwelling" 7 :: [])
     = inl ValueError_duplicate_entries.
Proof.
  apply (pivot_rejects_duplicate_entries lookup_sample census_sample [] []
           (census "W06000015" "Cardiff" "Unshared dwelling" 50)
           (census "W06000015" "Cardiff" "Unshared dwelling" 7));
    reflexivity.
Defined.

(** Without duplicates [main] returns one row per district, in key
    order; the three category columns are named by their position in
    sorted category order; the district that the lookup lacks keeps null
    region columns. *)
Example main_on_census_sample :
  Task3.main lookup_sample census_sample
  = inr [ {| Task3.LAD_Code := "E06000001"; Task3.LAD_Name := "Hartlepool";
             Task3.Region_Code := Some "E12000001"%string;
             Task3.Region_Name := Some "North East"%string;
             Task3.Unshared_Dwellings := Some 40; Task3.Shared_Dwellings := Some 3;
             Task3.Shared_Two_Spaces := Some 1;
             Task3.Shared_Three_Plus_Spaces := Some 2;
             Task3.Total_Dwellings := Some 43 |};
          {| Task3.LAD_Code := "W06000015"; Task3.LAD_Name := "Cardiff";
             Task3.Region_Code := None; Task3.Region_Name := None;
             Task3.Unshared_Dwellings := Some 50; Task3.Shared_Dwellings := Some 7;
             Task3.Shared_Two_Spaces := Some 4;
             Task3.Shared_Three_Plus_Spaces := Some 3;
             Task3.Total_Dwellings := Some 57 |} ].
Proof. reflexivity. Qed.

(** ** Further properties of the three scripts *)

(** *** Sums, distinct values and groups *)

Section SumFacts.
Context {A : Type}.

Lemma sum_by_app (f : A -> Z) (a b : list A) :
  sum_by f (a ++ b) = sum_by f a + sum_by f b.
Proof. induction a as [| x a IH]; simpl; [reflexivity | rewrite IH; lia]. Qed.

Lemma sum_by_add (f g : A -> Z) (l : list A) :
  sum_by (fun a => f a + g a) l = sum_by f l + sum_by g l.
Proof. induction l as [| x l IH]; simpl; [reflexivity | rewrite IH; lia]. Qed.

Lemma sum_by_ext (f g : A -> Z) (l : list A) :
  (forall a, In a l -> f a = g a) -> sum_by f l = sum_by g l.
Proof.
  induction l as [| x l IH]; intros H; simpl; [reflexivity |].
  rewrite (H x (or_introl eq_refl)), IH; [reflexivity |].
  intros a Ha. apply H. now right.
Qed.

Lemma sum_by_zero (l : list A) : sum_by (fun _ => 0) l = 0.
Proof. induction l as [| x l IH]; simpl; [reflexivity | exact IH]. Qed.

Lemma sum_by_nonneg (f : A -> Z) (l : list A) :
  (forall a, In a l -> 0 <= f a) -> 0 <= sum_by f l.
Proof.
  induction l as [| x l IH]; intros H; simpl; [lia |].
  pose proof (H x (or_introl eq_refl)).
  assert (0 <= sum_by f l) by (apply IH; intros a Ha; apply H; now right).
  lia.
Qed.

Lemma sum_by_map {B : Type} (g : B -> A) (f : A -> Z) (l : list B) :
  sum_by f (map g l) = sum_by (fun b => f (g b)) l.
Proof. induction l as [| x l IH]; simpl; [reflexivity | now rewrite IH]. Qed.

(** A sum splits along any filter. *)
Lemma sum_by_partition (f : A -> Z) (p : A -> bool) (l : list A) :
  sum_by f l = sum_by f (filter p l) + sum_by f (filter (fun a => negb (p a)) l).
Proof.
  induction l as [| x l IH]; simpl; [reflexivity |].
  destruct (p x); simpl; rewrite IH; lia.
Qed.

Lemma sum_by_indicator (p : A -> bool) (l : list A) :
  sum_by (fun a => if p a then 1 else 0) l = row_count (filter p l).
Proof.
  unfold row_count. induction l as [| x l IH]; simpl; [reflexivity |].
  rewrite IH. destruct (p x); simpl List.length; lia.
Qed.

Lemma int_sum_sum_by (f : A -> Z) (l : list A) :
  int_sum (map f l) = sum_by f l.
Proof.
  unfold int_sum. induction l as [| x l IH]; simpl; [reflexivity | now rewrite IH].
Qed.

Lemma series_sum_sum_by (col : A -> option Z) (l : list A) :
  series_sum (map col l) = sum_by (fun a => null_as_zero (col a)) l.
Proof.
  induction l as [| x l IH]; simpl; [reflexivity |].
  destruct (col x); simpl; rewrite IH; lia.
Qed.
End SumFacts.

Section DistinctMembers.
Context {A : Type} (eqb : A -> A -> bool).
Hypothesis eqb_eq : forall a b, eqb a b = true <-> a = b.

Lemma in_distinct (l : list A) (x : A) : In x (distinct eqb l) <-> In x l.
Proof.
  induction l as [| y l IH]; simpl; [tauto |].
  rewrite filter_In, IH. split.
  - intros [H | [H _]]; auto.
  - intros [H | H]; [now left |].
    destruct (eqb y x) eqn:E.
    + left. now apply eqb_eq.
    + right. split; [exact H | reflexivity].
Qed.

Lemma NoDup_distinct (l : list A) : NoDup (distinct eqb l).
Proof.
  induction l as [| y l IH]; simpl; constructor.
  - intros H. apply filter_In in H. destruct H as [_ H].
    assert (E : eqb y y = true) by now apply eqb_eq.
    rewrite E in H. discriminate.
  - now apply NoDup_filter.
Qed.

(** Over a list without repetition, the terms selected by equality
    with one value add up to at most one term. *)
Lemma sum_by_selected (x : A) (v : Z) (ks : list A) :
  NoDup ks ->
  sum_by (fun k => if eqb x k then v else 0) ks
  = if existsb (eqb x) ks then v else 0.
Proof.
  induction 1 as [| k ks Hk _ IH]; simpl; [reflexivity |].
  rewrite IH. destruct (eqb x k) eqn:E; simpl; [| lia].
  apply eqb_eq in E. subst k.
  destruct (existsb (eqb x) ks) eqn:Ex; [| lia].
  apply existsb_exists in Ex. destruct Ex as [y [Hy He]].
  apply eqb_eq in He. now subst y.
Qed.
End DistinctMembers.

Section GroupFacts.
Context {A K : Type}.
Variable key_eqb : K -> K -> bool.
Variable key_leb : K -> K -> bool.
Variable key_of : A -> option K.
Hypothesis key_eqb_eq : forall a b, key_eqb a b = true <-> a = b.

Lemma in_notnull_keys (df : list A) (k : K) :
  In k (notnull_keys key_of df) <-> exists a, In a df /\ key_of a = Some k.
Proof.
  induction df as [| a df IH]; simpl.
  - split; [intros [] | intros [a [[] _]]].
  - destruct (key_of a) as [k' |] eqn:E; simpl; rewrite IH; split.
    + intros [<- | [b [Hb Hk]]]; [exists a; auto | exists b; auto].
    + intros [b [[<- | Hb] Hk]]; [left; congruence | right; exists b; auto].
    + intros [b [Hb Hk]]. exists b; auto.
    + intros [b [[<- | Hb] Hk]]; [congruence | exists b; auto].
Qed.

(** The group keys are the keys that some row has. *)
Lemma in_group_keys (df : list A) (k : K) :
  In k (group_keys key_eqb key_leb key_of df)
  <-> exists a, In a df /\ key_of a = Some k.
Proof.
  unfold group_keys.
  rewrite sort_In, (in_distinct key_eqb key_eqb_eq). apply in_notnull_keys.
Qed.

(** No group key occurs twice. *)
Lemma NoDup_group_keys (df : list A) :
  NoDup (group_keys key_eqb key_leb key_of df).
Proof.
  unfold group_keys.
  eapply Permutation_NoDup; [apply sort_perm |].
  apply (NoDup_distinct key_eqb key_eqb_eq).
Qed.

Lemma groupby_keys (df : list A) :
  map fst (groupby key_eqb key_leb key_of df) = group_keys key_eqb key_leb key_of df.
Proof. unfold groupby. rewrite map_map. simpl. apply map_id. Qed.

Lemma in_groupby (df : list A) (k : K) (rows : list A) :
  In (k, rows) (groupby key_eqb key_leb key_of df) <->
  In k (group_keys key_eqb key_leb key_of df)
  /\ rows = filter (in_group key_eqb key_of k) df.
Proof.
  unfold groupby. rewrite in_map_iff. split.
  - intros [k' [Heq Hk]]. injection Heq as <- <-. auto.
  - intros [Hk ->]. exists k. auto.
Qed.

(** A group is made of the rows that have its key, and has one at
    least. *)
Lemma group_rows (df : list A) (k : K) (rows : list A) :
  In (k, rows) (groupby key_eqb key_leb key_of df) ->
  rows <> [] /\ forall a, In a rows <-> In a df /\ key_of a = Some k.
Proof.
  intros H. apply in_groupby in H. destruct H as [Hk ->].
  assert (Hmem : forall a, In a (filter (in_group key_eqb key_of k) df)
                           <-> In a df /\ key_of a = Some k).
  { intros a. rewrite filter_In. unfold in_group.
    destruct (key_of a) as [k' |]; split; intros [Ha Hb]; split; auto;
      try discriminate.
    - apply key_eqb_eq in Hb. now subst.
    - injection Hb as ->. now apply key_eqb_eq. }
  split; [| exact Hmem].
  apply in_group_keys in Hk. destruct Hk as [a Ha].
  apply Hmem in Ha. intros E. rewrite E in Ha. destruct Ha.
Qed.

Lemma sum_over_keys (f : A -> Z) (ks : list K) (df : list A) :
  NoDup ks ->
  sum_by (fun k => sum_by f (filter (in_group key_eqb key_of k) df)) ks
  = sum_by f
      (filter (fun a => match key_of a with
                        | Some k' => existsb (key_eqb k') ks
                        | None => false
                        end) df).
Proof.
  intros Hnd. induction df as [| a df IH]; simpl.
  - apply sum_by_zero.
  - rewrite (sum_by_ext _
               (fun k => (if in_group key_eqb key_of k a then f a else 0)
                         + sum_by f (filter (in_group key_eqb key_of k) df))).
    2:{ intros k _. destruct (in_group key_eqb key_of k a); simpl; lia. }
    rewrite sum_by_add, IH. unfold in_group at 1.
    destruct (key_of a) as [k' |].
    + rewrite (sum_by_selected key_eqb key_eqb_eq k' (f a) ks Hnd).
      destruct (existsb (key_eqb k') ks); simpl; lia.
    + rewrite sum_by_zero. lia.
Qed.

(** Conservation: the sums of the groups add up to the sum over the
    rows that have a key. *)
Lemma groupby_sum (f : A -> Z) (df : list A) :
  sum_by (fun g => sum_by f (snd g)) (groupby key_eqb key_leb key_of df)
  = sum_by f (filter (has_key key_of) df).
Proof.
  unfold groupby. rewrite sum_by_map. simpl.
  rewrite sum_over_keys by apply NoDup_group_keys.
  f_equal. apply filter_ext_in. intros a Ha. unfold has_key.
  destruct (key_of a) as [k |] eqn:E; [| reflexivity].
  apply existsb_exists. exists k. split; [| now apply key_eqb_eq].
  apply in_group_keys. exists a. auto.
Qed.
End GroupFacts.

(** *** process_property_data *)

Lemma date_leb_iff (a b : Task4.timestamp) :
  Task4.date_leb a b = true <->
  Task4.year a < Task4.year b
  \/ Task4.year a = Task4.year b
     /\ (Task4.month a < Task4.month b
         \/ Task4.month a = Task4.month b /\ Task4.day a <= Task4.day b).
Proof.
  unfold Task4.date_leb.
  rewrite !orb_true_iff, !andb_true_iff, !orb_true_iff, !andb_true_iff,
    !Z.ltb_lt, !Z.eqb_eq, Z.leb_le.
  tauto.
Qed.

Lemma date_leb_refl (a : Task4.timestamp) : Task4.date_leb a a = true.
Proof. apply date_leb_iff. lia. Qed.

Lemma date_leb_total (a b : Task4.timestamp) :
  Task4.date_leb a b = true \/ Task4.date_leb b a = true.
Proof. rewrite !date_leb_iff. lia. Qed.

Lemma date_leb_trans (a b c : Task4.timestamp) :
  Task4.date_leb a b = true -> Task4.date_leb b c = true -> Task4.date_leb a c = true.
Proof. rewrite !date_leb_iff. lia. Qed.

Lemma date_max_upper (a b : Task4.timestamp) :
  Task4.date_leb a (Task4.date_max a b) = true
  /\ Task4.date_leb b (Task4.date_max a b) = true
  /\ (Task4.date_max a b = a \/ Task4.date_max a b = b).
Proof.
  unfold Task4.date_max. destruct (Task4.date_leb a b) eqn:E.
  - split; [exact E |]. split; [apply date_leb_refl | now right].
  - split; [apply date_leb_refl |]. split; [| now left].
    destruct (date_leb_total a b) as [H | H]; [congruence | exact H].
Qed.

Lemma fold_date_max (ds : list Task4.timestamp) (d : Task4.timestamp) :
  In (fold_left Task4.date_max ds d) (d :: ds)
  /\ forall x, In x (d :: ds) ->
       Task4.date_leb x (fold_left Task4.date_max ds d) = true.
Proof.
  revert d. induction ds as [| a ds IH]; intros d; simpl.
  - split; [now left |]. intros x [<- | []]. apply date_leb_refl.
  - destruct (IH (Task4.date_max d a)) as [Hin Hup].
    destruct (date_max_upper d a) as [Hd [Ha Hc]].
    split.
    + destruct Hin as [Hin | Hin]; [| auto].
      destruct Hc as [Hc | Hc];
        [left | right; left]; rewrite <- Hin; now symmetry.
    + assert (Htop : Task4.date_leb (Task4.date_max d a)
                       (fold_left Task4.date_max ds (Task4.date_max d a)) = true)
        by (apply Hup; now left).
      intros x [<- | [<- | Hx]].
      * eapply date_leb_trans; eassumption.
      * eapply date_leb_trans; eassumption.
      * apply Hup. now right.
Qed.

(** The latest date is a date of the table and no date of the table is
    later. *)
Lemma latest_date_spec (df : list Task4.Property.row) (latest : Task4.timestamp) :
  Task4.latest_date df = Some latest ->
  In latest (map Task4.Property.Date df)
  /\ forall r, In r df -> Task4.date_leb (Task4.Property.Date r) latest = true.
Proof.
  unfold Task4.latest_date. intros H.
  destruct (map Task4.Property.Date df) as [| d ds] eqn:E; [discriminate |].
  injection H as <-. destruct (fold_date_max ds d) as [Hin Hup].
  split; [exact Hin |].
  intros r Hr. apply Hup. rewrite <- E. now apply in_map.
Qed.

Lemma isin_In (values : list string) (v : string) :
  Task4.isin values v = true <-> In v values.
Proof.
  unfold Task4.isin. rewrite existsb_exists. split.
  - intros [x [Hx He]]. apply String.eqb_eq in He. now subst.
  - intros H. exists v. split; [exact H | apply String.eqb_refl].
Qed.

Lemma latest_date_none (df : list Task4.Property.row) :
  Task4.latest_date df = None <-> df = [].
Proof.
  unfold Task4.latest_date. destruct df as [| r df]; simpl.
  - tauto.
  - split; discriminate.
Qed.

Lemma sort_nil {A : Type} (leb : A -> A -> bool) (l : list A) :
  sort leb l = [] <-> l = [].
Proof.
  split; [| intros ->; reflexivity].
  intros H. apply length_zero_iff_nil.
  rewrite <- (sort_length leb), H. reflexivity.
Qed.

(** [process_property_data] either receives no row and raises, or
    returns. *)
Lemma process_property_data_cases (df : list Task4.Property.row) :
  (df = [] /\ Task4.process_property_data df = None)
  \/ (df <> [] /\ exists out, Task4.process_property_data df = Some out).
Proof.
  destruct df as [| r df]; [left; split; reflexivity | right].
  split; [discriminate |].
  unfold Task4.process_property_data.
  destruct (Task4.latest_date _) as [latest |] eqn:E; [eauto |].
  apply latest_date_none, sort_nil in E. discriminate.
Qed.

(** X1.  [process_property_data] raises exactly on the empty table. *)
Theorem process_property_data_raises_iff_empty (df : list Task4.Property.row) :
  Task4.process_property_data df = None <-> df = [].
Proof.
  destruct (process_property_data_cases df) as [[Hnil Hnone] | [Hne [out Hout]]].
  - tauto.
  - split.
    + intros H. rewrite Hout in H. discriminate.
    + intros H. contradiction.
Qed.

(** Every returned row has one of the four types. *)
Lemma processed_rows_valid (df out : list Task4.Property.row) :
  Task4.process_property_data df = Some out ->
  forall r, In r out ->
    In (Task4.Property.Property_Type r) ["D"; "F"; "S"; "T"]%string.
Proof.
  unfold Task4.process_property_data.
  destruct (Task4.latest_date _) as [latest |]; [| discriminate].
  intros H. injection H as <-. intros r Hr.
  apply filter_In in Hr. destruct Hr as [_ Hr].
  now apply (isin_In ["D"; "F"; "S"; "T"]%string).
Qed.

(** X2.  When [process_property_data] returns, the returned rows are
    exactly the rows of the table that fall in the year and month of
    the latest date of the whole table, have status A and a type among
    D, F, S, T. *)
Theorem process_property_data_keeps
  (df out : list Task4.Property.row) :
  Task4.process_property_data df = Some out ->
  exists latest,
    In latest (map Task4.Property.Date df)
    /\ (forall r, In r df -> Task4.date_leb (Task4.Property.Date r) latest = true)
    /\ forall r, In r out <->
         In r df
         /\ Task4.year (Task4.Property.Date r) = Task4.year latest
         /\ Task4.month (Task4.Property.Date r) = Task4.month latest
         /\ Task4.Property.Record_Status r = "A"%string
         /\ In (Task4.Property.Property_Type r) ["D"; "F"; "S"; "T"]%string.
Proof.
  unfold Task4.process_property_data.
  set (sorted := sort (fun a b => Task4.date_leb (Task4.Property.Date a)
                                    (Task4.Property.Date b)) df).
  assert (Hs : forall r, In r sorted <-> In r df) by (intros r; apply sort_In).
  destruct (Task4.latest_date sorted) as [latest |] eqn:E; [| discriminate].
  intros H. injection H as <-.
  destruct (latest_date_spec sorted latest E) as [Hin Hup].
  exists latest. split; [| split].
  - apply in_map_iff in Hin. destruct Hin as [r [<- Hr]].
    apply in_map. now apply Hs.
  - intros r Hr. apply Hup. now apply Hs.
  - intros r. rewrite !filter_In. cbv beta.
    rewrite <- (isin_In ["D"; "F"; "S"; "T"]%string).
    rewrite Hs, andb_true_iff, !Z.eqb_eq, String.eqb_eq.
    unfold Task4.isin. simpl. tauto.
Qed.

Lemma process_property_data_keeps_witness :
  exists latest,
    In latest (map Task4.Property.Date sales_sample)
    /\ (forall r, In r sales_sample ->
          Task4.date_leb (Task4.Property.Date r) latest = true)
    /\ forall r,
         In r [ sale "{A5}" 2023 7 9 "F" "A" "YORK";
                sale "{A6}" 2023 7 9 "F" "A" "LEEDS";
                sale "{A1}" 2023 7 14 "D" "A" "LEEDS" ] <->
         In r sales_sample
         /\ Task4.year (Task4.Property.Date r) = Task4.year latest
         /\ Task4.month (Task4.Property.Date r) = Task4.month latest
         /\ Task4.Property.Record_Status r = "A"%string
         /\ In (Task4.Property.Property_Type r) ["D"; "F"; "S"; "T"]%string.
Proof.
  apply (process_property_data_keeps sales_sample).
  reflexivity.
Defined.

(** *** create_pivot_by_district *)

Lemma count_type_sum_by (rows : list Task4.Property.row) (t : string) :
  Task4.count_type rows t
  = sum_by (fun r => if String.eqb (Task4.Property.Property_Type r) t then 1 else 0) rows.
Proof. unfold Task4.count_type. now rewrite sum_by_indicator. Qed.

Lemma count_type_nonneg (rows : list Task4.Property.row) (t : string) :
  0 <= Task4.count_type rows t.
Proof. unfold Task4.count_type. lia. Qed.

Lemma count_type_positive (rows : list Task4.Property.row) (r : Task4.Property.row) :
  In r rows -> 1 <= Task4.count_type rows (Task4.Property.Property_Type r).
Proof.
  intros Hr. unfold Task4.count_type.
  assert (Hf : In r (filter (fun r0 => String.eqb (Task4.Property.Property_Type r0)
                                         (Task4.Property.Property_Type r)) rows))
    by (apply filter_In; split; [exact Hr | apply String.eqb_refl]).
  destruct (filter _ rows) as [| x xs]; [destruct Hf | simpl List.length; lia].
Qed.

Lemma in_create_pivot_by_district (df : list Task4.Property.row) (p : Task4.pivot_row) :
  In p (Task4.create_pivot_by_district df) <->
  exists rows,
    In (Task4.District p, rows)
       (groupby String.eqb String.leb (fun r => Some (Task4.Property.District r)) df)
    /\ Task4.D p = Task4.count_type rows "D"
    /\ Task4.F p = Task4.count_type rows "F"
    /\ Task4.S p = Task4.count_type rows "S"
    /\ Task4.T p = Task4.count_type rows "T"
    /\ Task4.Total p = Task4.D p + Task4.F p + Task4.S p + Task4.T p.
Proof.
  unfold Task4.create_pivot_by_district. rewrite in_map_iff. split.
  - intros [[k rows] [<- Hg]]. exists rows. simpl. auto 10.
  - intros [rows [Hg [HD [HF [HS [HT Htot]]]]]].
    exists (Task4.District p, rows). split; [| exact Hg].
    destruct p as [dist d f s0 t tot]. simpl in *. subst. reflexivity.
Qed.

(** X3.  The district pivot has one row per district of the table, no
    district twice; in each row D, F, S and T are the numbers of
    transactions of the district with that type, and Total is their
    sum. *)
Theorem create_pivot_by_district_counts (df : list Task4.Property.row) :
  NoDup (map Task4.District (Task4.create_pivot_by_district df))
  /\ (forall d, In d (map Task4.District (Task4.create_pivot_by_district df))
                <-> In d (map Task4.Property.District df))
  /\ forall p, In p (Task4.create_pivot_by_district df) ->
       let count t :=
         row_count
           (filter (fun r => String.eqb (Task4.Property.District r) (Task4.District p)
                             && String.eqb (Task4.Property.Property_Type r) t) df) in
       Task4.D p = count "D"%string /\ Task4.F p = count "F"%string
       /\ Task4.S p = count "S"%string /\ Task4.T p = count "T"%string
       /\ Task4.Total p = Task4.D p + Task4.F p + Task4.S p + Task4.T p.
Proof.
  assert (Hkeys : map Task4.District (Task4.create_pivot_by_district df)
                  = group_keys String.eqb String.leb
                      (fun r => Some (Task4.Property.District r)) df).
  { unfold Task4.create_pivot_by_district.
    rewrite <- (groupby_keys String.eqb String.leb), !map_map.
    apply map_ext. intros [k rows]. reflexivity. }
  split; [| split].
  - rewrite Hkeys. apply NoDup_group_keys, String.eqb_eq.
  - intros d. rewrite Hkeys, (in_group_keys String.eqb String.leb _ String.eqb_eq).
    rewrite in_map_iff. split.
    + intros [a [Ha Hk]]. exists a. split; [congruence | exact Ha].
    + intros [a [Hk Ha]]. exists a. split; [exact Ha | congruence].
  - intros p Hp count. apply in_create_pivot_by_district in Hp.
    destruct Hp as [rows [Hg [HD [HF [HS [HT Htot]]]]]].
    apply in_groupby in Hg. destruct Hg as [_ ->].
    assert (Hc : forall t,
               Task4.count_type
                 (filter (in_group String.eqb
                            (fun r => Some (Task4.Property.District r))
                            (Task4.District p)) df) t
               = count t).
    { intros t. unfold Task4.count_type, count, row_count.
      now rewrite filter_filter. }
    rewrite <- !Hc. auto.
Qed.

Lemma valid_type_indicator (r : Task4.Property.row) :
  (if String.eqb (Task4.Property.Property_Type r) "D" then 1 else 0)
  + (if String.eqb (Task4.Property.Property_Type r) "F" then 1 else 0)
  + (if String.eqb (Task4.Property.Property_Type r) "S" then 1 else 0)
  + (if String.eqb (Task4.Property.Property_Type r) "T" then 1 else 0)
  = if valid_type r then 1 else 0.
Proof.
  unfold valid_type, Task4.isin, Task4.valid_property_types. simpl.
  destruct (String.eqb_spec (Task4.Property.Property_Type r) "D") as [-> | _];
    [reflexivity |].
  destruct (String.eqb_spec (Task4.Property.Property_Type r) "F") as [-> | _];
    [reflexivity |].
  destruct (String.eqb_spec (Task4.Property.Property_Type r) "S") as [-> | _];
    [reflexivity |].
  destruct (String.eqb_spec (Task4.Property.Property_Type r) "T") as [_ | _];
    reflexivity.
Qed.

(** Each transaction of a valid type adds one to the Totals. *)
Lemma pivot_totals_by_row (df : list Task4.Property.row) :
  sum_by Task4.Total (Task4.create_pivot_by_district df)
  = sum_by (fun r => if valid_type r then 1 else 0) df.
Proof.
  unfold Task4.create_pivot_by_district.
  rewrite sum_by_map.
  rewrite (sum_by_ext _
             (fun g => sum_by (fun r => if valid_type r then 1 else 0) (snd g))).
  - rewrite (groupby_sum String.eqb String.leb _ String.eqb_eq).
    now rewrite (filter_all (has_key (fun r => Some (Task4.Property.District r))))
      by reflexivity.
  - intros [k rows] _. simpl. rewrite !count_type_sum_by, <- !sum_by_add.
    apply sum_by_ext. intros r _. apply valid_type_indicator.
Qed.

(** X4.  The Total column of the district pivot adds up to the number of
    transactions whose type is D, F, S or T: each such transaction is
    counted once, the others are not counted. *)
Theorem create_pivot_by_district_conserves (df : list Task4.Property.row) :
  sum_by Task4.Total (Task4.create_pivot_by_district df)
  = row_count (filter valid_type df).
Proof.
  rewrite pivot_totals_by_row.
  unfold row_count. induction df as [| r df IH]; simpl; [reflexivity |].
  rewrite IH. destruct (valid_type r); simpl List.length; lia.
Qed.

Lemma pivot_rows_of_processed (df out : list Task4.Property.row) :
  Task4.process_property_data df = Some out ->
  forall p, In p (Task4.create_pivot_by_district out) ->
    pivot_consistent p /\ 1 <= Task4.Total p.
Proof.
  intros H p Hp. apply in_create_pivot_by_district in Hp.
  destruct Hp as [rows [Hg [HD [HF [HS [HT Htot]]]]]].
  pose proof (count_type_nonneg rows "D").
  pose proof (count_type_nonneg rows "F").
  pose proof (count_type_nonneg rows "S").
  pose proof (count_type_nonneg rows "T").
  split; [unfold pivot_consistent; lia |].
  destruct (group_rows String.eqb String.leb _ String.eqb_eq out _ rows Hg)
    as [Hne Hrows].
  destruct rows as [| r rows']; [congruence |].
  assert (Hr : In r (r :: rows')) by now left.
  pose proof (count_type_positive (r :: rows') r Hr) as Hpos.
  apply Hrows in Hr. destruct Hr as [Hr _].
  pose proof (processed_rows_valid df out H r Hr) as Ht.
  destruct Ht as [Ht | [Ht | [Ht | [Ht | []]]]]; rewrite <- Ht in Hpos; lia.
Qed.

(** X5.  On the table that [process_property_data] returns, every row
    of the district pivot has a Total of at least one, and the Totals
    add up to the number of rows of the table. *)
Theorem pivot_of_processed
  (df out : list Task4.Property.row) :
  Task4.process_property_data df = Some out ->
  sum_by Task4.Total (Task4.create_pivot_by_district out) = row_count out
  /\ forall p, In p (Task4.create_pivot_by_district out) ->
       pivot_consistent p /\ 1 <= Task4.Total p.
Proof.
  intros H. split; [| now apply (pivot_rows_of_processed df)].
  rewrite pivot_totals_by_row, sum_by_indicator. f_equal. apply filter_all.
  intros r Hr. unfold valid_type. apply isin_In.
  exact (processed_rows_valid df out H r Hr).
Qed.

Lemma pivot_of_processed_witness :
  sum_by Task4.Total
    (Task4.create_pivot_by_district
       [ sale "{A5}" 2023 7 9 "F" "A" "YORK";
         sale "{A6}" 2023 7 9 "F" "A" "LEEDS";
         sale "{A1}" 2023 7 14 "D" "A" "LEEDS" ])
  = row_count [ sale "{A5}" 2023 7 9 "F" "A" "YORK";
                sale "{A6}" 2023 7 9 "F" "A" "LEEDS";
                sale "{A1}" 2023 7 14 "D" "A" "LEEDS" ]
  /\ forall p,
       In p (Task4.create_pivot_by_district
               [ sale "{A5}" 2023 7 9 "F" "A" "YORK";
                 sale "{A6}" 2023 7 9 "F" "A" "LEEDS";
                 sale "{A1}" 2023 7 14 "D" "A" "LEEDS" ]) ->
       pivot_consistent p /\ 1 <= Task4.Total p.
Proof.
  apply (pivot_of_processed sales_sample). reflexivity.
Defined.

Example pivot_of_sales_sample :
  option_map Task4.create_pivot_by_district (Task4.process_property_data sales_sample)
  = Some [ {| Task4.District := "LEEDS";
              Task4.D := 1; Task4.F := 1; Task4.S := 0; Task4.T := 0;
              Task4.Total := 2 |};
           {| Task4.District := "YORK";
              Task4.D := 0; Task4.F := 1; Task4.S := 0; Task4.T := 0;
              Task4.Total := 1 |} ].
Proof. reflexivity. Qed.

(** *** match_with_lookup, continued *)

Section UniqueRightKeys.
Context {L R K : Type}.
Variable key_eqb : K -> K -> bool.
Variable lkey : L -> K.
Variable rkey : R -> K.
Hypothesis key_eqb_eq : forall a b, key_eqb a b = true <-> a = b.

(** With unique right keys the left sides of a left merge are the left
    table itself. *)
Lemma merge_left_fst_unique (ls : list L) (rs : list R) :
  NoDup (map rkey rs) ->
  map fst (merge_left key_eqb lkey rkey ls rs) = ls.
Proof.
  intros Hnd. unfold merge_left.
  induction ls as [| l ls IH]; simpl; [reflexivity |].
  rewrite map_app, IH. unfold left_rows.
  pose proof (matches_unique key_eqb lkey rkey key_eqb_eq l rs Hnd) as Hle.
  destruct (matches key_eqb lkey rkey l rs) as [| r [| r' m]]; simpl in *;
    try reflexivity; lia.
Qed.
End UniqueRightKeys.

Lemma in_match_result (pivot_df : list Task4.pivot_row)
  (lookup_df : list Task4.Lookup.row) (r : Task4.Result.row) :
  In r (fst (Task4.match_with_lookup pivot_df lookup_df)) ->
  exists p l, In p pivot_df /\ In l lookup_df
    /\ Task4.District_Clean p = Task4.LAD_Name_Clean l
    /\ Task4.Lookup.Region_Name l <> None
    /\ r = Task4.select_result (p, Some l).
Proof.
  unfold Task4.match_with_lookup. simpl. intros Hr.
  apply in_map_iff in Hr. destruct Hr as [[p o] [<- Hin]].
  apply filter_In in Hin. destruct Hin as [Hin Hreg].
  destruct o as [l |]; [| discriminate Hreg].
  unfold Task4.merged in Hin. apply in_merge_left in Hin.
  destruct Hin as [Hp [Hl Hk]]. apply String.eqb_eq in Hk.
  exists p, l. repeat split; auto.
  intros Hn. unfold Task4.merged_Region_Name in Hreg. simpl in Hreg.
  rewrite Hn in Hreg. discriminate.
Qed.

(** X6.  The console output of [match_with_lookup] ends with the two
    counts, the warning is printed exactly when a row is reported, and
    reported and returned rows together are at least as many as the
    district rows.  When no cleaned name occurs twice in the lookup,
    they are exactly as many, and the Totals of the returned rows and of
    the reported rows add up to the Totals of the district rows. *)
Theorem match_with_lookup_accounts
  (pivot_df : list Task4.pivot_row) (lookup_df : list Task4.Lookup.row) :
  exists result rows,
    Task4.match_with_lookup pivot_df lookup_df
    = (result,
       (if (0 <? List.length rows)%nat
        then [Task4.Warning_Unmatched_Districts rows] else [])
         ++ [Task4.Matched_Results (List.length result) (List.length rows)])
    /\ (List.length pivot_df <= List.length result + List.length rows)%nat
    /\ (NoDup (map Task4.LAD_Name_Clean lookup_df) ->
        (List.length result + List.length rows)%nat = List.length pivot_df
        /\ sum_by Task4.Result.Total result + sum_by snd rows
           = sum_by Task4.Total pivot_df).
Proof.
  set (merged := Task4.merged pivot_df lookup_df).
  set (isna := fun m => Task4.isna_str (Task4.merged_Region_Name m)).
  exists (map Task4.select_result (filter (fun m => negb (isna m)) merged)),
    (map Task4.diagnostic (filter isna merged)).
  assert (Hlen : (List.length (filter (fun m => negb (isna m)) merged)
                  + List.length (filter isna merged))%nat = List.length merged).
  { clear. induction merged as [| m ms IH]; simpl; [reflexivity |].
    destruct (isna m); simpl; lia. }
  split; [| split].
  - unfold Task4.match_with_lookup. fold merged. fold isna.
    now rewrite !length_map.
  - rewrite !length_map, Hlen.
    apply (merge_left_length_ge String.eqb).
  - intros Hnd. rewrite !length_map, Hlen. split.
    + apply merge_left_length_unique; [apply String.eqb_eq | exact Hnd].
    + assert (Hfst : map fst merged = pivot_df)
        by (apply (merge_left_fst_unique String.eqb); [apply String.eqb_eq | exact Hnd]).
      replace (sum_by Task4.Total pivot_df)
        with (sum_by Task4.Total (map fst merged)) by (now rewrite Hfst).
      rewrite !sum_by_map.
      rewrite (sum_by_partition (fun m => Task4.Total (fst m)) isna merged).
      rewrite Z.add_comm. f_equal; apply sum_by_ext; intros [p o] _; reflexivity.
Qed.

Lemma match_with_lookup_accounts_witness :
  (List.length (fst (Task4.match_with_lookup [atlantis_pivot; leeds_pivot] [leeds_lookup]))
   = 1)%nat
  /\ exists result rows,
    Task4.match_with_lookup [atlantis_pivot; leeds_pivot] [leeds_lookup]
    = (result,
       (if (0 <? List.length rows)%nat
        then [Task4.Warning_Unmatched_Districts rows] else [])
         ++ [Task4.Matched_Results (List.length result) (List.length rows)])
    /\ (List.length [atlantis_pivot; leeds_pivot]
        <= List.length result + List.length rows)%nat
    /\ (NoDup (map Task4.LAD_Name_Clean [leeds_lookup]) ->
        (List.length result + List.length rows)%nat
        = List.length [atlantis_pivot; leeds_pivot]
        /\ sum_by Task4.Result.Total result + sum_by snd rows
           = sum_by Task4.Total [atlantis_pivot; leeds_pivot]).
Proof.
  split; [reflexivity |].
  apply (match_with_lookup_accounts [atlantis_pivot; leeds_pivot] [leeds_lookup]).
Defined.

(** X7.  A district whose lookup row has a null Region_Name is treated
    like an unmatched one: it is listed in the warning with its counts;
    and no returned row has a null Region_Name. *)
Theorem match_with_lookup_null_region
  (pivot_df : list Task4.pivot_row) (lookup_df : list Task4.Lookup.row)
  (p : Task4.pivot_row) (l : Task4.Lookup.row) :
  In p pivot_df -> In l lookup_df ->
  Task4.District_Clean p = Task4.LAD_Name_Clean l ->
  Task4.Lookup.Region_Name l = None ->
  (exists rows,
      In (Task4.Warning_Unmatched_Districts rows)
         (snd (Task4.match_with_lookup pivot_df lookup_df))
      /\ In (reported p) rows)
  /\ forall r, In r (fst (Task4.match_with_lookup pivot_df lookup_df)) ->
       Task4.Result.Region_Name r <> None.
Proof.
  intros Hp Hl Hk Hnull. split.
  - assert (Hm : In (p, Some l) (Task4.merged pivot_df lookup_df)).
    { unfold Task4.merged. apply in_merge_left.
      split; [exact Hp |]. split; [exact Hl |]. now apply String.eqb_eq. }
    assert (Hun : In (p, Some l)
                     (filter (fun m => Task4.isna_str (Task4.merged_Region_Name m))
                        (Task4.merged pivot_df lookup_df))).
    { apply filter_In. split; [exact Hm |].
      unfold Task4.merged_Region_Name. simpl. now rewrite Hnull. }
    unfold Task4.match_with_lookup. simpl.
    exists (map Task4.diagnostic
              (filter (fun m => Task4.isna_str (Task4.merged_Region_Name m))
                 (Task4.merged pivot_df lookup_df))).
    split.
    + apply in_or_app. left.
      destruct (filter (fun m => Task4.isna_str (Task4.merged_Region_Name m))
                  (Task4.merged pivot_df lookup_df)) as [| u us];
        [destruct Hun | simpl; now left].
    + change (reported p) with (Task4.diagnostic (p, Some l)). now apply in_map.
  - intros r Hr. apply in_match_result in Hr.
    destruct Hr as [p' [l' [_ [_ [_ [Hreg ->]]]]]]. exact Hreg.
Qed.

Lemma match_with_lookup_null_region_witness :
  (exists rows,
      In (Task4.Warning_Unmatched_Districts rows)
         (snd (Task4.match_with_lookup [leeds_pivot; york_pivot]
                 [leeds_lookup; york_lookup_no_region]))
      /\ In (reported york_pivot) rows)
  /\ forall r,
       In r (fst (Task4.match_with_lookup [leeds_pivot; york_pivot]
                    [leeds_lookup; york_lookup_no_region])) ->
       Task4.Result.Region_Name r <> None.
Proof.
  apply (match_with_lookup_null_region [leeds_pivot; york_pivot]
           [leeds_lookup; york_lookup_no_region] york_pivot york_lookup_no_region).
  - right. left. reflexivity.
  - right. left. reflexivity.
  - reflexivity.
  - reflexivity.
Defined.

(** *** create_regional_summary and main of task_4 *)

Lemma in_create_regional_summary (district_df : list Task4.Result.row)
  (g : Task4.Regional.row) :
  In g (Task4.create_regional_summary district_df) ->
  exists rows,
    In (regional_key g, rows)
       (groupby key2_eqb key2_leb Task4.region_key district_df)
    /\ Task4.Regional.D g = sum_by Task4.Result.D rows
    /\ Task4.Regional.F g = sum_by Task4.Result.F rows
    /\ Task4.Regional.S g = sum_by Task4.Result.S rows
    /\ Task4.Regional.T g = sum_by Task4.Result.T rows
    /\ Task4.Regional.Total g = sum_by Task4.Result.Total rows.
Proof.
  unfold Task4.create_regional_summary. rewrite in_map_iff.
  intros [[[c n] rows] [<- Hg]]. exists rows. unfold regional_key. simpl.
  rewrite !int_sum_sum_by. auto 10.
Qed.

Lemma regional_summary_keys (district_df : list Task4.Result.row) :
  map regional_key (Task4.create_regional_summary district_df)
  = group_keys key2_eqb key2_leb Task4.region_key district_df.
Proof.
  unfold Task4.create_regional_summary.
  rewrite <- (groupby_keys key2_eqb key2_leb), !map_map.
  apply map_ext. intros [[c n] rows]. reflexivity.
Qed.

Lemma regional_summary_sum (district_df : list Task4.Result.row)
  (col : Task4.Regional.row -> Z) (src : Task4.Result.row -> Z) :
  (forall k rows,
      col {| Task4.Regional.Region_Code := fst k;
             Task4.Regional.Region_Name := snd k;
             Task4.Regional.D := int_sum (map Task4.Result.D rows);
             Task4.Regional.F := int_sum (map Task4.Result.F rows);
             Task4.Regional.S := int_sum (map Task4.Result.S rows);
             Task4.Regional.T := int_sum (map Task4.Result.T rows);
             Task4.Regional.Total := int_sum (map Task4.Result.Total rows) |}
      = sum_by src rows) ->
  sum_by col (Task4.create_regional_summary district_df)
  = sum_by src (filter (has_key Task4.region_key) district_df).
Proof.
  intros Hcol. unfold Task4.create_regional_summary. rewrite sum_by_map.
  rewrite <- (groupby_sum key2_eqb key2_leb Task4.region_key key2_eqb_eq).
  apply sum_by_ext. intros [k rows] _. apply Hcol.
Qed.

(** X8.  The regional summary has one row per pair (Region_Code,
    Region_Name) that some district row carries with both parts
    non-null, no pair twice; and each of its five count columns adds up
    to the sum of the column over the district rows that have such a
    pair: a district row with a null region part is left out of every
    sum. *)
Theorem create_regional_summary_conserves (district_df : list Task4.Result.row) :
  NoDup (map regional_key (Task4.create_regional_summary district_df))
  /\ (forall k,
        In k (map regional_key (Task4.create_regional_summary district_df))
        <-> exists r, In r district_df /\ Task4.region_key r = Some k)
  /\ sum_by Task4.Regional.D (Task4.create_regional_summary district_df)
     = sum_by Task4.Result.D (filter (has_key Task4.region_key) district_df)
  /\ sum_by Task4.Regional.F (Task4.create_regional_summary district_df)
     = sum_by Task4.Result.F (filter (has_key Task4.region_key) district_df)
  /\ sum_by Task4.Regional.S (Task4.create_regional_summary district_df)
     = sum_by Task4.Result.S (filter (has_key Task4.region_key) district_df)
  /\ sum_by Task4.Regional.T (Task4.create_regional_summary district_df)
     = sum_by Task4.Result.T (filter (has_key Task4.region_key) district_df)
  /\ sum_by Task4.Regional.Total (Task4.create_regional_summary district_df)
     = sum_by Task4.Result.Total (filter (has_key Task4.region_key) district_df).
Proof.
  split; [| split].
  - rewrite regional_summary_keys. apply NoDup_group_keys, key2_eqb_eq.
  - intros k. rewrite regional_summary_keys.
    apply in_group_keys, key2_eqb_eq.
  - repeat split; apply regional_summary_sum; intros k rows; simpl;
      apply int_sum_sum_by.
Qed.

Lemma sum_by_at_least_one {A : Type} (f : A -> Z) (l : list A) :
  l <> [] -> (forall a, In a l -> 1 <= f a) -> 1 <= sum_by f l.
Proof.
  intros Hne H. destruct l as [| x l]; [congruence |]. simpl.
  pose proof (H x (or_introl eq_refl)).
  assert (0 <= sum_by f l)
    by (apply sum_by_nonneg; intros a Ha;
        pose proof (H a (or_intror Ha)); lia).
  lia.
Qed.

(** Consistent district rows give consistent regional rows. *)
Lemma create_regional_summary_consistent (district_df : list Task4.Result.row) :
  (forall r, In r district_df -> result_consistent r /\ 1 <= Task4.Result.Total r) ->
  forall g, In g (Task4.create_regional_summary district_df) ->
    regional_consistent g /\ 1 <= Task4.Regional.Total g.
Proof.
  intros Hall g Hg. apply in_create_regional_summary in Hg.
  destruct Hg as [rows [Hin [HD [HF [HS [HT Htot]]]]]].
  destruct (group_rows key2_eqb key2_leb _ key2_eqb_eq district_df _ rows Hin)
    as [Hne Hrows].
  assert (Hsub : forall r, In r rows -> result_consistent r /\ 1 <= Task4.Result.Total r)
    by (intros r Hr; apply Hall; now apply Hrows).
  assert (Hsum : sum_by Task4.Result.Total rows
                 = sum_by Task4.Result.D rows + sum_by Task4.Result.F rows
                   + sum_by Task4.Result.S rows + sum_by Task4.Result.T rows).
  { rewrite <- !sum_by_add. apply sum_by_ext.
    intros r Hr. destruct (Hsub r Hr) as [[_ [_ [_ [_ Hc]]]] _]. exact Hc. }
  unfold regional_consistent. rewrite HD, HF, HS, HT, Htot.
  repeat split; try (apply sum_by_nonneg; intros r Hr;
                     destruct (Hsub r Hr) as [[? [? [? [? ?]]]] _]; assumption).
  - exact Hsum.
  - apply sum_by_at_least_one; [exact Hne |]. intros r Hr. now apply Hsub.
Qed.

(** X9.  When [main] of task_4 finds the lookup and returns, the counts
    are consistent in all three tables it writes: in every row of the
    district pivot, of the matched table and of the regional summary,
    D, F, S and T are non-negative, Total is their sum and Total is at
    least one; and no region occurs twice in the regional summary. *)
Theorem task4_main_counts_consistent
  (property_df : list Task4.Property.row) (lookup_df : list Task4.Lookup.row)
  (written : Task4.files) :
  Task4.main property_df (Some lookup_df) = Some written ->
  (forall p, In p (Task4.task_4_district_property_counts written) ->
     pivot_consistent p /\ 1 <= Task4.Total p)
  /\ exists matched regional,
       Task4.task_4_district_property_counts_matched written = Some matched
       /\ Task4.task_4_regional_property_summary written = Some regional
       /\ (forall r, In r matched -> result_consistent r /\ 1 <= Task4.Result.Total r)
       /\ (forall g, In g regional -> regional_consistent g /\ 1 <= Task4.Regional.Total g)
       /\ NoDup (map regional_key regional).
Proof.
  unfold Task4.main.
  destruct (Task4.process_property_data property_df) as [processed |] eqn:E;
    [| discriminate].
  intros H. injection H as <-. simpl.
  pose proof (pivot_rows_of_processed property_df processed E) as Hpivot.
  split; [exact Hpivot |].
  eexists. eexists. split; [reflexivity |]. split; [reflexivity |].
  assert (Hmatched : forall r,
             In r (fst (Task4.match_with_lookup
                          (Task4.create_pivot_by_district processed) lookup_df)) ->
             result_consistent r /\ 1 <= Task4.Result.Total r).
  { intros r Hr. apply in_match_result in Hr.
    destruct Hr as [p [l [Hp [_ [_ [_ ->]]]]]].
    destruct (Hpivot p Hp) as [Hc H1].
    unfold result_consistent, pivot_consistent in *. simpl. auto. }
  split; [exact Hmatched |]. split.
  - now apply create_regional_summary_consistent.
  - rewrite regional_summary_keys. apply NoDup_group_keys, key2_eqb_eq.
Qed.

Lemma task4_main_counts_consistent_witness :
  exists written,
    Task4.main sales_sample (Some [leeds_lookup; york_lookup_no_region]) = Some written
    /\ (forall p, In p (Task4.task_4_district_property_counts written) ->
          pivot_consistent p /\ 1 <= Task4.Total p)
    /\ exists matched regional,
         Task4.task_4_district_property_counts_matched written = Some matched
         /\ Task4.task_4_regional_property_summary written = Some regional
         /\ (forall r, In r matched -> result_consistent r /\ 1 <= Task4.Result.Total r)
         /\ (forall g, In g regional ->
               regional_consistent g /\ 1 <= Task4.Regional.Total g)
         /\ NoDup (map regional_key regional).
Proof.
  eexists. split; [reflexivity |].
  apply (task4_main_counts_consistent sales_sample
           [leeds_lookup; york_lookup_no_region]).
  reflexivity.
Defined.

Example task4_main_on_sales_sample :
  option_map Task4.task_4_regional_property_summary
    (Task4.main sales_sample (Some [leeds_lookup; york_lookup_no_region]))
  = Some (Some [ {| Task4.Regional.Region_Code := "E12000003";
                    Task4.Regional.Region_Name := "Yorkshire and The Humber";
                    Task4.Regional.D := 1; Task4.Regional.F := 1;
                    Task4.Regional.S := 0; Task4.Regional.T := 0;
                    Task4.Regional.Total := 2 |} ]).
Proof. reflexivity. Qed.

(** X10.  [main] of task_4 raises exactly on an empty price-paid table,
    whether the lookup file is there or not; and when the lookup file is
    missing it writes the same district pivot as with the lookup and
    neither of the two other tables. *)
Theorem task4_main_missing_lookup
  (property_df : list Task4.Property.row) (lookup_df : list Task4.Lookup.row) :
  (Task4.main property_df None = None <-> property_df = [])
  /\ (Task4.main property_df (Some lookup_df) = None <-> property_df = [])
  /\ forall written, Task4.main property_df None = Some written ->
       Task4.task_4_district_property_counts_matched written = None
       /\ Task4.task_4_regional_property_summary written = None
       /\ exists written',
            Task4.main property_df (Some lookup_df) = Some written'
            /\ Task4.task_4_district_property_counts written'
               = Task4.task_4_district_property_counts written.
Proof.
  unfold Task4.main.
  destruct (process_property_data_cases property_df)
    as [[Hnil ->] | [Hne [processed ->]]].
  - split; [| split].
    + tauto.
    + tauto.
    + discriminate.
  - split; [| split].
    + split; [discriminate | intros H; contradiction].
    + split; [discriminate | intros H; contradiction].
    + intros written H. injection H as <-. simpl.
      split; [reflexivity |]. split; [reflexivity |].
      eexists. split; reflexivity.
Qed.

(** *** main of task_3 *)

Lemma has_duplicates_NoDup {A : Type} (eqb : A -> A -> bool) (l : list A) :
  (forall a b, eqb a b = true <-> a = b) ->
  has_duplicates eqb l = false -> NoDup l.
Proof.
  intros Heq. induction l as [| x l IH]; simpl; intros H; constructor.
  - apply orb_false_iff in H. destruct H as [H _].
    intros Hx.
    assert (Hex : existsb (eqb x) l = true)
      by (apply existsb_exists; exists x; split; [exact Hx | now apply Heq]).
    congruence.
  - apply IH. apply orb_false_iff in H. tauto.
Qed.

(** One row of [census_wide], from the pivot cells of a district. *)
Lemma rename_and_total_rows (w : wide) (census_wide : list Task3.Wide.row) :
  Task3.rename_and_total w = inr census_wide ->
  List.length (columns w) = 3%nat
  /\ census_wide
     = map (fun kr : key2 * list (option Z) =>
              {| Task3.Wide.LAD_Code := fst (fst kr);
                 Task3.Wide.LAD_Name := snd (fst kr);
                 Task3.Wide.Shared_Two_Spaces := nth 0 (snd kr) None;
                 Task3.Wide.Shared_Three_Plus_Spaces := nth 1 (snd kr) None;
                 Task3.Wide.Unshared_Dwelling := nth 2 (snd kr) None;
                 Task3.Wide.Total_Dwellings :=
                   Task3.add_cell
                     (Task3.add_cell (nth 0 (snd kr) None) (nth 1 (snd kr) None))
                     (nth 2 (snd kr) None);
                 Task3.Wide.Shared_Dwellings :=
                   Task3.add_cell (nth 0 (snd kr) None) (nth 1 (snd kr) None) |})
           (rows w).
Proof.
  unfold Task3.rename_and_total.
  destruct (columns w) as [| c1 [| c2 [| c3 [| c4 cs]]]]; try discriminate.
  intros H. injection H as <-. split; [reflexivity |].
  apply map_ext. intros [k cells]. reflexivity.
Qed.

(** What [main] returns, in terms of the census table and the lookup. *)
Lemma main_inv (lookup_df : list Task3.lookup_row) (census_df : list Task3.census_row)
  (final_df : list Task3.final_row) :
  Task3.main lookup_df census_df = inr final_df ->
  NoDup (map census_entry census_df)
  /\ exists c1 c2 c3 census_wide,
       census_categories census_df = [c1; c2; c3]
       /\ census_wide
          = map (fun k =>
                   let cell :=
                     cell Task3.census_index Task3.Number_of_household_spaces
                       Task3.Observation census_df k in
                   {| Task3.Wide.LAD_Code := fst k;
                      Task3.Wide.LAD_Name := snd k;
                      Task3.Wide.Shared_Two_Spaces := cell c1;
                      Task3.Wide.Shared_Three_Plus_Spaces := cell c2;
                      Task3.Wide.Unshared_Dwelling := cell c3;
                      Task3.Wide.Total_Dwellings :=
                        Task3.add_cell (Task3.add_cell (cell c1) (cell c2)) (cell c3);
                      Task3.Wide.Shared_Dwellings :=
                        Task3.add_cell (cell c1) (cell c2) |})
                (census_districts census_df)
       /\ final_df = map Task3.to_final (Task3.merge_lookup census_wide lookup_df).
Proof.
  unfold Task3.main, Task3.census_pivot, pivot.
  change (map (fun a => (Task3.census_index a, Task3.Number_of_household_spaces a))
            census_df)
    with (map census_entry census_df).
  destruct (has_duplicates entry_eqb (map census_entry census_df)) eqn:Edup;
    [discriminate |].
  fold (census_categories census_df). fold (census_districts census_df).
  destruct (Task3.rename_and_total _) as [e | census_wide] eqn:Er; [discriminate |].
  intros H. injection H as <-.
  split; [now apply (has_duplicates_NoDup entry_eqb _ entry_eqb_eq) |].
  apply rename_and_total_rows in Er. simpl in Er. destruct Er as [Hlen ->].
  destruct (census_categories census_df) as [| c1 [| c2 [| c3 [| c4 cs]]]];
    try discriminate.
  exists c1, c2, c3. eexists. split; [reflexivity |]. split; [| reflexivity].
  rewrite map_map. apply map_ext. intros k. reflexivity.
Qed.

(** X11.  [main] of task_3 ends with a ValueError for duplicate entries
    when an (index, category) pair occurs twice in the census table, and
    with a ValueError for a length mismatch when there is no such pair
    but the number of distinct categories is not three; otherwise it
    returns. *)
Theorem task3_main_errors
  (lookup_df : list Task3.lookup_row) (census_df : list Task3.census_row) :
  (~ NoDup (map census_entry census_df) ->
     Task3.main lookup_df census_df = inl ValueError_duplicate_entries)
  /\ (NoDup (map census_entry census_df) ->
      List.length (census_categories census_df) <> 3%nat ->
      Task3.main lookup_df census_df = inl ValueError_length_mismatch)
  /\ (NoDup (map census_entry census_df) ->
      List.length (census_categories census_df) = 3%nat ->
      exists final_df, Task3.main lookup_df census_df = inr final_df).
Proof.
  unfold Task3.main, Task3.census_pivot, pivot.
  change (map (fun a => (Task3.census_index a, Task3.Number_of_household_spaces a))
            census_df)
    with (map census_entry census_df).
  fold (census_categories census_df). fold (census_districts census_df).
  split; [| split].
  - intros Hdup.
    destruct (has_duplicates entry_eqb (map census_entry census_df)) eqn:E;
      [reflexivity |].
    exfalso. apply Hdup. now apply (has_duplicates_NoDup entry_eqb _ entry_eqb_eq).
  - intros Hnd Hlen.
    rewrite (has_duplicates_false entry_eqb entry_eqb_eq _ Hnd).
    unfold Task3.rename_and_total. simpl.
    destruct (census_categories census_df) as [| c1 [| c2 [| c3 [| c4 cs]]]];
      try reflexivity.
    now contradiction Hlen.
  - intros Hnd Hlen.
    rewrite (has_duplicates_false entry_eqb entry_eqb_eq _ Hnd).
    unfold Task3.rename_and_total. simpl.
    destruct (census_categories census_df) as [| c1 [| c2 [| c3 [| c4 cs]]]];
      try discriminate.
    eexists. reflexivity.
Qed.

Lemma task3_main_errors_witness :
  Task3.main lookup_sample census_two_categories = inl ValueError_length_mismatch
  /\ exists final_df, Task3.main lookup_sample census_sample = inr final_df.
Proof.
  split.
  - apply (proj1 (proj2 (task3_main_errors lookup_sample census_two_categories))).
    + apply (has_duplicates_NoDup entry_eqb _ entry_eqb_eq). reflexivity.
    + vm_compute. discriminate.
  - apply (proj2 (proj2 (task3_main_errors lookup_sample census_sample))).
    + apply (has_duplicates_NoDup entry_eqb _ entry_eqb_eq). reflexivity.
    + reflexivity.
Defined.

Lemma in_final_df (lookup_df : list Task3.lookup_row)
  (census_wide : list Task3.Wide.row) (r : Task3.final_row) :
  In r (map Task3.to_final (Task3.merge_lookup census_wide lookup_df)) <->
  exists w o,
    r = Task3.to_final (w, o) /\ In w census_wide
    /\ match o with
       | Some l => In l lookup_df /\ Task3.Wide.LAD_Code w = Task3.LAD23CD l
       | None => forall l, In l lookup_df -> Task3.Wide.LAD_Code w <> Task3.LAD23CD l
       end.
Proof.
  rewrite in_map_iff. unfold Task3.merge_lookup. split.
  - intros [[w o] [<- Hin]]. apply in_merge_left in Hin.
    exists w, o. split; [reflexivity |]. destruct Hin as [Hw Ho].
    split; [exact Hw |]. destruct o as [l |].
    + now rewrite String.eqb_eq in Ho.
    + intros l Hl. apply String.eqb_neq. now apply Ho.
  - intros [w [o [-> [Hw Ho]]]]. exists (w, o). split; [reflexivity |].
    apply in_merge_left. split; [exact Hw |]. destruct o as [l |].
    + now rewrite String.eqb_eq.
    + intros l Hl. apply String.eqb_neq. now apply Ho.
Qed.

(** X12.  When [main] of task_3 returns, every district of the census
    table has a row in [final_df] and every row is a district of the
    census table; when no LAD23CD occurs twice in the lookup, the rows
    are exactly the distinct districts, in key order, each once. *)
Theorem task3_main_one_row_per_district
  (lookup_df : list Task3.lookup_row) (census_df : list Task3.census_row)
  (final_df : list Task3.final_row) :
  Task3.main lookup_df census_df = inr final_df ->
  (forall k, In k (map final_key final_df) <-> In k (map Task3.census_index census_df))
  /\ (NoDup (map Task3.LAD23CD lookup_df) ->
      map final_key final_df = census_districts census_df
      /\ NoDup (map final_key final_df)).
Proof.
  intros H. apply main_inv in H.
  destruct H as [_ [c1 [c2 [c3 [census_wide [_ [Hwide ->]]]]]]].
  assert (Hkeys : map (fun w => (Task3.Wide.LAD_Code w, Task3.Wide.LAD_Name w))
                    census_wide = census_districts census_df).
  { rewrite Hwide, map_map. simpl.
    rewrite <- (map_id (census_districts census_df)) at 2.
    apply map_ext. intros [c n]. reflexivity. }
  assert (Hfinal : map final_key
                     (map Task3.to_final (Task3.merge_lookup census_wide lookup_df))
                   = map (fun w => (Task3.Wide.LAD_Code w, Task3.Wide.LAD_Name w))
                       (map fst (Task3.merge_lookup census_wide lookup_df))).
  { rewrite !map_map. apply map_ext. intros [w o]. reflexivity. }
  assert (Hdistricts : forall k, In k (census_districts census_df)
                                 <-> In k (map Task3.census_index census_df)).
  { intros k. unfold census_districts.
    now rewrite sort_In, (in_distinct key2_eqb key2_eqb_eq). }
  split.
  - intros k. rewrite <- Hdistricts, <- Hkeys, Hfinal, !in_map_iff. split.
    + intros [w [<- Hw]]. apply in_map_iff in Hw. destruct Hw as [[w' o] [<- Hin]].
      unfold Task3.merge_lookup in Hin. apply in_merge_left in Hin.
      exists w'. simpl. tauto.
    + intros [w [<- Hw]]. exists w. split; [reflexivity |].
      apply in_map_iff.
      destruct (matches String.eqb Task3.Wide.LAD_Code Task3.LAD23CD w lookup_df)
        as [| l ls] eqn:E.
      * exists (w, None). split; [reflexivity |].
        unfold Task3.merge_lookup. apply in_merge_left. split; [exact Hw |].
        intros l Hl.
        destruct (String.eqb (Task3.Wide.LAD_Code w) (Task3.LAD23CD l)) eqn:Ek;
          [| reflexivity].
        assert (Hm : In l (matches String.eqb Task3.Wide.LAD_Code Task3.LAD23CD
                             w lookup_df))
          by (apply filter_In; auto).
        rewrite E in Hm. destruct Hm.
      * exists (w, Some l). split; [reflexivity |].
        assert (Hm : In l (matches String.eqb Task3.Wide.LAD_Code Task3.LAD23CD
                             w lookup_df))
          by (rewrite E; now left).
        apply filter_In in Hm.
        unfold Task3.merge_lookup. apply in_merge_left. tauto.
  - intros Hnd. rewrite Hfinal.
    unfold Task3.merge_lookup.
    rewrite (merge_left_fst_unique String.eqb _ _ String.eqb_eq _ _ Hnd), Hkeys.
    split; [reflexivity |].
    unfold census_districts.
    eapply Permutation_NoDup; [apply sort_perm |].
    apply (NoDup_distinct key2_eqb key2_eqb_eq).
Qed.

Lemma task3_main_one_row_per_district_witness :
  (forall k, In k (map final_key final_sample)
             <-> In k (map Task3.census_index census_sample))
  /\ (NoDup (map Task3.LAD23CD lookup_sample) ->
      map final_key final_sample = census_districts census_sample
      /\ NoDup (map final_key final_sample)).
Proof.
  apply (task3_main_one_row_per_district lookup_sample census_sample final_sample).
  reflexivity.
Defined.

(** X13.  When [main] of task_3 returns, the region columns of a row of
    [final_df] are null exactly when the lookup has no row for its
    LAD_Code, and otherwise they are the RGN23CD and RGN23NM of a lookup
    row whose LAD23CD is that code. *)
Theorem task3_main_region_columns
  (lookup_df : list Task3.lookup_row) (census_df : list Task3.census_row)
  (final_df : list Task3.final_row) (r : Task3.final_row) :
  Task3.main lookup_df census_df = inr final_df ->
  In r final_df ->
  (Task3.Region_Code r = None <-> ~ In (Task3.LAD_Code r) (map Task3.LAD23CD lookup_df))
  /\ (Task3.Region_Name r = None <-> Task3.Region_Code r = None)
  /\ forall c, Task3.Region_Code r = Some c ->
       exists l, In l lookup_df /\ Task3.LAD23CD l = Task3.LAD_Code r
         /\ Task3.RGN23CD l = c /\ Task3.Region_Name r = Some (Task3.RGN23NM l).
Proof.
  intros H Hr. apply main_inv in H.
  destruct H as [_ [c1 [c2 [c3 [census_wide [_ [_ ->]]]]]]].
  apply in_final_df in Hr. destruct Hr as [w [o [-> [_ Ho]]]].
  destruct o as [l |]; simpl.
  - destruct Ho as [Hl Hk]. split; [| split].
    + split; [discriminate |]. intros Hno. exfalso. apply Hno.
      rewrite Hk. now apply in_map.
    + split; discriminate.
    + intros c Hc. injection Hc as <-. exists l. auto.
  - split; [| split].
    + split; [| reflexivity]. intros _ Hin.
      apply in_map_iff in Hin. destruct Hin as [l [Hk Hl]].
      now apply (Ho l Hl).
    + tauto.
    + discriminate.
Qed.

Lemma task3_main_region_columns_witness :
  (Task3.Region_Code cardiff_final = None
   <-> ~ In (Task3.LAD_Code cardiff_final) (map Task3.LAD23CD lookup_sample))
  /\ (Task3.Region_Name cardiff_final = None <-> Task3.Region_Code cardiff_final = None)
  /\ forall c, Task3.Region_Code cardiff_final = Some c ->
       exists l, In l lookup_sample /\ Task3.LAD23CD l = Task3.LAD_Code cardiff_final
         /\ Task3.RGN23CD l = c
         /\ Task3.Region_Name cardiff_final = Some (Task3.RGN23NM l).
Proof.
  apply (task3_main_region_columns lookup_sample census_sample final_sample
           cardiff_final).
  - reflexivity.
  - right. left. reflexivity.
Defined.

Section LeftRowsKept.
Context {L R K : Type}.
Variable key_eqb : K -> K -> bool.
Variable lkey : L -> K.
Variable rkey : R -> K.

(** A left merge keeps every left row. *)
Lemma merge_left_covers (ls : list L) (rs : list R) (l : L) :
  In l ls -> exists o, In (l, o) (merge_left key_eqb lkey rkey ls rs).
Proof.
  intros Hl.
  destruct (matches key_eqb lkey rkey l rs) as [| r m] eqn:E.
  - exists None. apply in_merge_left. split; [exact Hl |].
    intros r Hr. destruct (key_eqb (lkey l) (rkey r)) eqn:Ek; [| reflexivity].
    assert (Hm : In r (matches key_eqb lkey rkey l rs)) by (apply filter_In; auto).
    rewrite E in Hm. destruct Hm.
  - exists (Some r). apply in_merge_left. split; [exact Hl |].
    assert (Hm : In r (matches key_eqb lkey rkey l rs)) by (rewrite E; now left).
    now apply filter_In in Hm.
Qed.
End LeftRowsKept.

(** X14.  When [main] of task_3 returns, the pivot loses no observation:
    the three sorted categories fill the three category columns in that
    order, every census row finds its observation in the row of its
    district and the column of its category, and in every such row
    Shared_Dwellings is the sum of the two shared columns and
    Total_Dwellings the sum of Shared_Dwellings and Unshared_Dwellings
    (null as soon as a part is null). *)
Theorem task3_main_keeps_observations
  (lookup_df : list Task3.lookup_row) (census_df : list Task3.census_row)
  (final_df : list Task3.final_row) (a : Task3.census_row) :
  Task3.main lookup_df census_df = inr final_df ->
  In a census_df ->
  exists c1 c2 c3,
    census_categories census_df = [c1; c2; c3]
    /\ In (Task3.Number_of_household_spaces a) [c1; c2; c3]
    /\ exists r, In r final_df
         /\ final_key r = Task3.census_index a
         /\ (Task3.Number_of_household_spaces a = c1 ->
             Task3.Shared_Two_Spaces r = Some (Task3.Observation a))
         /\ (Task3.Number_of_household_spaces a = c2 ->
             Task3.Shared_Three_Plus_Spaces r = Some (Task3.Observation a))
         /\ (Task3.Number_of_household_spaces a = c3 ->
             Task3.Unshared_Dwellings r = Some (Task3.Observation a))
         /\ Task3.Shared_Dwellings r
            = Task3.add_cell (Task3.Shared_Two_Spaces r) (Task3.Shared_Three_Plus_Spaces r)
         /\ Task3.Total_Dwellings r
            = Task3.add_cell (Task3.Shared_Dwellings r) (Task3.Unshared_Dwellings r).
Proof.
  intros H Ha. apply main_inv in H.
  destruct H as [Hnd [c1 [c2 [c3 [census_wide [Hcat [Hwide ->]]]]]]].
  exists c1, c2, c3. split; [exact Hcat |]. split.
  { rewrite <- Hcat. unfold census_categories.
    rewrite sort_In, (in_distinct String.eqb String.eqb_eq). now apply in_map. }
  pose proof (census_cell_of_row census_df a Hnd Ha) as Hcell.
  set (k := Task3.census_index a) in *.
  assert (Hk : In k (census_districts census_df)).
  { unfold census_districts.
    rewrite sort_In, (in_distinct key2_eqb key2_eqb_eq). now apply in_map. }
  set (mk := fun k0 : key2 =>
               let cell :=
                 cell Task3.census_index Task3.Number_of_household_spaces
                   Task3.Observation census_df k0 in
               {| Task3.Wide.LAD_Code := fst k0;
                  Task3.Wide.LAD_Name := snd k0;
                  Task3.Wide.Shared_Two_Spaces := cell c1;
                  Task3.Wide.Shared_Three_Plus_Spaces := cell c2;
                  Task3.Wide.Unshared_Dwelling := cell c3;
                  Task3.Wide.Total_Dwellings :=
                    Task3.add_cell (Task3.add_cell (cell c1) (cell c2)) (cell c3);
                  Task3.Wide.Shared_Dwellings :=
                    Task3.add_cell (cell c1) (cell c2) |}) in Hwide.
  assert (Hw : In (mk k) census_wide) by (rewrite Hwide; now apply in_map).
  destruct (merge_left_covers String.eqb Task3.Wide.LAD_Code Task3.LAD23CD
              census_wide lookup_df (mk k) Hw) as [o Ho].
  exists (Task3.to_final (mk k, o)). split.
  { apply in_map_iff. exists (mk k, o). split; [reflexivity | exact Ho]. }
  unfold final_key. simpl. split; [subst k; reflexivity |].
  split; [intros <-; exact Hcell |].
  split; [intros <-; exact Hcell |].
  split; [intros <-; exact Hcell |].
  split; reflexivity.
Qed.

Lemma task3_main_keeps_observations_witness :
  exists c1 c2 c3,
    census_categories census_sample = [c1; c2; c3]
    /\ In "Unshared dwelling"%string [c1; c2; c3]
    /\ exists r, In r final_sample
         /\ final_key r = ("W06000015", "Cardiff")%string
         /\ ("Unshared dwelling"%string = c1 -> Task3.Shared_Two_Spaces r = Some 50)
         /\ ("Unshared dwelling"%string = c2 -> Task3.Shared_Three_Plus_Spaces r = Some 50)
         /\ ("Unshared dwelling"%string = c3 -> Task3.Unshared_Dwellings r = Some 50)
         /\ Task3.Shared_Dwellings r
            = Task3.add_cell (Task3.Shared_Two_Spaces r) (Task3.Shared_Three_Plus_Spaces r)
         /\ Task3.Total_Dwellings r
            = Task3.add_cell (Task3.Shared_Dwellings r) (Task3.Unshared_Dwellings r).
Proof.
  apply (task3_main_keeps_observations lookup_sample census_sample final_sample
           (census "W06000015" "Cardiff" "Unshared dwelling" 50)).
  - reflexivity.
  - right. right. right. right. left. reflexivity.
Defined.

(** *** regional_summary of task_3 *)

Lemma dwelling_summary_keys (final_df : list Task3.final_row) :
  map dwelling_region_key (Task3.regional_summary final_df)
  = group_keys key2_eqb key2_leb Task3.region_key final_df.
Proof.
  unfold Task3.regional_summary.
  rewrite <- (groupby_keys key2_eqb key2_leb), !map_map.
  apply map_ext. intros [[c n] rows]. reflexivity.
Qed.

Lemma dwelling_summary_sum (final_df : list Task3.final_row)
  (col : Task3.Regional.row -> Z) (src : Task3.final_row -> option Z) :
  (forall k rows,
      col {| Task3.Regional.Region_Code := fst k;
             Task3.Regional.Region_Name := snd k;
             Task3.Regional.Unshared_Dwellings :=
               series_sum (map Task3.Unshared_Dwellings rows);
             Task3.Regional.Shared_Dwellings :=
               series_sum (map Task3.Shared_Dwellings rows);
             Task3.Regional.Total_Dwellings :=
               series_sum (map Task3.Total_Dwellings rows) |}
      = series_sum (map src rows)) ->
  sum_by col (Task3.regional_summary final_df)
  = sum_by (fun r => null_as_zero (src r))
      (filter (has_key Task3.region_key) final_df).
Proof.
  intros Hcol. unfold Task3.regional_summary. rewrite sum_by_map.
  rewrite <- (groupby_sum key2_eqb key2_leb Task3.region_key key2_eqb_eq).
  apply sum_by_ext. intros [k rows] _. simpl.
  rewrite Hcol. apply series_sum_sum_by.
Qed.

(** X15.  The regional dwelling summary of task_3 has one row per pair
    (Region_Code, Region_Name) that some district carries with both
    parts non-null, no pair twice; and each of its three columns adds up
    to the sum of the column over the districts that have a region, a
    null count adding nothing: the districts without a region are in no
    row of the summary. *)
Theorem regional_summary_conserves (final_df : list Task3.final_row) :
  NoDup (map dwelling_region_key (Task3.regional_summary final_df))
  /\ (forall k,
        In k (map dwelling_region_key (Task3.regional_summary final_df))
        <-> exists r, In r final_df /\ Task3.region_key r = Some k)
  /\ sum_by Task3.Regional.Unshared_Dwellings (Task3.regional_summary final_df)
     = sum_by (fun r => null_as_zero (Task3.Unshared_Dwellings r))
         (filter (has_key Task3.region_key) final_df)
  /\ sum_by Task3.Regional.Shared_Dwellings (Task3.regional_summary final_df)
     = sum_by (fun r => null_as_zero (Task3.Shared_Dwellings r))
         (filter (has_key Task3.region_key) final_df)
  /\ sum_by Task3.Regional.Total_Dwellings (Task3.regional_summary final_df)
     = sum_by (fun r => null_as_zero (Task3.Total_Dwellings r))
         (filter (has_key Task3.region_key) final_df).
Proof.
  split; [| split].
  - rewrite dwelling_summary_keys. apply NoDup_group_keys, key2_eqb_eq.
  - intros k. rewrite dwelling_summary_keys. apply in_group_keys, key2_eqb_eq.
  - repeat split; apply dwelling_summary_sum; intros k rows; reflexivity.
Qed.

Example regional_summary_of_final_sample :
  Task3.regional_summary final_sample
  = [ {| Task3.Regional.Region_Code := "E12000001";
         Task3.Regional.Region_Name := "North East";
         Task3.Regional.Unshared_Dwellings := 40;
         Task3.Regional.Shared_Dwellings := 3;
         Task3.Regional.Total_Dwellings := 43 |} ].
Proof. reflexivity. Qed.

(** *** merge_datasets, continued *)

Lemma merged_key_of_joined (j : joined Dwellings.row Sales.row) :
  merged_key (fill_sales (outer_row j)) = joined_key dwellings_key sales_key j.
Proof. unfold merged_key. simpl. now destruct (joined_key dwellings_key sales_key j). Qed.

Lemma in_merged_keys (dwellings_df : list Dwellings.row) (sales_df : list Sales.row)
  (k : key2) :
  In k (map merged_key (merge_datasets dwellings_df sales_df))
  <-> In k (map dwellings_key dwellings_df) \/ In k (map sales_key sales_df).
Proof.
  rewrite !in_map_iff. split.
  - intros [m [<- Hm]]. apply in_merge_datasets in Hm. destruct Hm as [j [Hj ->]].
    rewrite merged_key_of_joined. apply in_merge_outer in Hj.
    destruct j as [d s | d | s]; simpl.
    + left. exists d. tauto.
    + left. exists d. tauto.
    + right. exists s. tauto.
  - intros [[d [<- Hd]] | [s [<- Hs]]].
    + destruct (merge_left_covers key2_eqb dwellings_key sales_key
                  dwellings_df sales_df d Hd) as [o Ho].
      exists (fill_sales (outer_row (of_left (d, o)))). split.
      * rewrite merged_key_of_joined. now destruct o.
      * apply in_merge_datasets. exists (of_left (d, o)). split; [| reflexivity].
        unfold merge_outer. apply sort_In. apply in_or_app. left.
        now apply in_map.
    + destruct (has_left key2_eqb dwellings_key sales_key dwellings_df s) eqn:E.
      * unfold has_left in E. apply existsb_exists in E.
        destruct E as [d [Hd Hk]].
        exists (fill_sales (outer_row (both d s))). split.
        -- rewrite merged_key_of_joined. simpl. now apply key2_eqb_eq.
        -- apply in_merge_datasets. exists (both d s). split; [| reflexivity].
           apply in_merge_outer. auto.
      * exists (fill_sales (outer_row (right_only s))). split.
        -- now rewrite merged_key_of_joined.
        -- apply in_merge_datasets. exists (right_only s). split; [| reflexivity].
           unfold merge_outer. apply sort_In. apply in_or_app. right.
           apply in_map. apply filter_In. split; [exact Hs | now rewrite E].
Qed.

(** X16.  The keys of the merged table are the keys of the dwelling
    table together with the keys of the sales table; and when neither
    table has a key twice, the merged table has none twice either. *)
Theorem merge_datasets_keys
  (dwellings_df : list Dwellings.row) (sales_df : list Sales.row) :
  (forall k, In k (map merged_key (merge_datasets dwellings_df sales_df))
             <-> In k (map dwellings_key dwellings_df) \/ In k (map sales_key sales_df))
  /\ (NoDup (map dwellings_key dwellings_df) -> NoDup (map sales_key sales_df) ->
      NoDup (map merged_key (merge_datasets dwellings_df sales_df))).
Proof.
  split; [apply in_merged_keys |].
  intros Hd Hs.
  apply NoDup_incl_NoDup
    with (l := distinct key2_eqb
                 (map dwellings_key dwellings_df ++ map sales_key sales_df)).
  - apply (NoDup_distinct key2_eqb key2_eqb_eq).
  - rewrite length_map. unfold merge_datasets, outer_merge. rewrite !length_map.
    rewrite (merge_outer_length_unique key2_eqb dwellings_key sales_key
               key2_eqb_eq key2_leb dwellings_df sales_df Hd Hs).
    apply le_n.
  - intros k Hk. apply (proj1 (in_distinct key2_eqb key2_eqb_eq _ k)) in Hk.
    apply in_merged_keys. apply in_app_or. exact Hk.
Qed.

Lemma merge_datasets_keys_witness :
  NoDup (map merged_key (merge_datasets [london_dwellings; wales_dwellings] [london_sales])).
Proof.
  apply (proj2 (merge_datasets_keys [london_dwellings; wales_dwellings] [london_sales])).
  - simpl. constructor; [| constructor; [intros [] | constructor]].
    intros [H | []]. discriminate H.
  - simpl. constructor; [intros [] | constructor].
Defined.

Lemma merge_datasets_consistent
  (dwellings_df : list Dwellings.row) (sales_df : list Sales.row) (m : Merged.row) :
  (forall s, In s sales_df -> sales_consistent s) ->
  In m (merge_datasets dwellings_df sales_df) -> merged_consistent m.
Proof.
  intros Hall Hm. apply in_merge_datasets in Hm. destruct Hm as [j [Hj ->]].
  apply in_merge_outer in Hj. unfold merged_consistent.
  destruct j as [d s | d | s]; simpl.
  - apply Hall. tauto.
  - lia.
  - apply Hall. tauto.
Qed.

(** *** The percentages of consistent counts *)

(** Rounding moves a value by at most one half. *)
Lemma round_half_even_near (q : Q) :
  (inject_Z (round_half_even q) - (1 # 2) <= q)%Q
  /\ (q <= inject_Z (round_half_even q) + (1 # 2))%Q.
Proof.
  pose proof (Qfloor_le q) as Hlo. pose proof (Qlt_floor q) as Hhi.
  rewrite inject_Z_plus in Hhi. change (inject_Z 1) with 1%Q in Hhi.
  unfold round_half_even.
  destruct (Qcompare_spec (q - inject_Z (Qfloor q)) (1 # 2)) as [He | Hl | Hg].
  - destruct (Z.even (Qfloor q)).
    + split; lra.
    + rewrite inject_Z_plus. change (inject_Z 1) with 1%Q. split; lra.
  - split; lra.
  - rewrite inject_Z_plus. change (inject_Z 1) with 1%Q. split; lra.
Qed.

Lemma percentage_value (n d : Z) :
  d <> 0 ->
  percentage (of_int n) (of_int d)
  = Fin (inject_Z (round_half_even (inject_Z n / inject_Z d * inject_Z 100 * 100)) / 100).
Proof.
  intros Hd. unfold percentage, of_int, truediv.
  rewrite inject_Z_eq_bool_0.
  destruct (Z.eqb_spec d 0) as [-> | _]; [lia | reflexivity].
Qed.

Lemma scaled_shares_sum (n1 n2 n3 n4 t : Z) :
  0 < t -> t = n1 + n2 + n3 + n4 ->
  (inject_Z n1 / inject_Z t * inject_Z 100 * 100
   + inject_Z n2 / inject_Z t * inject_Z 100 * 100
   + inject_Z n3 / inject_Z t * inject_Z 100 * 100
   + inject_Z n4 / inject_Z t * inject_Z 100 * 100 == 10000)%Q.
Proof.
  intros Ht Hsum.
  assert (HT : ~ (inject_Z t == 0)%Q).
  { unfold Qeq, inject_Z. simpl. lia. }
  assert (Hs : (inject_Z n1 + inject_Z n2 + inject_Z n3 + inject_Z n4 == inject_Z t)%Q)
    by (rewrite <- !inject_Z_plus; now rewrite Hsum).
  change (inject_Z 100) with 100%Q.
  setoid_replace (inject_Z n1 / inject_Z t * 100 * 100
                  + inject_Z n2 / inject_Z t * 100 * 100
                  + inject_Z n3 / inject_Z t * 100 * 100
                  + inject_Z n4 / inject_Z t * 100 * 100)%Q
    with ((inject_Z n1 + inject_Z n2 + inject_Z n3 + inject_Z n4)
          / inject_Z t * 10000)%Q
    by (field; exact HT).
  rewrite Hs. field. exact HT.
Qed.

Lemma rounded_shares_sum (q1 q2 q3 q4 : Q) :
  (q1 + q2 + q3 + q4 == 10000)%Q ->
  9998 <= round_half_even q1 + round_half_even q2 + round_half_even q3
          + round_half_even q4 <= 10002.
Proof.
  intros Hsum.
  destruct (round_half_even_near q1) as [H1 H1'].
  destruct (round_half_even_near q2) as [H2 H2'].
  destruct (round_half_even_near q3) as [H3 H3'].
  destruct (round_half_even_near q4) as [H4 H4'].
  split; rewrite Zle_Qle, !inject_Z_plus.
  - change (inject_Z 9998) with 9998%Q. lra.
  - change (inject_Z 10002) with 10002%Q. lra.
Qed.

Lemma type_share_numerator (c : pct_column) (m : Merged.row) :
  is_type_share c = true -> merged_consistent m ->
  exists n, numerator c m = Some n /\ denominator c m = Some (Merged.Total m)
    /\ 0 <= n <= Merged.Total m.
Proof.
  intros Hc [HD [HF [HS [HT Htot]]]].
  destruct c; try discriminate; simpl; eexists; (split; [reflexivity |]);
    (split; [reflexivity | lia]).
Qed.

Lemma zero_in_0_100 : in_0_100 (of_int 0).
Proof. unfold in_0_100, of_int, Qle, inject_Z. simpl. lia. Qed.

(** On a consistent row the four shares are zero without sales and
    within [0, 100] otherwise; they are never infinite. *)
Lemma type_shares_of_consistent (m : Merged.row) (c : pct_column) :
  merged_consistent m -> is_type_share c = true ->
  in_0_100 (pct_of c (percentages_row m))
  /\ (Merged.Total m = 0 -> pct_of c (percentages_row m) = of_int 0).
Proof.
  intros Hm Hc.
  destruct (type_share_numerator c m Hc Hm) as [n [Hn [Hd Hle]]].
  rewrite pct_of_percentages_row, Hn, Hd. simpl of_cell.
  destruct (Z.eq_dec (Merged.Total m) 0) as [E | E].
  - rewrite E in *. assert (n = 0) by lia. subst n.
    rewrite percentage_zero_over_zero. simpl.
    split; [apply zero_in_0_100 | reflexivity].
  - assert (Hpos : 0 < Merged.Total m)
      by (destruct Hm as [? [? [? [? ?]]]]; lia).
    destruct (percentage_bounded n (Merged.Total m) Hpos Hle) as [Hb Hna].
    unfold fillna. rewrite Hna. split; [exact Hb | intros; contradiction].
Qed.

(** X17.  When the counts of every row of the sales table are
    consistent (non-negative, Total = D + F + S + T), then in every row
    of [calculate_percentages (merge_datasets ..)] each of Pct_Detached,
    Pct_Flats, Pct_Semi and Pct_Terraced is a finite value of [0, 100],
    and is exactly zero when the row has no sales. *)
Theorem type_shares_bounded
  (dwellings_df : list Dwellings.row) (sales_df : list Sales.row)
  (r : Analysis.row) (c : pct_column) :
  (forall s, In s sales_df -> sales_consistent s) ->
  In r (calculate_percentages (merge_datasets dwellings_df sales_df)) ->
  is_type_share c = true ->
  in_0_100 (pct_of c r)
  /\ (Analysis.Total_Sales r = 0 -> pct_of c r = of_int 0).
Proof.
  intros Hall Hr Hc. unfold calculate_percentages in Hr.
  apply in_map_iff in Hr. destruct Hr as [m [<- Hm]].
  apply type_shares_of_consistent; [| exact Hc].
  now apply (merge_datasets_consistent dwellings_df sales_df).
Qed.

Lemma type_shares_bounded_witness :
  in_0_100 (pct_of Flats (percentages_row
                            (fill_sales (outer_row (both london_dwellings london_sales)))))
  /\ (Analysis.Total_Sales
        (percentages_row (fill_sales (outer_row (both london_dwellings london_sales)))) = 0 ->
      pct_of Flats (percentages_row
                      (fill_sales (outer_row (both london_dwellings london_sales))))
      = of_int 0).
Proof.
  apply (type_shares_bounded [london_dwellings; wales_dwellings] [london_sales]).
  - intros s [<- | []]. unfold sales_consistent. simpl. lia.
  - vm_compute. left. reflexivity.
  - reflexivity.
Defined.

(** X18.  Under the same condition, in a row with sales the four shares
    are whole numbers of hundredths that add up to 100 within two
    hundredths. *)
Theorem type_shares_add_up
  (dwellings_df : list Dwellings.row) (sales_df : list Sales.row) (r : Analysis.row) :
  (forall s, In s sales_df -> sales_consistent s) ->
  In r (calculate_percentages (merge_datasets dwellings_df sales_df)) ->
  0 < Analysis.Total_Sales r ->
  exists h1 h2 h3 h4 : Z,
    Analysis.Pct_Detached r = Fin (inject_Z h1 / 100)
    /\ Analysis.Pct_Flats r = Fin (inject_Z h2 / 100)
    /\ Analysis.Pct_Semi r = Fin (inject_Z h3 / 100)
    /\ Analysis.Pct_Terraced r = Fin (inject_Z h4 / 100)
    /\ 9998 <= h1 + h2 + h3 + h4 <= 10002.
Proof.
  intros Hall Hr Hpos. unfold calculate_percentages in Hr.
  apply in_map_iff in Hr. destruct Hr as [m [<- Hm]].
  pose proof (merge_datasets_consistent dwellings_df sales_df m Hall Hm)
    as [HD [HF [HS [HT Htot]]]].
  simpl in Hpos. simpl.
  assert (Hne : Merged.Total m <> 0) by lia.
  rewrite !(percentage_value _ _ Hne). unfold fillna. simpl.
  do 4 eexists. repeat (split; [reflexivity |]).
  apply rounded_shares_sum. now apply scaled_shares_sum.
Qed.

Lemma type_shares_add_up_witness :
  exists h1 h2 h3 h4 : Z,
    Analysis.Pct_Detached
      (percentages_row (fill_sales (outer_row (both london_dwellings london_sales))))
    = Fin (inject_Z h1 / 100)
    /\ Analysis.Pct_Flats
         (percentages_row (fill_sales (outer_row (both london_dwellings london_sales))))
       = Fin (inject_Z h2 / 100)
    /\ Analysis.Pct_Semi
         (percentages_row (fill_sales (outer_row (both london_dwellings london_sales))))
       = Fin (inject_Z h3 / 100)
    /\ Analysis.Pct_Terraced
         (percentages_row (fill_sales (outer_row (both london_dwellings london_sales))))
       = Fin (inject_Z h4 / 100)
    /\ 9998 <= h1 + h2 + h3 + h4 <= 10002.
Proof.
  apply (type_shares_add_up [london_dwellings; wales_dwellings] [london_sales]).
  - intros s [<- | []]. unfold sales_consistent. simpl. lia.
  - vm_compute. left. reflexivity.
  - simpl. lia.
Defined.

(** *** The national row and the end of the pipeline *)

Lemma national_pct (c : pct_column) (analysis_df : list Analysis.row) :
  is_type_share c = true ->
  pct_of c (national analysis_df)
  = percentage (of_int (sum_by (analysis_numerator c) analysis_df))
      (of_int (sum_by Analysis.Total_Sales analysis_df)).
Proof.
  intros Hc. destruct c; try discriminate; simpl;
    now rewrite !int_sum_sum_by.
Qed.

Lemma national_consistent (analysis_df : list Analysis.row) (c : pct_column) :
  (forall r, In r analysis_df -> analysis_consistent r) ->
  is_type_share c = true ->
  0 <= sum_by (analysis_numerator c) analysis_df
       <= sum_by Analysis.Total_Sales analysis_df.
Proof.
  intros Hall Hc.
  assert (HD : 0 <= sum_by Analysis.Sales_Detached analysis_df)
    by (apply sum_by_nonneg; intros r Hr; apply (Hall r Hr)).
  assert (HF : 0 <= sum_by Analysis.Sales_Flats analysis_df)
    by (apply sum_by_nonneg; intros r Hr; apply (Hall r Hr)).
  assert (HS : 0 <= sum_by Analysis.Sales_Semi analysis_df)
    by (apply sum_by_nonneg; intros r Hr; apply (Hall r Hr)).
  assert (HT : 0 <= sum_by Analysis.Sales_Terraced analysis_df)
    by (apply sum_by_nonneg; intros r Hr; apply (Hall r Hr)).
  assert (Hsum : sum_by Analysis.Total_Sales analysis_df
                 = sum_by Analysis.Sales_Detached analysis_df
                   + sum_by Analysis.Sales_Flats analysis_df
                   + sum_by Analysis.Sales_Semi analysis_df
                   + sum_by Analysis.Sales_Terraced analysis_df).
  { rewrite <- !sum_by_add. apply sum_by_ext. intros r Hr. apply (Hall r Hr). }
  destruct c; try discriminate;
    [ change (analysis_numerator Detached) with Analysis.Sales_Detached
    | change (analysis_numerator Flats) with Analysis.Sales_Flats
    | change (analysis_numerator Semi) with Analysis.Sales_Semi
    | change (analysis_numerator Terraced) with Analysis.Sales_Terraced ];
    lia.
Qed.

Lemma percentages_consistent
  (dwellings_df : list Dwellings.row) (sales_df : list Sales.row) (r : Analysis.row) :
  (forall s, In s sales_df -> sales_consistent s) ->
  In r (calculate_percentages (merge_datasets dwellings_df sales_df)) ->
  analysis_consistent r.
Proof.
  intros Hall Hr. unfold calculate_percentages in Hr.
  apply in_map_iff in Hr. destruct Hr as [m [<- Hm]].
  exact (merge_datasets_consistent dwellings_df sales_df m Hall Hm).
Qed.

(** X19.  When the counts of every row of the sales table are
    consistent, each of the four shares of the NATIONAL row is NaN when
    no region has any sale (the national percentages are not passed
    through fillna), and a finite value of [0, 100] otherwise. *)
Theorem national_type_shares
  (dwellings_df : list Dwellings.row) (sales_df : list Sales.row) (c : pct_column) :
  (forall s, In s sales_df -> sales_consistent s) ->
  is_type_share c = true ->
  let n := national (calculate_percentages (merge_datasets dwellings_df sales_df)) in
  0 <= Analysis.Total_Sales n
  /\ (Analysis.Total_Sales n = 0 -> pct_of c n = NaN)
  /\ (0 < Analysis.Total_Sales n -> in_0_100 (pct_of c n)).
Proof.
  intros Hall Hc n. subst n.
  set (analysis_df := calculate_percentages (merge_datasets dwellings_df sales_df)).
  assert (Hcons : forall r, In r analysis_df -> analysis_consistent r)
    by (intros r Hr; now apply (percentages_consistent dwellings_df sales_df)).
  pose proof (national_consistent analysis_df c Hcons Hc) as Hle.
  assert (Htot : Analysis.Total_Sales (national analysis_df)
                 = sum_by Analysis.Total_Sales analysis_df)
    by (simpl; apply int_sum_sum_by).
  rewrite (national_pct c analysis_df Hc), Htot.
  split; [lia |]. split.
  - intros E. rewrite E in *.
    assert (E0 : sum_by (analysis_numerator c) analysis_df = 0) by lia.
    rewrite E0. apply percentage_zero_over_zero.
  - intros Hpos. now apply percentage_bounded.
Qed.

Lemma national_type_shares_witness :
  0 <= Analysis.Total_Sales
         (national (calculate_percentages (merge_datasets [wales_dwellings] [wales_no_sales])))
  /\ (Analysis.Total_Sales
        (national (calculate_percentages (merge_datasets [wales_dwellings] [wales_no_sales])))
      = 0 ->
      pct_of Detached
        (national (calculate_percentages (merge_datasets [wales_dwellings] [wales_no_sales])))
      = NaN)
  /\ (0 < Analysis.Total_Sales
             (national (calculate_percentages
                          (merge_datasets [wales_dwellings] [wales_no_sales]))) ->
      in_0_100
        (pct_of Detached
           (national (calculate_percentages
                        (merge_datasets [wales_dwellings] [wales_no_sales]))))).
Proof.
  apply (national_type_shares [wales_dwellings] [wales_no_sales] Detached).
  - intros s [<- | []]. unfold sales_consistent. simpl. lia.
  - reflexivity.
Defined.

(** Without any sale the regional shares are zero and the national ones
    NaN, so the NATIONAL row is not flagged for them. *)
Example main_without_sales :
  option_map
    (map (fun r => (Summary.Region_Code r, Summary.Pct_Detached r, Summary.Max_Detached r)))
    (main [wales_dwellings] [wales_no_sales])
  = Some [("W92000004"%string, of_int 0, true); ("NATIONAL"%string, NaN, false)].
Proof. reflexivity. Qed.

(** X20.  [identify_maxima] raises exactly when some percentage column
    has no value in any regional row: every regional row is NaN there,
    or there is no regional row at all. *)
Theorem identify_maxima_raises_iff (df : list Analysis.row) :
  identify_maxima df = None <->
  exists c, forall r, In r df -> is_regional r = true -> isna (pct_of c r) = true.
Proof.
  split.
  - intros Hnone.
    assert (Hdec : forall c,
               idxmax (map (pct_of c) (filter is_regional df)) = None
               \/ idxmax (map (pct_of c) (filter is_regional df)) <> None)
      by (intros c; destruct (idxmax _); [right; discriminate | now left]).
    assert (Hsome : (forall c, idxmax (map (pct_of c) (filter is_regional df)) <> None) ->
                    False).
    { intros Hall.
      destruct (identify_maxima_returns df) as [out Hout]; [| congruence].
      intros c. specialize (Hall c).
      apply idxmax_some_iff in Hall. destruct Hall as [x [Hx Hn]].
      apply in_map_iff in Hx. destruct Hx as [r [<- Hr]].
      apply filter_In in Hr. exists r. tauto. }
    assert (Hex : exists c, idxmax (map (pct_of c) (filter is_regional df)) = None).
    { destruct (Hdec Detached) as [H | H1]; [eauto |].
      destruct (Hdec Flats) as [H | H2]; [eauto |].
      destruct (Hdec Semi) as [H | H3]; [eauto |].
      destruct (Hdec Terraced) as [H | H4]; [eauto |].
      destruct (Hdec Rate) as [H | H5]; [eauto |].
      exfalso. apply Hsome. intros c. destruct c; assumption. }
    destruct Hex as [c Hc]. exists c. intros r Hr Hreg.
    destruct (isna (pct_of c r)) eqn:E; [reflexivity |].
    exfalso. revert Hc. apply idxmax_some_iff.
    exists (pct_of c r). split.
    + apply in_map. apply filter_In. auto.
    + unfold notna. now rewrite E.
  - intros [c Hc].
    destruct (identify_maxima df) as [out |] eqn:E; [| reflexivity].
    exfalso. destruct (identify_maxima_inv df out E) as [Hidx _].
    specialize (Hidx c). apply idxmax_some_iff in Hidx.
    destruct Hidx as [x [Hx Hn]].
    apply in_map_iff in Hx. destruct Hx as [r [<- Hr]].
    apply filter_In in Hr. destruct Hr as [Hr Hreg].
    unfold notna in Hn. rewrite (Hc r Hr Hreg) in Hn. discriminate.
Qed.

(** X21.  [main] of task_5 returns exactly when one of the two tables
    has a key whose Region_Code is not NATIONAL; and then the table it
    writes has one row per row of the merged table, in the same order,
    followed by the NATIONAL row. *)
Theorem task5_main_returns
  (dwellings_df : list Dwellings.row) (sales_df : list Sales.row) :
  (main dwellings_df sales_df <> None <->
   exists k, (In k (map dwellings_key dwellings_df) \/ In k (map sales_key sales_df))
             /\ fst k <> "NATIONAL"%string)
  /\ forall out, main dwellings_df sales_df = Some out ->
       map Summary.Region_Code out
       = map Merged.Region_Code (merge_datasets dwellings_df sales_df)
           ++ ["NATIONAL"%string].
Proof.
  unfold main.
  set (merged_df := merge_datasets dwellings_df sales_df).
  split.
  - split.
    + intros Hsome.
      destruct (identify_maxima (calculate_national_totals
                                   (calculate_percentages merged_df)))
        as [out |] eqn:E; [| congruence].
      destruct (identify_maxima_inv _ out E) as [Hidx _].
      specialize (Hidx Detached). apply idxmax_some_iff in Hidx.
      destruct Hidx as [x [Hx _]].
      apply in_map_iff in Hx. destruct Hx as [r [_ Hr]].
      apply filter_In in Hr. destruct Hr as [Hr Hreg].
      unfold calculate_national_totals in Hr. apply in_app_or in Hr.
      destruct Hr as [Hr | [<- | []]]; [| discriminate Hreg].
      unfold calculate_percentages in Hr. apply in_map_iff in Hr.
      destruct Hr as [m [<- Hm]].
      exists (merged_key m). split.
      * apply in_merged_keys. now apply in_map.
      * unfold is_regional in Hreg. simpl in Hreg.
        apply negb_true_iff, String.eqb_neq in Hreg. exact Hreg.
    + intros [k [Hk Hcode]].
      apply in_merged_keys in Hk. apply in_map_iff in Hk.
      destruct Hk as [m [<- Hm]].
      destruct (identify_maxima_returns_on_pipeline merged_df m Hm Hcode) as [out ->].
      discriminate.
  - intros out.
    destruct (identify_maxima (calculate_national_totals
                                 (calculate_percentages merged_df)))
      as [flagged |] eqn:E; [| discriminate].
    intros H. injection H as <-.
    destruct (identify_maxima_inv _ flagged E) as [_ [Hdata _]].
    unfold create_summary_table. rewrite map_map. simpl.
    rewrite <- (map_map Flagged.data Analysis.Region_Code), Hdata.
    unfold calculate_national_totals, calculate_percentages.
    rewrite map_app, map_map. reflexivity.
Qed.

Lemma task5_main_returns_witness :
  main [] [] = None
  /\ main [london_dwellings; wales_dwellings] [london_sales] <> None.
Proof.
  split.
  - destruct (main [] []) as [out |] eqn:E; [| reflexivity].
    exfalso.
    assert (Hsome : main [] [] <> None) by congruence.
    apply (proj1 (proj1 (task5_main_returns [] []))) in Hsome.
    destruct Hsome as [k [[[] | []] _]].
  - apply (proj2 (proj1 (task5_main_returns [london_dwellings; wales_dwellings]
                           [london_sales]))).
    exists ("E12000007", "London")%string. split.
    + left. left. reflexivity.
    + discriminate.
Defined.
